(** * openvino_notebooks: the DynamiCrafter conversion cell, the demo launch
      cell and the treon workflow trigger

    A shallow embedding of

    - [convert] (notebooks/dynamicrafter-animating-images, the cell that
      defines the skip-if-exists conversion step),
    - the [try: demo.queue().launch(...) except Exception: ...] cell, and
    - the [on:] block of the treon workflow,

    together with the properties the specification states about them; and of
    [download_model], [get_image], the patched [register_buffer] and the
    [concurrency] block of the workflow, with properties read off the code.

    Python code is embedded in a state-and-exception monad.  The file system
    is a tree of directories; [pathlib] and [os] calls are modelled on that
    tree with the error each of them raises.  The OpenVINO converter and the
    Gradio server are external: they are section variables, and every call
    to them is recorded in a log kept in the state.

    [convert] is embedded twice.  The first embedding reads a path as a
    sequence of names in the tree, and [ov.save_model] as the write of one
    file.  The second, [OS.convert], is the same code over calls that resolve
    [..], refuse names that are too long and paths with a null character, and
    write the two files of a model; the properties of directory creation, of
    the life of an artifact and of the save are stated over it.  The file name
    that [get_image] makes of a prompt is embedded on strings of [ascii]
    characters, which the embedding of [get_image] uses, and on strings of
    code points ([Unicode.prompt_str]), which is what [len] and a slice of a
    Python string count; the two agree on prompts of characters below 256. *)

From stdpp Require Import gmap strings list pretty.
From Stdlib Require Import ZArith Ascii.

Set Default Proof Using "Type".
Set Warnings "-register-all".

(** ** Python exceptions *)

(** The exception classes the embedded code can meet.  [OtherException]
    stands for any other class derived from [Exception] (RuntimeError,
    ValueError, the converter's OpConversionFailure, ...); [OtherBaseException]
    for a class derived from [BaseException] directly. *)
Inductive exc : Type :=
  | FileNotFoundError
  | FileExistsError
  | NotADirectoryError
  | IsADirectoryError
  | KeyboardInterrupt
  | SystemExit
  | GeneratorExit
  | OtherException (name : string)
  | OtherBaseException (name : string).

Global Instance exc_eq_dec : EqDecision exc.
Proof. solve_decision. Defined.

(** [isinstance(e, Exception)]: what an [except Exception:] clause catches. *)
Definition is_Exception (e : exc) : bool :=
  match e with
  | KeyboardInterrupt | SystemExit | GeneratorExit | OtherBaseException _ => false
  | _ => true
  end.

(** ** Python values and truthiness *)

Inductive pyval : Type :=
  | PyNone
  | PyBool (b : bool)
  | PyInt (z : Z)
  | PyStr (s : string)
  | PyList (l : list pyval)
  | PyTuple (l : list pyval)
  | PyObject (repr : string).

(** [bool(v)], as [if not v] tests it.  [PyObject] is an instance of a class
    that defines neither [__bool__] nor [__len__]. *)
Definition truthy (v : pyval) : bool :=
  match v with
  | PyNone => false
  | PyBool b => b
  | PyInt z => negb (z =? 0)%Z
  | PyStr s => negb (String.eqb s "")
  | PyList l | PyTuple l => match l with [] => false | _ :: _ => true end
  | PyObject _ => true
  end.

(** ** Statements that read and write a state and may raise *)

Definition PyM (S A : Type) : Type := S → (exc + A) * S.

Global Instance PyM_ret {S} : MRet (PyM S) := λ A a s, (inr a, s).
Global Instance PyM_bind {S} : MBind (PyM S) := λ A B f m s,
  match m s with
  | (inl e, s') => (inl e, s')
  | (inr a, s') => f a s'
  end.

Definition raise {S A} (e : exc) : PyM S A := λ s, (inl e, s).

(** [try: body except <class>: handler], the class given by the test
    [catches]. *)
Definition try_except {S A} (body : PyM S A) (catches : exc → bool)
    (handler : PyM S A) : PyM S A := λ s,
  match body s with
  | (inl e, s') => if catches e then handler s' else (inl e, s')
  | (inr a, s') => (inr a, s')
  end.

(** ** The file system *)

(** A path is the sequence of its components ([Path.parts]) below the
    working directory; [[]] is the working directory itself. *)
Abbreviation path := (list string).

Inductive node : Type :=
  | File (data : string)
  | Dir (entries : gmap string node).

(** A directory is the map of its entries; the state of the file system is the
    working directory. *)
Abbreviation dir := (gmap string node).

(** What [os.stat] tells the code here: a regular file (with its content) or
    a directory. *)
Inductive kind : Type :=
  | KFile (data : string)
  | KDir.

Global Instance kind_eq_dec : EqDecision kind.
Proof. solve_decision. Defined.

(** [os.stat] on the tree, every component read as a name, with every error
    read as "nothing there", which is how [Path.exists] and [Path.is_dir]
    read the errors of a missing component.  ([OS.os_stat] below resolves
    [..] and has the errors of the operating system.) *)
Fixpoint stat (d : dir) (p : path) : option kind :=
  match p with
  | [] => Some KDir
  | c :: p' =>
      match d !! c with
      | None => None
      | Some (File data) => match p' with [] => Some (KFile data) | _ => None end
      | Some (Dir d') => stat d' p'
      end
  end.

Definition exists_ (d : dir) (p : path) : bool :=
  match stat d p with Some _ => true | None => false end.

Definition is_dir (d : dir) (p : path) : bool :=
  match stat d p with Some KDir => true | _ => false end.

Definition is_file (d : dir) (p : path) : bool :=
  match stat d p with Some (KFile _) => true | _ => false end.

(** Some prefix of [p] is a regular file: the path cannot be, or become, a
    directory. *)
Fixpoint obstructed (d : dir) (p : path) : bool :=
  match p with
  | [] => false
  | c :: p' =>
      match d !! c with
      | None => false
      | Some (File _) => true
      | Some (Dir d') => obstructed d' p'
      end
  end.

(** [os.mkdir(p)]: the parent must be a directory and [p] must not exist. *)
Fixpoint os_mkdir (d : dir) (p : path) : exc + dir :=
  match p with
  | [] => inl FileExistsError
  | c :: p' =>
      match d !! c, p' with
      | None, [] => inr (<[c := Dir ∅]> d)
      | None, _ :: _ => inl FileNotFoundError
      | Some (File _), [] => inl FileExistsError
      | Some (File _), _ :: _ => inl NotADirectoryError
      | Some (Dir d'), _ =>
          match os_mkdir d' p' with
          | inl e => inl e
          | inr d'' => inr (<[c := Dir d'']> d)
          end
      end
  end.

(** [open(p, "w")] followed by a write of [data] and a close: the parent must
    be a directory and [p] must not be one; a regular file at [p] is
    replaced. *)
Fixpoint write_file (d : dir) (p : path) (data : string) : exc + dir :=
  match p with
  | [] => inl IsADirectoryError
  | c :: p' =>
      match p', d !! c with
      | [], Some (Dir _) => inl IsADirectoryError
      | [], _ => inr (<[c := File data]> d)
      | _ :: _, None => inl FileNotFoundError
      | _ :: _, Some (File _) => inl NotADirectoryError
      | _ :: _, Some (Dir d') =>
          match write_file d' p' data with
          | inl e => inl e
          | inr d'' => inr (<[c := Dir d'']> d)
          end
      end
  end.

(** *** pathlib *)

(** [Path(s)]: the components of [s] between slashes, empty components and
    [.] dropped.  The model covers paths below the working directory whose
    components are names. *)
Fixpoint components (s cur : string) : list string :=
  match s with
  | EmptyString => [cur]
  | String c s' =>
      if Ascii.eqb c "/"%char then cur :: components s' ""
      else components s' (cur +:+ String c "")
  end.

Definition Path (s : string) : path :=
  filter (λ c, c ≠ "" ∧ c ≠ ".") (components s "").

(** [p.parent]; the parent of the working directory is itself. *)
Definition parent (p : path) : path := removelast p.

(** [Path.mkdir(parents=False, exist_ok=...)]:
    [try: os.mkdir(self)]
    [except FileNotFoundError: raise]  (no parents)
    [except OSError: if not exist_ok or not self.is_dir(): raise]. *)
Definition mkdir_plain (d : dir) (p : path) (exist_ok : bool) : exc + dir :=
  match os_mkdir d p with
  | inr d' => inr d'
  | inl FileNotFoundError => inl FileNotFoundError
  | inl e => if negb exist_ok || negb (is_dir d p) then inl e else inr d
  end.

(** [Path.mkdir(parents=True, exist_ok=...)], by recursion on the reversed
    path [rp], so that the call on [self.parent] is a call on the tail:
    [try: os.mkdir(self)]
    [except FileNotFoundError:]
    [    if self.parent == self: raise]
    [    self.parent.mkdir(parents=True, exist_ok=True)]
    [    self.mkdir(parents=False, exist_ok=exist_ok)]
    [except OSError: if not exist_ok or not self.is_dir(): raise]. *)
Fixpoint mkdir_parents (d : dir) (rp : list string) (exist_ok : bool) : exc + dir :=
  match os_mkdir d (rev rp) with
  | inr d' => inr d'
  | inl FileNotFoundError =>
      match rp with
      | [] => inl FileNotFoundError
      | _ :: rparent =>
          match mkdir_parents d rparent true with
          | inl e => inl e
          | inr d1 => mkdir_plain d1 (rev rp) exist_ok
          end
      end
  | inl e => if negb exist_ok || negb (is_dir d (rev rp)) then inl e else inr d
  end.

Definition pathlib_mkdir (d : dir) (p : path) (parents exist_ok : bool) : exc + dir :=
  if parents then mkdir_parents d (rev p) exist_ok else mkdir_plain d p exist_ok.

(** ** The conversion step *)

(** The state of torch that [convert] reads and writes: the gradient mode and
    the three stores of the TorchScript class registry that the cleanup
    resets ([torch._C]'s class registry, [torch.jit._recursive]'s
    [concrete_type_store], [torch.jit._state]'s class state), each as the list
    of the names it holds. *)
Record torch_state : Type := {
  grad_enabled : bool;
  class_registry : list string;
  concrete_type_store : list string;
  class_state : list string
}.

Definition set_grad_enabled (b : bool) (t : torch_state) : torch_state :=
  {| grad_enabled := b;
     class_registry := class_registry t;
     concrete_type_store := concrete_type_store t;
     class_state := class_state t |}.

Definition registry_size (t : torch_state) : nat :=
  length (class_registry t) + length (concrete_type_store t) + length (class_state t).

Section Conversion.
(** [torch.nn.Module], the example input (a tensor or a dict of tensors) and
    [ov.Model]. *)
Context {nn_Module tensor ov_Model : Type}.

(** The calls to OpenVINO, as the log records them: [ConvertModel] with the
    gradient mode at the time of the call, [input] being [None] when the
    keyword is not passed. *)
Inductive call : Type :=
  | ConvertModel (model : nn_Module) (example_input : tensor)
      (input : option pyval) (grad : bool)
  | SaveModel (m : ov_Model) (output_model : path) (compress_to_fp16 : bool).

Record world : Type := {
  fs : dir;
  torch : torch_state;
  calls : list call
}.

(** [ov.convert_model]: external.  It returns a model or raises, and may
    leave entries in the class registry. *)
Variable ov_convert_model :
  nn_Module → tensor → option pyval → torch_state → (exc + ov_Model) * torch_state.

(** The XML text [ov.save_model] writes for a model, compressed to FP16 or
    not: external. *)
Variable serialize : ov_Model → bool → string.

Definition Path_exists (p : path) : PyM world bool := λ w,
  (inr (exists_ (fs w) p), w).

Definition Path_mkdir (p : path) (parents exist_ok : bool) : PyM world unit := λ w,
  match pathlib_mkdir (fs w) p parents exist_ok with
  | inl e => (inl e, w)
  | inr d => (inr tt, {| fs := d; torch := torch w; calls := calls w |})
  end.

(** [with torch.no_grad(): body]: the mode is switched off on entry and put
    back on exit, also when [body] raises. *)
Definition no_grad {A} (body : PyM world A) : PyM world A := λ w,
  let prev := grad_enabled (torch w) in
  let '(r, w') :=
    body {| fs := fs w; torch := set_grad_enabled false (torch w); calls := calls w |} in
  (r, {| fs := fs w'; torch := set_grad_enabled prev (torch w'); calls := calls w' |}).

Definition convert_model (model : nn_Module) (example_input : tensor)
    (input : option pyval) : PyM world ov_Model := λ w,
  let '(r, t) := ov_convert_model model example_input input (torch w) in
  (r, {| fs := fs w; torch := t;
         calls := calls w ++
           [ConvertModel model example_input input (grad_enabled (torch w))] |}).

(** [ov.save_model]: external.  It serializes the model to [output_model]:
    the text of the model, compressed or not as [compress_to_fp16] says, is
    written to the file at that path.  (The weights file it writes next to
    the XML file is left out here; [OS.save_model] below writes both files
    and can refuse the path.) *)
Definition save_model (m : ov_Model) (output_model : path)
    (compress_to_fp16 : bool) : PyM world unit := λ w,
  let log := calls w ++ [SaveModel m output_model compress_to_fp16] in
  match write_file (fs w) output_model (serialize m compress_to_fp16) with
  | inl e => (inl e, {| fs := fs w; torch := torch w; calls := log |})
  | inr d => (inr tt, {| fs := d; torch := torch w; calls := log |})
  end.

(** [torch._C._jit_clear_class_registry()] *)
Definition jit_clear_class_registry : PyM world unit := λ w,
  (inr tt,
   {| fs := fs w; calls := calls w;
      torch := {| grad_enabled := grad_enabled (torch w);
                  class_registry := [];
                  concrete_type_store := concrete_type_store (torch w);
                  class_state := class_state (torch w) |} |}).

(** [torch.jit._recursive.concrete_type_store = ConcreteTypeStore()] *)
Definition reset_concrete_type_store : PyM world unit := λ w,
  (inr tt,
   {| fs := fs w; calls := calls w;
      torch := {| grad_enabled := grad_enabled (torch w);
                  class_registry := class_registry (torch w);
                  concrete_type_store := [];
                  class_state := class_state (torch w) |} |}).

(** [torch.jit._state._clear_class_state()] *)
Definition clear_class_state : PyM world unit := λ w,
  (inr tt,
   {| fs := fs w; calls := calls w;
      torch := {| grad_enabled := grad_enabled (torch w);
                  class_registry := class_registry (torch w);
                  concrete_type_store := concrete_type_store (torch w);
                  class_state := [] |} |}).

(** [def convert(model, xml_path, example_input, input_shape=None)] *)
Definition convert (model : nn_Module) (xml_path : string)
    (example_input : tensor) (input_shape : pyval) : PyM world unit :=
  let xml_path := Path xml_path in
  found ← Path_exists xml_path;
  if negb found then
    Path_mkdir (parent xml_path) true true;;
    converted_model ← no_grad (
      if negb (truthy input_shape) then
        convert_model model example_input None
      else
        convert_model model example_input (Some input_shape));
    save_model converted_model xml_path false;;
    (* cleanup memory *)
    jit_clear_class_registry;;
    reset_concrete_type_store;;
    clear_class_state
  else
    mret tt.

(** The notebook calls [convert] several times in a row.  A cell that raises
    stops the run of the notebook. *)
Record request : Type := {
  req_model : nn_Module;
  req_path : string;
  req_example : tensor;
  req_shape : pyval
}.

Definition run_request (r : request) : PyM world unit :=
  convert (req_model r) (req_path r) (req_example r) (req_shape r).

Fixpoint run_cells (rs : list request) : PyM world unit :=
  match rs with
  | [] => mret tt
  | r :: rs' => run_request r;; run_cells rs'
  end.

(** The same calls when each is run whatever the one before did (cells run
    by hand, one by one): the state they leave. *)
Fixpoint run_each (rs : list request) (w : world) : world :=
  match rs with
  | [] => w
  | r :: rs' => run_each rs' (snd (run_request r w))
  end.


(** The two states of an artifact. *)
Inductive artifact_state : Type := Missing | Present.

Definition artifact (w : world) (p : path) : artifact_state :=
  if is_file (fs w) p then Present else Missing.

End Conversion.

Arguments call : clear implicits.
Arguments world : clear implicits.
Arguments request : clear implicits.

(** The [input] keyword [convert] passes to [ov.convert_model]: the shape when
    [if not input_shape] fails, no keyword otherwise. *)
Definition input_argument (input_shape : pyval) : option pyval :=
  if negb (truthy input_shape) then None else Some input_shape.

(** ** The demo launch *)

(** The keywords of [launch]; [None] is a keyword the call does not pass. *)
Record launch_args : Type := {
  debug : option bool;
  share : option bool
}.

Section Demo.
(** The Gradio server behind the [Blocks] object: external. *)
Context {server : Type}.

Record demo : Type := {
  queue_enabled : bool;
  launches : list launch_args;
  gradio : server
}.

(** [Blocks.launch]: it returns or raises. *)
Variable gr_launch : launch_args → server → (exc + unit) * server.

(** [demo.queue()] switches queueing on and returns the same object. *)
Definition queue : PyM demo unit := λ d,
  (inr tt, {| queue_enabled := true; launches := launches d; gradio := gradio d |}).

Definition launch (a : launch_args) : PyM demo unit := λ d,
  let '(r, s) := gr_launch a (gradio d) in
  (r, {| queue_enabled := queue_enabled d;
         launches := launches d ++ [a];
         gradio := s |}).

(** [try: demo.queue().launch(debug=True)]
    [except Exception: demo.queue().launch(debug=True, share=True)] *)
Definition launch_demo : PyM demo unit :=
  try_except
    (queue;; launch {| debug := Some true; share := None |})
    is_Exception
    (queue;; launch {| debug := Some true; share := Some true |}).

End Demo.

Arguments demo : clear implicits.

(** ** The treon workflow trigger *)

(** Filter patterns of GitHub Actions, as far as the workflow uses them:
    [*] matches any run of characters without a slash, [**] any run of
    characters, every other character itself. *)
Inductive glob_token : Type :=
  | GChar (c : ascii)
  | GStar
  | GStarStar.

Fixpoint glob_tokens (s : string) : list glob_token :=
  match s with
  | EmptyString => []
  | String c s' =>
      if Ascii.eqb c "*"%char then
        match s' with
        | String c' s'' =>
            if Ascii.eqb c' "*"%char then GStarStar :: glob_tokens s''
            else GStar :: glob_tokens s'
        | EmptyString => [GStar]
        end
      else GChar c :: glob_tokens s'
  end.

Fixpoint glob_match (p : list glob_token) (s : list ascii) : bool :=
  match p with
  | [] => match s with [] => true | _ :: _ => false end
  | GChar c :: p' =>
      match s with
      | x :: s' => Ascii.eqb c x && glob_match p' s'
      | [] => false
      end
  | GStar :: p' =>
      (fix star (s : list ascii) : bool :=
         glob_match p' s ||
         match s with
         | x :: s' => negb (Ascii.eqb x "/"%char) && star s'
         | [] => false
         end) s
  | GStarStar :: p' =>
      (fix star (s : list ascii) : bool :=
         glob_match p' s ||
         match s with
         | _ :: s' => star s'
         | [] => false
         end) s
  end.

Definition pattern_matches (pattern name : string) : bool :=
  glob_match (glob_tokens pattern) (String.list_ascii_of_string name).

(** The filters of one event of the [on:] block. *)
Record filters : Type := {
  branches : list string;
  paths : list string
}.

Record on_block : Type := {
  workflow_dispatch : bool;
  pull_request : option filters;
  push : option filters
}.

Definition watched_paths : list string :=
  [ "notebooks/**.ipynb";
    "notebooks/**.py";
    "requirements.txt";
    ".ci/*";
    ".github/workflows/*.yml";
    ".github/workflows/.env" ].

(** The [on:] block of the treon workflow. *)
Definition treon_on : on_block :=
  {| workflow_dispatch := true;
     pull_request := Some {| branches := ["main"; "latest"]; paths := watched_paths |};
     push := Some {| branches := ["main"; "latest"]; paths := watched_paths |} |}.

(** What happens in the repository: a manual dispatch, a pull request
    against a base branch, or a push to a branch, the last two with the files
    they change. *)
Inductive event : Type :=
  | WorkflowDispatch
  | PullRequest (base : string) (changed : list string)
  | Push (branch : string) (changed : list string).

Definition path_watched (ps : list string) (file : string) : bool :=
  existsb (λ pat, pattern_matches pat file) ps.

(** Both filters must pass: the branch matches one of [branches], and at
    least one changed file matches one of [paths]. *)
Definition filters_pass (f : filters) (branch : string) (changed : list string) : bool :=
  existsb (λ pat, pattern_matches pat branch) (branches f) &&
  existsb (path_watched (paths f)) changed.

Definition triggers (o : on_block) (ev : event) : bool :=
  match ev with
  | WorkflowDispatch => workflow_dispatch o
  | PullRequest base changed =>
      match pull_request o with
      | Some f => filters_pass f base changed
      | None => false
      end
  | Push branch changed =>
      match push o with
      | Some f => filters_pass f branch changed
      | None => false
      end
  end.

(** ** Stubs for the external parts *)

(** A converter, a serializer and a server to run the code on: modules,
    inputs and models are strings. *)
Module Stub.

(** Converts every module but ["broken"]; each call leaves the name of the
    module in the three stores of the class registry. *)
Definition convert_model (model example_input : string) (input : option pyval)
    (t : torch_state) : (exc + string) * torch_state :=
  (if String.eqb model "broken" then inl (OtherException "OpConversionFailure")
   else inr ("ir " +:+ model),
   {| grad_enabled := grad_enabled t;
      class_registry := model :: class_registry t;
      concrete_type_store := model :: concrete_type_store t;
      class_state := model :: class_state t |}).

Definition serialize (m : string) (compress_to_fp16 : bool) : string :=
  (if compress_to_fp16 then "fp16 " else "fp32 ") +:+ m.

Definition fresh_torch : torch_state :=
  {| grad_enabled := true; class_registry := [];
     concrete_type_store := []; class_state := [] |}.

(** An empty working directory. *)
Definition empty_world : world string string string :=
  {| fs := ∅; torch := fresh_torch; calls := [] |}.

(** A working directory in which [models] is a regular file. *)
Definition blocked_world : world string string string :=
  {| fs := {[ "models" := File "not a directory" ]}; torch := fresh_torch; calls := [] |}.

(** A server whose first launch is interrupted from the keyboard. *)
Definition interrupted_launch (a : launch_args) (s : nat) : (exc + unit) * nat :=
  (inl KeyboardInterrupt, S s).

(** A server that cannot bind a port unless the launch is shared. *)
Definition local_port_busy (a : launch_args) (s : nat) : (exc + unit) * nat :=
  (match share a with
   | Some true => inr tt
   | _ => inl (OtherException "OSError: Cannot find empty port")
   end, S s).

Definition new_demo : demo nat :=
  {| queue_enabled := false; launches := []; gradio := 0 |}.

Definition convert_stub := convert convert_model serialize.

(** The scenario of the spec: [models/x.xml] is absent and gets converted. *)
Definition converted_world : world string string string :=
  snd (convert_stub "unet" "models/x.xml" "ones" PyNone empty_world).

(** The five conversions of the notebook, in order. *)
Definition notebook_cells : list (request string string) :=
  [ {| req_model := "cond_stage_model";
       req_path := "models/cond_stage_model.xml";
       req_example := "ones [1, 77]"; req_shape := PyNone |};
    {| req_model := "embedder";
       req_path := "models/embedder_ir.xml";
       req_example := "rand [1, 3, 767, 767]";
       req_shape := PyList [PyInt 1; PyInt 3; PyInt (-1); PyInt (-1)] |};
    {| req_model := "encoder";
       req_path := "models/encode_first_stage_ir.xml";
       req_example := "rand [1, 3, 256, 256]"; req_shape := PyNone |};
    {| req_model := "diffusion_model";
       req_path := "models/model_ir.xml";
       req_example := "dict xc t context fs"; req_shape := PyNone |};
    {| req_model := "decoder";
       req_path := "models/decoder_first_stage_ir.xml";
       req_example := "dict z"; req_shape := PyNone |} ].

(** The same path asked for again and again, by different names and with
    different modules. *)
Definition retries : list (request string string) :=
  [ {| req_model := "unet"; req_path := "models/x.xml";
       req_example := "ones"; req_shape := PyNone |};
    {| req_model := "clip"; req_path := "models//x.xml";
       req_example := "zeros"; req_shape := PyInt 0 |};
    {| req_model := "broken"; req_path := "./models/x.xml";
       req_example := "ones"; req_shape := PyList [PyInt 1] |} ].

End Stub.

(** ** The treon workflow: concurrency *)

(** A name without a slash: a file directly in its directory. *)
Definition no_slash (name : string) : Prop :=
  "/"%char ∉ String.list_ascii_of_string name.

(** What the [concurrency] block reads of a run: [github.run_id], and
    [github.event.pull_request.number], which is null unless a pull request
    started the run. *)
Record run : Type := {
  run_id : N;
  pull_request_number : option N
}.

(** [github.event.pull_request.number || github.run_id]: the left operand
    unless it is falsy (null, or the number zero). *)
Definition concurrency_key (r : run) : N :=
  match pull_request_number r with
  | Some n => if (n =? 0)%N then run_id r else n
  | None => run_id r
  end.

(** [group: ${{ github.workflow }}-${{ ... }}] *)
Definition concurrency_group (workflow : string) (r : run) : string :=
  workflow +:+ "-" +:+ pretty (concurrency_key r).

(** [cancel-in-progress: true]: a run that starts cancels the runs of its
    group that are in progress; the runs left in progress are the others and
    the new one. *)
Definition start_run (workflow : string) (new : run) (in_progress : list run) : list run :=
  new :: filter (λ r, concurrency_group workflow r ≠ concurrency_group workflow new)
           in_progress.

(** ** Strings and string paths *)

(** [c in s], for a string [c] of one character. *)
Fixpoint str_contains (c : ascii) (s : string) : bool :=
  match s with
  | EmptyString => false
  | String x s' => Ascii.eqb x c || str_contains c s'
  end.

(** [s.replace(c, new)], for a string [c] of one character. *)
Fixpoint str_replace (c : ascii) (new s : string) : string :=
  match s with
  | EmptyString => EmptyString
  | String x s' =>
      if Ascii.eqb x c then new +:+ str_replace c new s'
      else String x (str_replace c new s')
  end.

(** [s[:n]], on a string whose characters are one [ascii] each. *)
Fixpoint str_take (n : nat) (s : string) : string :=
  match n, s with
  | S n', String x s' => String x (str_take n' s')
  | _, _ => EmptyString
  end.

(** [s.startswith("/")] and [s.endswith("/")] *)
Definition starts_with_slash (s : string) : bool :=
  match s with
  | String x _ => Ascii.eqb x "/"%char
  | EmptyString => false
  end.

Fixpoint ends_with_slash (s : string) : bool :=
  match s with
  | EmptyString => false
  | String x EmptyString => Ascii.eqb x "/"%char
  | String _ s' => ends_with_slash s'
  end.

(** [os.path.join(a, b)] of [posixpath], which is [os.path] on Linux and
    macOS.  ([ntpath], which is [os.path] on Windows, is not modelled.) *)
Definition os_path_join (a b : string) : string :=
  if starts_with_slash b then b
  else if String.eqb a "" || ends_with_slash a then a +:+ b
  else a +:+ "/" +:+ b.

(** [os.path.exists(s)]: nothing is at the empty path, and a path that ends
    with a slash must be a directory. *)
Definition os_path_exists (d : dir) (s : string) : bool :=
  if String.eqb s "" then false
  else if ends_with_slash s then is_dir d (Path s)
  else exists_ d (Path s).

(** [os.mkdir(s)] *)
Definition os_mkdir_str (d : dir) (s : string) : exc + dir :=
  if String.eqb s "" then inl FileNotFoundError else os_mkdir d (Path s).

(** ** The demo callback *)

(** The file name [get_image] makes of the prompt:
    [prompt_str = prompt.replace("/", "_slash_") if "/" in prompt else prompt]
    [prompt_str = prompt_str.replace(" ", "_") if " " in prompt else prompt_str]
    [prompt_str = prompt_str[:40]]
    [if len(prompt_str) == 0: prompt_str = "empty_prompt"] *)
Definition prompt_str (prompt : string) : string :=
  let prompt_str :=
    if str_contains "/" prompt then str_replace "/" "_slash_" prompt else prompt in
  let prompt_str :=
    if str_contains " " prompt then str_replace " " "_" prompt_str else prompt_str in
  let prompt_str := str_take 40 prompt_str in
  if (String.length prompt_str =? 0)%nat then "empty_prompt" else prompt_str.

Section GetImage.
(** The pipeline object, the input image, the conditioning, the batch of
    samples, and floating point numbers. *)
Context {pipeline image conditioning samples float : Type}.

(** The calls to the libraries, as the log records them, with the gradient
    mode and the autocast mode at the time of the call. *)
Inductive gi_call : Type :=
  | SeedEverything (seed : Z)
  | BatchDdimSampling (noise_shape : list Z) (n_samples ddim_steps : Z)
      (ddim_eta cfg_scale : float) (grad autocast : bool)
  | SaveVideos (savedir : string) (filenames : list string) (fps : Z).

Record gi_world : Type := {
  gi_fs : dir;
  gi_grad : bool;
  gi_autocast : bool;
  gi_calls : list gi_call
}.

(** [model.model.diffusion_model.out_channels] and [model.temporal_length] *)
Variable out_channels : pipeline → Z.
Variable temporal_length : pipeline → Z.

(** The tensor computations of the [with] block from the text embedding to
    the dictionary [cond], as one step that returns or raises: external. *)
Variable make_cond : pipeline → image → string → Z → Z → exc + conditioning.

(** [batch_ddim_sampling(model, cond, noise_shape, n_samples, ddim_steps,
    ddim_eta, cfg_scale)]: external. *)
Variable ddim_sampling :
  pipeline → conditioning → list Z → Z → Z → float → float → exc + samples.

(** The bytes of the video [save_videos] writes for a batch, at a frame
    rate: external. *)
Variable encode_video : samples → Z → string.

Definition gi_path_exists (s : string) : PyM gi_world bool := λ w,
  (inr (os_path_exists (gi_fs w) s), w).

Definition gi_mkdir (s : string) : PyM gi_world unit := λ w,
  match os_mkdir_str (gi_fs w) s with
  | inl e => (inl e, w)
  | inr d =>
      (inr tt, {| gi_fs := d; gi_grad := gi_grad w;
                  gi_autocast := gi_autocast w; gi_calls := gi_calls w |})
  end.

Definition gi_log (c : gi_call) : PyM gi_world unit := λ w,
  (inr tt, {| gi_fs := gi_fs w; gi_grad := gi_grad w;
              gi_autocast := gi_autocast w; gi_calls := gi_calls w ++ [c] |}).

(** A library function that returns or raises and touches nothing else. *)
Definition gi_external {A} (r : exc + A) : PyM gi_world A := λ w, (r, w).

(** [seed_everything(seed)] *)
Definition seed_everything (seed : Z) : PyM gi_world unit :=
  gi_log (SeedEverything seed).

(** [with torch.no_grad(), torch.cpu.amp.autocast(): body]: gradients off
    and autocast on inside, both put back on exit, also when [body]
    raises. *)
Definition no_grad_autocast {A} (body : PyM gi_world A) : PyM gi_world A := λ w,
  let '(r, w') :=
    body {| gi_fs := gi_fs w; gi_grad := false; gi_autocast := true;
            gi_calls := gi_calls w |} in
  (r, {| gi_fs := gi_fs w'; gi_grad := gi_grad w;
         gi_autocast := gi_autocast w; gi_calls := gi_calls w' |}).

Definition batch_ddim_sampling (model : pipeline) (cond : conditioning)
    (noise_shape : list Z) (n_samples ddim_steps : Z)
    (ddim_eta cfg_scale : float) : PyM gi_world samples := λ w,
  (ddim_sampling model cond noise_shape n_samples ddim_steps ddim_eta cfg_scale,
   {| gi_fs := gi_fs w; gi_grad := gi_grad w; gi_autocast := gi_autocast w;
      gi_calls := gi_calls w ++
        [BatchDdimSampling noise_shape n_samples ddim_steps ddim_eta cfg_scale
           (gi_grad w) (gi_autocast w)] |}).

(** [save_videos(batch, savedir, filenames=[name], fps=...)]: external.  It
    writes the video of the batch to [os.path.join(savedir, name + ".mp4")]. *)
Definition save_videos (batch : samples) (savedir name : string) (fps : Z)
    : PyM gi_world unit := λ w,
  let log := gi_calls w ++ [SaveVideos savedir [name] fps] in
  match write_file (gi_fs w) (Path (os_path_join savedir (name +:+ ".mp4")))
          (encode_video batch fps) with
  | inl e =>
      (inl e, {| gi_fs := gi_fs w; gi_grad := gi_grad w;
                 gi_autocast := gi_autocast w; gi_calls := log |})
  | inr d =>
      (inr tt, {| gi_fs := d; gi_grad := gi_grad w;
                  gi_autocast := gi_autocast w; gi_calls := log |})
  end.

(** [def get_image(image, prompt, steps=5, cfg_scale=7.5, eta=1.0, fs=3,
    seed=123, model=model)].  The two [print]s, the clock, the construction
    of [transform] and [model.cpu()] (which returns the pipeline) leave no
    trace in the state. *)
Definition get_image (image_ : image) (prompt : string) (steps : Z)
    (cfg_scale eta : float) (fs seed : Z) (model : pipeline) : PyM gi_world string :=
  let result_dir := "results" in
  found ← gi_path_exists result_dir;
  (if negb found then gi_mkdir result_dir else mret tt);;
  seed_everything seed;;
  let steps := if (steps >? 60)%Z then 60%Z else steps in
  let batch_size := 1%Z in
  let channels := out_channels model in
  let frames := temporal_length model in
  let h := (256 / 8)%Z in
  let w := (256 / 8)%Z in
  let noise_shape := [batch_size; channels; frames; h; w] in
  r ← no_grad_autocast (
    cond ← gi_external (make_cond model image_ prompt fs frames);
    batch_samples ←
      batch_ddim_sampling model cond noise_shape 1 steps eta cfg_scale;
    mret (batch_samples, prompt_str prompt));
  save_videos r.1 result_dir r.2 8;;
  mret (os_path_join result_dir (r.2 +:+ ".mp4")).

End GetImage.

Arguments gi_call : clear implicits.
Arguments gi_world : clear implicits.

(** ** The download of the checkpoint *)

(** [os.mkdir(p)] inside [try: ... except OSError: if not exist_ok or not
    path.isdir(p): raise], the last step of [os.makedirs]. *)
Definition mkdir_or_exists (p : path) (exist_ok : bool) : PyM dir unit := λ d,
  match os_mkdir d p with
  | inr d' => (inr tt, d')
  | inl e => if negb exist_ok || negb (is_dir d p) then (inl e, d) else (inr tt, d)
  end.

(** [os.makedirs(name, exist_ok=...)], on the reversed components of [name]:
    [head] is the path without its last component.  On the empty string
    [mkdir] raises at once.
    [if head and tail and not path.exists(head):]
    [    try: makedirs(head, exist_ok=exist_ok)]
    [    except FileExistsError: pass]
    [try: mkdir(name) except OSError: ...] *)
Fixpoint makedirs (rp : list string) (exist_ok : bool) : PyM dir unit :=
  match rp with
  | [] => mkdir_or_exists [] exist_ok
  | _ :: rhead =>
      (λ d,
         if negb (exists_ d (rev rhead)) then
           try_except (makedirs rhead exist_ok)
             (λ e, bool_decide (e = FileExistsError)) (mret tt) d
         else (inr tt, d));;
      mkdir_or_exists (rev rp) exist_ok
  end.

Definition os_makedirs (name : string) : PyM dir unit :=
  if String.eqb name "" then raise FileNotFoundError
  else makedirs (rev (Path name)) false.

(** [open(p).read()] *)
Definition read_file (d : dir) (p : path) : exc + string :=
  match stat d p with
  | Some (KFile data) => inr data
  | Some KDir => inl IsADirectoryError
  | None => inl (if obstructed d p then NotADirectoryError else FileNotFoundError)
  end.

Section DownloadModel.
(** The pipeline object. *)
Context {pipeline : Type}.

(** The calls to the hub, as the log records them. *)
Inductive dl_call : Type :=
  | HfHubDownload (repo_id filename local_dir : string)
      (local_dir_use_symlinks : bool).

Record dl_world : Type := {
  dl_fs : dir;
  dl_calls : list dl_call
}.

(** The file the hub serves for a repository and a file name, or the error
    of the download: external. *)
Variable hub_fetch : string → string → exc + string.

(** [OmegaConf.load] of the text of the configuration, [config.pop("model",
    ...)], the assignment of [use_checkpoint] and [instantiate_from_config],
    as one step that returns the pipeline or raises: external. *)
Variable instantiate_from_config : string → exc + pipeline.

(** [load_model_checkpoint], given the bytes of the checkpoint: external. *)
Variable load_state : pipeline → string → exc + pipeline.

(** [model.eval()] *)
Variable eval_mode : pipeline → pipeline.

Definition dl_path_exists (s : string) : PyM dl_world bool := λ w,
  (inr (os_path_exists (dl_fs w) s), w).

(** A statement on the file system alone. *)
Definition dl_on_fs {A} (m : PyM dir A) : PyM dl_world A := λ w,
  let '(r, d) := m (dl_fs w) in (r, {| dl_fs := d; dl_calls := dl_calls w |}).

Definition dl_read (s : string) : PyM dl_world string := λ w,
  (read_file (dl_fs w) (Path s), w).

Definition dl_external {A} (r : exc + A) : PyM dl_world A := λ w, (r, w).

(** [hf_hub_download(repo_id, filename, local_dir, local_dir_use_symlinks)]:
    external.  It fetches the file and writes it to
    [os.path.join(local_dir, filename)]. *)
Definition hf_hub_download (repo_id filename local_dir : string)
    (local_dir_use_symlinks : bool) : PyM dl_world unit := λ w,
  let log := dl_calls w ++
    [HfHubDownload repo_id filename local_dir local_dir_use_symlinks] in
  match hub_fetch repo_id filename with
  | inl e => (inl e, {| dl_fs := dl_fs w; dl_calls := log |})
  | inr data =>
      match write_file (dl_fs w) (Path (os_path_join local_dir filename)) data with
      | inl e => (inl e, {| dl_fs := dl_fs w; dl_calls := log |})
      | inr d => (inr tt, {| dl_fs := d; dl_calls := log |})
      end
  end.

(** [def download_model()] *)
Definition download_model : PyM dl_world pipeline :=
  let REPO_ID := "Doubiiu/DynamiCrafter" in
  found ← dl_path_exists "./checkpoints/dynamicrafter_256_v1/";
  (if negb found then dl_on_fs (os_makedirs "./checkpoints/dynamicrafter_256_v1/")
   else mret tt);;
  let local_file := "./checkpoints/dynamicrafter_256_v1/model.ckpt" in
  found ← dl_path_exists local_file;
  (if negb found then
     hf_hub_download REPO_ID "model.ckpt" "./checkpoints/dynamicrafter_256_v1/" false
   else mret tt);;
  let ckpt_path := "checkpoints/dynamicrafter_256_v1/model.ckpt" in
  let config_file := "dynamicrafter/configs/inference_256_v1.0.yaml" in
  config ← dl_read config_file;
  model ← dl_external (instantiate_from_config config);
  ckpt ← dl_read ckpt_path;
  model ← dl_external (load_state model ckpt);
  mret (eval_mode model).

End DownloadModel.

Arguments dl_world : clear implicits.

(** ** The patched [register_buffer] *)

(** Objects, as far as attribute access goes: an object has a class (a class
    object has none here) and a dictionary of attributes.  An attribute is a
    tensor on a device, some other value, or the method object that
    [types.MethodType(register_buffer, self)] makes. *)
Inductive device : Type :=
  | Cpu
  | Cuda (index : nat).

Global Instance device_eq_dec : EqDecision device.
Proof. solve_decision. Defined.

Inductive value : Type :=
  | VTensor (dev : device) (data : string)
  | VOther (v : pyval)
  | VMethod (self : nat).

Record object : Type := {
  obj_class : option nat;
  obj_dict : gmap string value
}.

Abbreviation heap := (gmap nat object).

(** The attribute of that name in the dictionary of the class of [ob]. *)
Definition class_attribute (h : heap) (ob : object) (name : string) : option value :=
  match obj_class ob with
  | None => None
  | Some c =>
      match h !! c with
      | None => None
      | Some cl => obj_dict cl !! name
      end
  end.

(** [getattr(o, name)]: the dictionary of the object, then the dictionary of
    its class.  A method object found in the class is returned as it is: it
    is bound already. *)
Definition getattr (o : nat) (name : string) : PyM heap value := λ h,
  match h !! o with
  | None => (inl (OtherException "ReferenceError"), h)
  | Some ob =>
      match obj_dict ob !! name with
      | Some v => (inr v, h)
      | None =>
          match class_attribute h ob name with
          | Some v => (inr v, h)
          | None => (inl (OtherException "AttributeError"), h)
          end
      end
  end.

(** [setattr(o, name, v)]: the dictionary of the object itself. *)
Definition setattr (o : nat) (name : string) (v : value) : PyM heap unit := λ h,
  match h !! o with
  | None => (inl (OtherException "ReferenceError"), h)
  | Some ob =>
      (inr tt,
       <[o := {| obj_class := obj_class ob;
                 obj_dict := <[name := v]> (obj_dict ob) |}]> h)
  end.

(** [def register_buffer(self, name, attr)]:
    [if isinstance(attr, torch.Tensor):]
    [    if attr.device != torch.device("cpu"): attr = attr.to(torch.device("cpu"))]
    [setattr(self, name, attr)] *)
Definition register_buffer (self : nat) (name : string) (attr : value)
    : PyM heap unit :=
  let attr :=
    match attr with
    | VTensor dev data =>
        if bool_decide (dev ≠ Cpu) then VTensor Cpu data else attr
    | _ => attr
    end in
  setattr self name attr.

(** [DDIMSampler.register_buffer = types.MethodType(register_buffer, DDIMSampler)] *)
Definition patch_register_buffer (DDIMSampler : nat) : PyM heap unit :=
  setattr DDIMSampler "register_buffer" (VMethod DDIMSampler).

(** [o.register_buffer(name, attr)], as the sampler calls it on itself. *)
Definition call_register_buffer (o : nat) (name : string) (attr : value)
    : PyM heap unit :=
  m ← getattr o "register_buffer";
  match m with
  | VMethod self => register_buffer self name attr
  | _ => raise (OtherException "TypeError")
  end.

(** Stubs for the externals of [get_image]: models, images, conditionings,
    samples and floats are strings. *)
Module Sample.

Definition out_channels (model : string) : Z := 4.
Definition temporal_length (model : string) : Z := 16.

(** Fails on an empty image. *)
Definition make_cond (model image prompt : string) (fs frames : Z) : exc + string :=
  if String.eqb image "" then inl (OtherException "TypeError")
  else inr ("cond " +:+ prompt).

(** Fails when asked for no step at all. *)
Definition ddim_sampling (model cond : string) (noise_shape : list Z)
    (n_samples ddim_steps : Z) (ddim_eta cfg_scale : string) : exc + string :=
  if (ddim_steps <=? 0)%Z then inl (OtherException "ValueError")
  else inr ("samples of " +:+ cond).

Definition encode_video (batch : string) (fps : Z) : string := "mp4 " +:+ batch.

Definition get_image_sample :=
  get_image out_channels temporal_length make_cond ddim_sampling encode_video.

(** An empty working directory, gradients on, autocast off. *)
Definition fresh : gi_world string :=
  {| gi_fs := ∅; gi_grad := true; gi_autocast := false; gi_calls := [] |}.

(** A working directory in which [results] is a regular file. *)
Definition results_is_file : gi_world string :=
  {| gi_fs := {[ "results" := File "notes" ]}; gi_grad := true;
     gi_autocast := false; gi_calls := [] |}.

(** Stubs for the externals of [download_model]: a pipeline is the text
    that describes it. *)
Definition hub_fetch (repo_id filename : string) : exc + string :=
  inr ("weights of " +:+ repo_id).

Definition hub_offline (repo_id filename : string) : exc + string :=
  inl (OtherException "ConnectionError").

Definition instantiate_from_config (config : string) : exc + string :=
  inr ("pipeline from " +:+ config).

Definition load_state (model ckpt : string) : exc + string :=
  inr (model +:+ " with " +:+ ckpt).

Definition eval_mode (model : string) : string := model +:+ " in eval mode".

Definition download_model_sample :=
  download_model hub_fetch instantiate_from_config load_state eval_mode.

(** The repository is cloned, nothing is downloaded yet. *)
Definition cloned : dl_world :=
  {| dl_fs :=
       {[ "dynamicrafter" :=
            Dir {[ "configs" :=
                     Dir {[ "inference_256_v1.0.yaml" := File "model: ..." ]} ]} ]};
     dl_calls := [] |}.

(** The same, with a regular file named [checkpoints]. *)
Definition cloned_blocked : dl_world :=
  {| dl_fs := <[ "checkpoints" := File "a list" ]> (dl_fs cloned);
     dl_calls := [] |}.

(** The same, with an old checkpoint in place. *)
Definition cloned_stale : dl_world :=
  {| dl_fs :=
       <[ "checkpoints" :=
            Dir {[ "dynamicrafter_256_v1" :=
                     Dir {[ "model.ckpt" := File "old weights" ]} ]} ]>
         (dl_fs cloned);
     dl_calls := [] |}.

End Sample.

(** ** The conversion step on the file system of the operating system *)

(** The tree above is addressed by sequences of names.  A path that Python
    hands to the operating system is resolved first: [..] steps back to the
    directory above, a name or a path that is too long is refused, and Python
    itself refuses a path that holds a null character.  [ov.save_model]
    writes two files, the XML text and the weights, and refuses a path that
    does not end in [.xml].  [OS.convert] is [convert] over these calls.

    Paths are POSIX paths and the limits are those of Linux; there are no
    links.  The working directory is the root directory: [Path] reads an
    absolute path and the same path without its first slash alike, and [..]
    never leaves the tree. *)
Module OS.

Definition NAME_MAX : nat := 255.
Definition PATH_MAX : nat := 4096.

(** [OSError(ENAMETOOLONG)], and the [ValueError] Python raises for a path
    with a null character before any system call is made. *)
Definition ENAMETOOLONG : exc :=
  OtherException "OSError: [Errno 36] File name too long".
Definition embedded_null_byte : exc :=
  OtherException "ValueError: embedded null byte".

(** [isinstance(e, OSError)] and [isinstance(e, ValueError)]: the name in
    [OtherException] starts with the name of the class. *)
Definition is_OSError (e : exc) : bool :=
  match e with
  | FileNotFoundError | FileExistsError | NotADirectoryError
  | IsADirectoryError => true
  | OtherException name => String.prefix "OSError" name
  | _ => false
  end.

Definition is_ValueError (e : exc) : bool :=
  match e with
  | OtherException name => String.prefix "ValueError" name
  | _ => false
  end.

Definition has_null (p : path) : bool := existsb (str_contains Ascii.zero) p.

(** The size of the path as a C string: every component with the separator
    or the terminator that follows it. *)
Definition path_size (p : path) : nat :=
  sum_list_with (λ c, S (String.length c)) p.

(** The resolution of the components [p] from the directory at [acc], which
    exists: a component that is not the last must be a directory; the last
    one may be missing.  The result addresses the tree. *)
Fixpoint walk (d : dir) (acc : path) (p : path) : exc + path :=
  match p with
  | [] => inr acc
  | c :: rest =>
      if String.eqb c ".." then walk d (removelast acc) rest
      else if Nat.ltb NAME_MAX (String.length c) then inl ENAMETOOLONG
      else
        match rest with
        | [] => inr (acc ++ [c])
        | _ :: _ =>
            match stat d (acc ++ [c]) with
            | Some KDir => walk d (acc ++ [c]) rest
            | Some (KFile _) => inl NotADirectoryError
            | None => inl FileNotFoundError
            end
        end
  end.

Definition resolve (d : dir) (p : path) : exc + path :=
  if has_null p then inl embedded_null_byte
  else if Nat.ltb PATH_MAX (path_size p) then inl ENAMETOOLONG
  else walk d [] p.

(** [os.stat(p)] *)
Definition os_stat (d : dir) (p : path) : exc + kind :=
  match resolve d p with
  | inl e => inl e
  | inr c =>
      match stat d c with
      | Some k => inr k
      | None => inl FileNotFoundError
      end
  end.

(** [os.mkdir(p)] *)
Definition mkdir (d : dir) (p : path) : exc + dir :=
  match resolve d p with
  | inl e => inl e
  | inr c => os_mkdir d c
  end.

(** [open(p, "w")], a write of [data] and a close. *)
Definition open_w (d : dir) (p : path) (data : string) : exc + dir :=
  match resolve d p with
  | inl e => inl e
  | inr c => write_file d c data
  end.

(** *** pathlib *)

(** [_ignore_error(e)]: the error numbers ENOENT and ENOTDIR (EBADF and
    ELOOP do not arise here). *)
Definition ignore_error (e : exc) : bool :=
  match e with
  | FileNotFoundError | NotADirectoryError => true
  | _ => false
  end.

(** The body shared by [Path.exists], [Path.is_dir] and [Path.is_file]:
    [try: st = self.stat()]
    [except OSError as e:]
    [    if not _ignore_error(e): raise]
    [    return False]
    [except ValueError: return False]
    and the test of each on [st]. *)
Definition stat_test (test : kind → bool) (d : dir) (p : path) : exc + bool :=
  match os_stat d p with
  | inr k => inr (test k)
  | inl e =>
      if is_OSError e then (if ignore_error e then inr false else inl e)
      else if is_ValueError e then inr false
      else inl e
  end.

Definition path_exists : dir → path → exc + bool :=
  stat_test (λ _, true).

Definition path_is_dir : dir → path → exc + bool :=
  stat_test (λ k, match k with KDir => true | KFile _ => false end).

Definition path_is_file : dir → path → exc + bool :=
  stat_test (λ k, match k with KFile _ => true | KDir => false end).

(** [except OSError: if not exist_ok or not self.is_dir(): raise], for the
    exception [e] that [os.mkdir] raised. *)
Definition mkdir_except (p : path) (exist_ok : bool) (e : exc) : PyM dir unit := λ d,
  if is_OSError e then
    if negb exist_ok then (inl e, d)
    else
      match path_is_dir d p with
      | inl e' => (inl e', d)
      | inr isdir => if negb isdir then (inl e, d) else (inr tt, d)
      end
  else (inl e, d).

(** [Path.mkdir(parents=False, exist_ok=...)] *)
Definition mkdir_plain (p : path) (exist_ok : bool) : PyM dir unit := λ d,
  match mkdir d p with
  | inr d' => (inr tt, d')
  | inl FileNotFoundError => (inl FileNotFoundError, d)
  | inl e => mkdir_except p exist_ok e d
  end.

(** [Path.mkdir(parents=True, exist_ok=...)], by recursion on the reversed
    path: the directories made before an error stay. *)
Fixpoint mkdir_parents (rp : list string) (exist_ok : bool) (d : dir)
    : (exc + unit) * dir :=
  match mkdir d (rev rp) with
  | inr d' => (inr tt, d')
  | inl FileNotFoundError =>
      match rp with
      | [] => (inl FileNotFoundError, d)
      | _ :: rparent =>
          match mkdir_parents rparent true d with
          | (inl e, d1) => (inl e, d1)
          | (inr _, d1) => mkdir_plain (rev rp) exist_ok d1
          end
      end
  | inl e => mkdir_except (rev rp) exist_ok e d
  end.

Definition pathlib_mkdir (p : path) (parents exist_ok : bool) : PyM dir unit :=
  if parents then mkdir_parents (rev p) exist_ok else mkdir_plain p exist_ok.

(** *** The files of a model *)

(** [name.endswith(".xml")]: the name, or what is left of it after some of
    its first characters, is [.xml]. *)
Fixpoint ends_with_xml (name : string) : bool :=
  match name with
  | EmptyString => false
  | String _ rest => String.eqb name ".xml" || ends_with_xml rest
  end.

Definition xml_suffix (p : path) : bool :=
  match last p with
  | Some name => ends_with_xml name
  | None => false
  end.

(** The path of the weights: the path of the XML file with [bin] in the
    place of its last three characters. *)
Definition bin_path (p : path) : path :=
  match last p with
  | Some name => removelast p ++ [str_take (String.length name - 3) name +:+ "bin"]
  | None => p
  end.

Section Conversion.
Context {nn_Module tensor ov_Model : Type}.

Variable ov_convert_model :
  nn_Module → tensor → option pyval → torch_state → (exc + ov_Model) * torch_state.

(** The XML text and the weights [ov.save_model] writes for a model,
    compressed to FP16 or not: external. *)
Variable serialize : ov_Model → bool → string.
Variable weights : ov_Model → bool → string.

#[local] Abbreviation state := (world nn_Module tensor ov_Model).

(** A statement on the file system alone. *)
Definition on_fs {A} (f : PyM dir A) : PyM state A := λ w,
  let '(r, d) := f (fs w) in
  (r, {| fs := d; torch := torch w; calls := calls w |}).

Definition Path_exists (p : path) : PyM state bool := λ w,
  (path_exists (fs w) p, w).

Definition Path_mkdir (p : path) (parents exist_ok : bool) : PyM state unit :=
  on_fs (pathlib_mkdir p parents exist_ok).

(** What [ov.save_model] does to the file system: external.  It refuses a
    path that does not end in [.xml]; it opens the file of the weights, then
    the XML file, and writes them. *)
Definition write_model (m : ov_Model) (output_model : path)
    (compress_to_fp16 : bool) : PyM dir unit := λ d,
  if negb (xml_suffix output_model) then
    (inl (OtherException "RuntimeError: Path for xml file has no xml extension"), d)
  else
    match open_w d (bin_path output_model) (weights m compress_to_fp16) with
    | inl e => (inl e, d)
    | inr d1 =>
        match open_w d1 output_model (serialize m compress_to_fp16) with
        | inl e => (inl e, d1)
        | inr d2 => (inr tt, d2)
        end
    end.

Definition save_model (m : ov_Model) (output_model : path)
    (compress_to_fp16 : bool) : PyM state unit := λ w,
  on_fs (write_model m output_model compress_to_fp16)
    {| fs := fs w; torch := torch w;
       calls := calls w ++ [SaveModel m output_model compress_to_fp16] |}.

(** [def convert(model, xml_path, example_input, input_shape=None)] *)
Definition convert (model : nn_Module) (xml_path : string)
    (example_input : tensor) (input_shape : pyval) : PyM state unit :=
  let xml_path := Path xml_path in
  found ← Path_exists xml_path;
  if negb found then
    Path_mkdir (parent xml_path) true true;;
    converted_model ← no_grad (
      if negb (truthy input_shape) then
        convert_model ov_convert_model model example_input None
      else
        convert_model ov_convert_model model example_input (Some input_shape));
    save_model converted_model xml_path false;;
    (* cleanup memory *)
    jit_clear_class_registry;;
    reset_concrete_type_store;;
    clear_class_state
  else
    mret tt.

Definition run_request (r : request nn_Module tensor) : PyM state unit :=
  convert (req_model r) (req_path r) (req_example r) (req_shape r).

(** The calls of a list, each run whatever the one before did. *)
Fixpoint run_each (rs : list (request nn_Module tensor)) (w : state) : state :=
  match rs with
  | [] => w
  | r :: rs' => run_each rs' (snd (run_request r w))
  end.

(** The state of the artifact at a path: present when [os.stat] finds a
    regular file. *)
Definition artifact (w : state) (p : path) : artifact_state :=
  match os_stat (fs w) p with
  | inr (KFile _) => Present
  | _ => Missing
  end.

End Conversion.

(** A path written without [..]. *)
Definition plain (p : path) : bool := forallb (λ c, negb (String.eqb c "..")) p.

(** Two states of the tree, the second reached from the first by calls that
    delete nothing: what is a directory stays one, what is a file stays a
    file. *)
Definition same_kind (k k' : kind) : Prop :=
  match k, k' with
  | KDir, KDir | KFile _, KFile _ => True
  | _, _ => False
  end.

Definition extends (d d' : dir) : Prop :=
  ∀ c k, stat d c = Some k → ∃ k', stat d' c = Some k' ∧ same_kind k k'.

(** The second reached from the first by making directories only. *)
Definition adds_dirs (d d' : dir) : Prop :=
  ∀ c, stat d' c = stat d c ∨ (stat d c = None ∧ stat d' c = Some KDir).

(** A path written without [..], whose names and whose length the operating
    system accepts. *)
Definition ordinary (p : path) : Prop :=
  OS.plain p = true ∧ OS.has_null p = false ∧ OS.path_size p ≤ OS.PATH_MAX ∧
  Forall (λ c, String.length c ≤ OS.NAME_MAX) p.

End OS.

(** Stubs for [OS.convert]: the converter and the serializer of [Stub], and
    weights. *)
Module StubOS.

Definition weights (m : string) (compress_to_fp16 : bool) : string :=
  (if compress_to_fp16 then "fp16 weights of " else "fp32 weights of ") +:+ m.

Definition convert_stub := OS.convert Stub.convert_model Stub.serialize weights.

(** [x.xml] has been converted from the module [unet]. *)
Definition unet_converted : world string string string :=
  snd (convert_stub "unet" "x.xml" "ones" PyNone Stub.empty_world).

(** A name of 300 characters, and a name with a null character. *)
Definition long_name : string := String.string_of_list_ascii (replicate 300 "n"%char).
Definition null_name : string := String Ascii.zero "d".

End StubOS.

(** ** The file name, on Python strings *)

(** A Python string is a sequence of code points: [len] counts code points
    and a slice cuts between them, whatever the number of bytes that encode
    each.  [prompt_str] above reads a string character by character of the
    type [ascii]; here the characters are the code points themselves. *)
Module Unicode.

Abbreviation str := (list N).

(** The string of a literal written in ASCII. *)
Definition lit (s : string) : str := N_of_ascii <$> String.list_ascii_of_string s.

Definition slash : N := 47.
Definition space : N := 32.

(** [c in s], for a string [c] of one character. *)
Definition contains (c : N) (s : str) : bool := bool_decide (c ∈ s).

(** [s.replace(c, new)], for a string [c] of one character. *)
Definition replace (c : N) (new s : str) : str :=
  s ≫= λ x, if N.eqb x c then new else [x].

(** [prompt_str = prompt.replace("/", "_slash_") if "/" in prompt else prompt]
    [prompt_str = prompt_str.replace(" ", "_") if " " in prompt else prompt_str]
    [prompt_str = prompt_str[:40]]
    [if len(prompt_str) == 0: prompt_str = "empty_prompt"] *)
Definition prompt_str (prompt : str) : str :=
  let prompt_str :=
    if contains slash prompt then replace slash (lit "_slash_") prompt else prompt in
  let prompt_str :=
    if contains space prompt then replace space (lit "_") prompt_str else prompt_str in
  let prompt_str := take 40 prompt_str in
  if Nat.eqb (length prompt_str) 0 then lit "empty_prompt" else prompt_str.

(** [posixpath.join(a, b)]: [os.path.join] on Linux and macOS. *)
Definition posixpath_join (a b : str) : str :=
  if bool_decide (head b = Some slash) then b
  else if bool_decide (a = []) || bool_decide (last a = Some slash) then a ++ b
  else a ++ slash :: b.

(** The components of a relative path on POSIX, [PurePosixPath(s).parts]:
    what stands between slashes, empty components and [.] left out. *)
Fixpoint split (s cur : str) : list str :=
  match s with
  | [] => [cur]
  | c :: s' => if N.eqb c slash then cur :: split s' [] else split s' (cur ++ [c])
  end.

Definition parts (s : str) : list str :=
  filter (λ c, c ≠ [] ∧ c ≠ lit ".") (split s []).

End Unicode.

(** * Properties *)

(** ** Paths *)

Example Path_models : Path "models/x.xml" = ["models"; "x.xml"].
Proof. reflexivity. Qed.

Example Path_normalises : Path "./models//x.xml" = ["models"; "x.xml"].
Proof. reflexivity. Qed.

Example Path_file_in_cwd : parent (Path "x.xml") = [] ∧ parent (Path "") = [].
Proof. done. Qed.

(** ** The file system *)

Lemma stat_nil (d : dir) : stat d [] = Some KDir.
Proof. reflexivity. Qed.

Lemma stat_app_dir (d : dir) (q r : path) :
  r ≠ [] → is_Some (stat d (q ++ r)) → stat d q = Some KDir.
Proof.
  intros Hr. revert d. induction q as [|c q IH]; intros d H; [done|].
  simpl in *. destruct (d !! c) as [[data|d']|]; [| by apply IH | by destruct H].
  destruct q, r; simpl in *; try done; by destruct H.
Qed.

Lemma stat_prefix_dir (d : dir) (q p : path) :
  q `prefix_of` p → stat d p = Some KDir → stat d q = Some KDir.
Proof.
  intros [r ->] H. destruct r as [|x r]; [by rewrite app_nil_r in H|].
  apply (stat_app_dir d q (x :: r)); [done | by rewrite H].
Qed.

(** [os.mkdir] adds one directory and changes nothing else. *)
Lemma os_mkdir_stat (d d' : dir) (p q : path) :
  os_mkdir d p = inr d' →
  stat d' q = if decide (q = p) then Some KDir else stat d q.
Proof.
  revert d d' q. induction p as [|c p IH]; intros d d' q H; [done|].
  simpl in H. destruct q as [|x q].
  { by rewrite decide_False. }
  destruct (decide (x = c)) as [->|Hx].
  - destruct (d !! c) as [[data|d1]|] eqn:Hc.
    + by destruct p.
    + destruct (os_mkdir d1 p) as [e|d2] eqn:Hm; [done|]. simplify_eq.
      simpl. rewrite lookup_insert_eq, Hc. rewrite (IH _ _ q Hm).
      repeat case_decide; congruence.
    + destruct p; [|done]. simplify_eq. simpl. rewrite lookup_insert_eq, Hc.
      destruct q; [by rewrite decide_True | by rewrite decide_False].
  - assert (d' !! x = d !! x) as Hl.
    { destruct (d !! c) as [[data|d1]|]; destruct p; simplify_eq;
        try (destruct (os_mkdir d1 _); simplify_eq);
        by rewrite lookup_insert_ne. }
    simpl. rewrite Hl. rewrite decide_False; [done | congruence].
Qed.

(** Writing a file adds or replaces that file and changes nothing else. *)
Lemma write_file_stat (d d' : dir) (p q : path) (data : string) :
  write_file d p data = inr d' →
  stat d' q = if decide (q = p) then Some (KFile data) else stat d q.
Proof.
  revert d d' q. induction p as [|c p IH]; intros d d' q H; [done|].
  simpl in H. destruct q as [|x q].
  { by rewrite decide_False. }
  destruct (decide (x = c)) as [->|Hx].
  - destruct p as [|c2 p].
    + assert (d' = <[c := File data]> d) as ->.
      { destruct (d !! c) as [[?|?]|]; by simplify_eq. }
      simpl. rewrite lookup_insert_eq.
      destruct q as [|y q]; [by rewrite decide_True|].
      rewrite decide_False; [|congruence].
      destruct (d !! c) as [[?|?]|]; by simplify_eq.
    + destruct (d !! c) as [[?|d1]|] eqn:Hc; try done.
      destruct (write_file d1 (c2 :: p) data) as [e|d2] eqn:Hm; [done|].
      simplify_eq. simpl stat at 1. rewrite lookup_insert_eq.
      rewrite (IH _ _ q Hm). simpl stat. rewrite Hc.
      repeat case_decide; congruence.
  - assert (d' !! x = d !! x) as Hl.
    { destruct p; destruct (d !! c) as [[?|d1]|]; simplify_eq;
        try (destruct (write_file d1 _ _); simplify_eq);
        by rewrite lookup_insert_ne. }
    simpl. rewrite Hl. rewrite decide_False; [done | congruence].
Qed.

Lemma os_mkdir_exists (d : dir) (p : path) :
  is_Some (stat d p) → os_mkdir d p = inl FileExistsError.
Proof.
  revert d. induction p as [|c p IH]; intros d H; [done|].
  simpl in *. destruct (d !! c) as [[data|d1]|]; [| | by destruct H].
  - destruct p; [done | by destruct H].
  - by rewrite (IH d1 H).
Qed.

Lemma os_mkdir_fresh (d : dir) (pp : path) (c : string) :
  stat d pp = Some KDir → stat d (pp ++ [c]) = None →
  ∃ d', os_mkdir d (pp ++ [c]) = inr d'.
Proof.
  revert d. induction pp as [|x pp IH]; intros d Hpp Hp; simpl in *.
  - destruct (d !! c) as [[?|?]|]; [done | done | eauto].
  - destruct (d !! x) as [[data|d1]|]; [by destruct pp | | done].
    destruct (IH d1 Hpp Hp) as [d2 ->]. destruct (pp ++ [c]); eauto.
Qed.

Lemma obstructed_prefix (d : dir) (p : path) :
  obstructed d p = false ↔ ∀ q, q `prefix_of` p → is_file d q = false.
Proof.
  unfold is_file. revert d. induction p as [|c p IH]; intros d; simpl.
  - split; [|done]. intros _ q Hq. by rewrite (prefix_nil_inv _ Hq).
  - split.
    + intros H [|x q] Hq; [done|].
      apply prefix_cons_inv_1 in Hq as Hx. apply prefix_cons_inv_2 in Hq.
      subst x. simpl. destruct (d !! c) as [[?|d1]|]; [done | | done].
      by apply IH.
    + intros H. destruct (d !! c) as [[data|d1]|] eqn:Hc; [| | done].
      * specialize (H [c]). simpl in H. rewrite Hc in H.
        apply H. apply prefix_cons, prefix_nil.
      * apply IH. intros q Hq. specialize (H (c :: q)). simpl in H.
        rewrite Hc in H. apply H. by apply prefix_cons.
Qed.

Lemma os_mkdir_missing_parent (d : dir) (pp : path) (c : string) :
  stat d pp = None → obstructed d pp = false →
  os_mkdir d (pp ++ [c]) = inl FileNotFoundError.
Proof.
  revert d. induction pp as [|x pp IH]; intros d Hpp Hob; [done|].
  simpl in *. destruct (d !! x) as [[data|d1]|]; [done | |].
  - by rewrite (IH d1 Hpp Hob).
  - by destruct (pp ++ [c]) eqn:E; [destruct pp|].
Qed.

Lemma mkdir_plain_stat (d d' : dir) (p q : path) (exist_ok : bool) :
  mkdir_plain d p exist_ok = inr d' →
  stat d' q = if decide (q = p) then Some KDir else stat d q.
Proof.
  unfold mkdir_plain, is_dir. intros H.
  destruct (os_mkdir d p) as [e|d1] eqn:Hm.
  - assert (d' = d ∧ stat d p = Some KDir) as [-> Hp].
    { destruct e, exist_ok, (stat d p) as [[?|]|]; simpl in H; by simplify_eq. }
    case_decide; by subst.
  - simplify_eq. by apply os_mkdir_stat.
Qed.

(** [mkdir(parents=True)], when it returns, leaves the path and its prefixes
    directories and changes nothing else. *)
Lemma mkdir_parents_post (d d' : dir) (rp : list string) (exist_ok : bool) :
  mkdir_parents d rp exist_ok = inr d' →
  stat d' (rev rp) = Some KDir ∧
  ∀ q, ¬ q `prefix_of` rev rp → stat d' q = stat d q.
Proof.
  revert d' exist_ok. induction rp as [|c rp IH]; intros d' exist_ok H.
  - simpl in H. destruct exist_ok; simpl in H; by simplify_eq.
  - cbn [mkdir_parents] in H.
    destruct (os_mkdir d (rev (c :: rp))) as [e|d1] eqn:Hm.
    + destruct (decide (e = FileNotFoundError)) as [->|He].
      * destruct (mkdir_parents d rp true) as [e1|d1] eqn:Hrec; [done|].
        destruct (IH _ _ Hrec) as [_ Hframe].
        split; [by rewrite (mkdir_plain_stat _ _ _ _ _ H), decide_True|].
        intros q Hq. rewrite (mkdir_plain_stat _ _ _ _ _ H).
        rewrite decide_False by (by intros ->).
        apply Hframe. intros Hq'. apply Hq. simpl.
        by apply prefix_app_r.
      * assert (d' = d ∧ is_dir d (rev (c :: rp)) = true) as [-> Hd].
        { destruct e, exist_ok, (is_dir d (rev (c :: rp)));
            simpl in H; by simplify_eq. }
        unfold is_dir in Hd. split; [|done].
        by destruct (stat d (rev (c :: rp))) as [[?|]|].
    + simplify_eq. split; [by rewrite (os_mkdir_stat _ _ _ _ Hm), decide_True|].
      intros q Hq. rewrite (os_mkdir_stat _ _ _ _ Hm).
      by rewrite decide_False by (by intros ->).
Qed.

Lemma mkdir_parents_stat (d d' : dir) (rp : list string) (exist_ok : bool) (q : path) :
  mkdir_parents d rp exist_ok = inr d' →
  stat d' q = if decide (q `prefix_of` rev rp) then Some KDir else stat d q.
Proof.
  intros H. destruct (mkdir_parents_post _ _ _ _ H) as [Hself Hframe].
  case_decide; [by eapply stat_prefix_dir | by apply Hframe].
Qed.

(** What exists stays as it is. *)
Lemma os_mkdir_keeps (d d' : dir) (p q : path) (k : kind) :
  os_mkdir d p = inr d' → stat d q = Some k → stat d' q = Some k.
Proof.
  intros H Hq. rewrite (os_mkdir_stat _ _ _ q H). case_decide; [subst|done].
  rewrite os_mkdir_exists in H; [done | by rewrite Hq].
Qed.

Lemma mkdir_plain_keeps (d d' : dir) (p q : path) (exist_ok : bool) (k : kind) :
  mkdir_plain d p exist_ok = inr d' → stat d q = Some k → stat d' q = Some k.
Proof.
  unfold mkdir_plain. intros H Hq.
  destruct (os_mkdir d p) as [e|d1] eqn:Hm.
  - assert (d' = d) as ->; [|done].
    destruct e, exist_ok, (is_dir d p); simpl in H; by simplify_eq.
  - simplify_eq. by eapply os_mkdir_keeps.
Qed.

Lemma mkdir_parents_keeps (d d' : dir) (rp : list string) (exist_ok : bool)
    (q : path) (k : kind) :
  mkdir_parents d rp exist_ok = inr d' → stat d q = Some k → stat d' q = Some k.
Proof.
  revert d' exist_ok. induction rp as [|c rp IH]; intros d' exist_ok H Hq.
  - simpl in H. destruct exist_ok; simpl in H; by simplify_eq.
  - cbn [mkdir_parents] in H.
    destruct (os_mkdir d (rev (c :: rp))) as [e|d1] eqn:Hm.
    + destruct (decide (e = FileNotFoundError)) as [->|He].
      * destruct (mkdir_parents d rp true) as [e1|d1] eqn:Hrec; [done|].
        eapply mkdir_plain_keeps; [done|]. by eapply IH.
      * assert (d' = d) as ->; [|done].
        destruct e, exist_ok, (is_dir d (rev (c :: rp)));
          simpl in H; by simplify_eq.
    + simplify_eq. by eapply os_mkdir_keeps.
Qed.

(** [mkdir(parents=True, exist_ok=True)] returns unless a prefix of the path
    is a regular file. *)
Lemma mkdir_parents_returns (d : dir) (rp : list string) :
  obstructed d (rev rp) = false → ∃ d', mkdir_parents d rp true = inr d'.
Proof.
  induction rp as [|c rp IH]; intros Hob; [by eexists|].
  cbn [mkdir_parents]. simpl rev in *.
  assert (obstructed d (rev rp) = false) as Hob'.
  { apply obstructed_prefix. intros q Hq.
    eapply obstructed_prefix; [done|]. by apply prefix_app_r. }
  destruct (stat d (rev rp ++ [c])) as [k|] eqn:Hself.
  - (* something is there: a directory, since nothing obstructs *)
    rewrite os_mkdir_exists by (by rewrite Hself).
    assert (is_dir d (rev rp ++ [c]) = true) as ->; [|by eexists].
    pose proof (proj1 (obstructed_prefix _ _) Hob (rev rp ++ [c])) as Hf.
    unfold is_file, is_dir in *. rewrite Hself in *.
    destruct k; [by discriminate Hf|done].
  - destruct (stat d (rev rp)) as [[data|]|] eqn:Hpar.
    + pose proof (proj1 (obstructed_prefix _ _) Hob' (rev rp)) as Hf.
      unfold is_file in Hf. rewrite Hpar in Hf. by discriminate Hf.
    + destruct (os_mkdir_fresh d (rev rp) c Hpar Hself) as [d1 ->]. by eexists.
    + rewrite (os_mkdir_missing_parent d (rev rp) c Hpar Hob').
      destruct (IH Hob') as [d1 Hrec]. rewrite Hrec.
      destruct (mkdir_parents_post _ _ _ _ Hrec) as [Hdir Hframe].
      unfold mkdir_plain.
      assert (stat d1 (rev rp ++ [c]) = None) as Hself1.
      { rewrite Hframe; [done|]. intros [r Hr].
        apply (f_equal length) in Hr. rewrite !length_app in Hr. simpl in Hr. lia. }
      destruct (os_mkdir_fresh d1 (rev rp) c Hdir Hself1) as [d2 ->]. by eexists.
Qed.

(** A prefix that is a regular file makes it raise. *)
Lemma mkdir_parents_obstructed (d : dir) (rp : list string) (exist_ok : bool) :
  obstructed d (rev rp) = true → ∃ e, mkdir_parents d rp exist_ok = inl e.
Proof.
  intros Hob. destruct (mkdir_parents d rp exist_ok) as [e|d'] eqn:H; [by eexists|].
  exfalso. destruct (mkdir_parents_post _ _ _ _ H) as [Hself _].
  assert (∃ q data, q `prefix_of` rev rp ∧ stat d q = Some (KFile data))
    as (q & data & Hq & Hst).
  { clear -Hob. revert d Hob. generalize (rev rp) as p.
    induction p as [|c p IH]; intros d Hob; [done|]. simpl in Hob.
    destruct (d !! c) as [[data|d1]|] eqn:Hc; [| |done].
    - exists [c], data. split; [apply prefix_cons, prefix_nil|].
      simpl. by rewrite Hc.
    - destruct (IH d1 Hob) as (q & data & Hq & Hst).
      exists (c :: q), data. split; [by apply prefix_cons|].
      simpl. by rewrite Hc. }
  pose proof (mkdir_parents_keeps _ _ _ _ _ _ H Hst) as Hst'.
  rewrite (stat_prefix_dir _ _ _ Hq Hself) in Hst'. done.
Qed.

Lemma write_file_returns (d : dir) (pp : path) (c data : string) :
  stat d pp = Some KDir → is_dir d (pp ++ [c]) = false →
  ∃ d', write_file d (pp ++ [c]) data = inr d'.
Proof.
  unfold is_dir. revert d. induction pp as [|x pp IH]; intros d Hpp Hp; simpl in *.
  - destruct (d !! c) as [[?|?]|]; by eauto.
  - destruct (d !! x) as [[?|d1]|]; [by destruct pp | | done].
    destruct (IH d1 Hpp Hp) as [d2 ->]. destruct (pp ++ [c]) eqn:E; [|by eauto].
    by destruct pp.
Qed.

Lemma parent_snoc (pp : path) (c : string) : parent (pp ++ [c]) = pp.
Proof. apply removelast_last. Qed.

Lemma path_snoc (p : path) : p ≠ [] → ∃ pp c, p = pp ++ [c].
Proof.
  intros Hp. destruct (exists_last Hp) as (pp & c & ->). eauto.
Qed.

Lemma snoc_not_prefix (pp : path) (c : string) : ¬ (pp ++ [c]) `prefix_of` pp.
Proof.
  intros [r Hr]. apply (f_equal length) in Hr.
  rewrite !length_app in Hr. simpl in Hr. lia.
Qed.

(** After [p.parent.mkdir(parents=True, exist_ok=True)] on a path that was
    not there, the path is still not there, its parent is a directory, and the
    file can be written. *)
Lemma mkdir_parent_then_write (d d1 : dir) (p : path) (data : string) :
  exists_ d p = false →
  pathlib_mkdir d (parent p) true true = inr d1 →
  stat d1 p = None ∧ stat d1 (parent p) = Some KDir ∧
  ∃ d2, write_file d1 p data = inr d2.
Proof.
  unfold exists_, pathlib_mkdir. intros Hex Hmk.
  destruct (stat d p) eqn:Hp; [done|].
  destruct (path_snoc p) as (pp & c & ->); [by intros ->|].
  rewrite parent_snoc in *.
  destruct (mkdir_parents_post _ _ _ _ Hmk) as [Hdir Hframe].
  rewrite rev_involutive in *.
  assert (stat d1 (pp ++ [c]) = None) as Hp1.
  { rewrite Hframe; [done | apply snoc_not_prefix]. }
  split_and!; [done | done |].
  apply write_file_returns; [done|]. unfold is_dir. by rewrite Hp1.
Qed.

(** ** The conversion step *)

Section ConversionProperties.
Context {nn_Module tensor ov_Model : Type}.
Variable ov_convert_model :
  nn_Module → tensor → option pyval → torch_state → (exc + ov_Model) * torch_state.
Variable serialize : ov_Model → bool → string.

Lemma convert_hit (m : nn_Module) (p : string) (ex : tensor) (sh : pyval)
    (w : world nn_Module tensor ov_Model) :
  exists_ (fs w) (Path p) = true →
  convert ov_convert_model serialize m p ex sh w = (inr tt, w).
Proof.
  intros H. unfold convert, Path_exists, mbind, PyM_bind. by rewrite H.
Qed.

(** The cache miss, step by step. *)
Lemma convert_miss (m : nn_Module) (p : string) (ex : tensor) (sh : pyval)
    (w : world nn_Module tensor ov_Model) :
  exists_ (fs w) (Path p) = false →
  convert ov_convert_model serialize m p ex sh w =
    match pathlib_mkdir (fs w) (parent (Path p)) true true with
    | inl e => (inl e, w)
    | inr d1 =>
        let log := calls w ++ [ConvertModel m ex (input_argument sh) false] in
        match ov_convert_model m ex (input_argument sh)
                (set_grad_enabled false (torch w)) with
        | (inl e, t) =>
            (inl e,
             {| fs := d1;
                torch := set_grad_enabled (grad_enabled (torch w)) t;
                calls := log |})
        | (inr ir, t) =>
            match write_file d1 (Path p) (serialize ir false) with
            | inl e =>
                (inl e,
                 {| fs := d1;
                    torch := set_grad_enabled (grad_enabled (torch w)) t;
                    calls := log ++ [SaveModel ir (Path p) false] |})
            | inr d2 =>
                (inr tt,
                 {| fs := d2;
                    torch := {| grad_enabled := grad_enabled (torch w);
                                class_registry := [];
                                concrete_type_store := [];
                                class_state := [] |};
                    calls := log ++ [SaveModel ir (Path p) false] |})
            end
        end
    end.
Proof.
  intros H. unfold convert, Path_exists, Path_mkdir, mbind, PyM_bind.
  assert ((if negb (truthy sh)
           then convert_model ov_convert_model m ex None
           else convert_model ov_convert_model m ex (Some sh))
          = convert_model ov_convert_model m ex (input_argument sh)) as ->.
  { unfold input_argument. by destruct (truthy sh). }
  rewrite H. cbv beta iota delta [negb].
  destruct (pathlib_mkdir _ _ _ _) as [e|d1]; [done|].
  unfold no_grad, convert_model, save_model. simpl.
  destruct (ov_convert_model _ _ _ _) as [[e|ir] t]; [done|]. simpl.
  by destruct (write_file _ _ _).
Qed.

(** The four ways a call of [convert] can go: the file is there; [mkdir]
    raises; the converter raises; the model is converted and saved. *)
Ltac convert_cases m p ex sh w :=
  let Hex := fresh "Hex" in
  let Hmk := fresh "Hmk" in
  let Hcv := fresh "Hcv" in
  destruct (exists_ (fs w) (Path p)) eqn:Hex;
  [ rewrite (convert_hit m p ex sh w Hex)
  | rewrite (convert_miss m p ex sh w Hex);
    destruct (pathlib_mkdir (fs w) (parent (Path p)) true true) as [?e|?d1] eqn:Hmk;
    [ | destruct (ov_convert_model m ex (input_argument sh)
                    (set_grad_enabled false (torch w))) as [[?e|?ir] ?t] eqn:Hcv;
        [ | let Hp1 := fresh "Hp1" in
            let Hpar := fresh "Hpar" in
            let Hwr := fresh "Hwr" in
            match goal with
            | |- context [write_file ?d1 (Path p) ?data] =>
                destruct (mkdir_parent_then_write _ d1 (Path p) data Hex Hmk)
                  as (Hp1 & Hpar & ?d2 & Hwr);
                rewrite Hwr
            end ] ] ];
  cbv zeta.

(** A call of [convert] leaves what exists as it is. *)
Lemma convert_keeps (m : nn_Module) (p : string) (ex : tensor) (sh : pyval)
    (w : world nn_Module tensor ov_Model) (q : path) (k : kind) :
  stat (fs w) q = Some k →
  stat (fs (snd (convert ov_convert_model serialize m p ex sh w))) q = Some k.
Proof.
  intros Hq. convert_cases m p ex sh w; simpl; try done.
  - by eapply mkdir_parents_keeps.
  - rewrite (write_file_stat _ _ _ q _ Hwr).
    pose proof (mkdir_parents_keeps _ _ _ _ _ _ Hmk Hq) as Hq1.
    case_decide; [subst; congruence | done].
Qed.


(** A call of [convert] that returns leaves something at the path. *)
Lemma convert_returns_exists (m : nn_Module) (p : string) (ex : tensor)
    (sh : pyval) (w w' : world nn_Module tensor ov_Model) :
  convert ov_convert_model serialize m p ex sh w = (inr tt, w') →
  exists_ (fs w') (Path p) = true.
Proof.
  convert_cases m p ex sh w; intros H; simplify_eq; [done|].
  unfold exists_. simpl. by rewrite (write_file_stat _ _ _ _ _ Hwr), decide_True.
Qed.






(** C2.  No staleness check.  After [convert] on a module [m1] has created
    the file at a path, a call of [convert] on the same path with another
    module [m2] returns at once: the file still holds what was serialized from
    [m1], and the state after the call is the state before it, whatever [m2],
    its example input and its shape are. *)
Theorem convert_reuses_artifact (m1 m2 : nn_Module) (p : string)
    (ex1 ex2 : tensor) (sh1 sh2 : pyval) (w w1 : world nn_Module tensor ov_Model) :
  exists_ (fs w) (Path p) = false →
  convert ov_convert_model serialize m1 p ex1 sh1 w = (inr tt, w1) →
  ∃ ir t,
    ov_convert_model m1 ex1 (input_argument sh1)
      (set_grad_enabled false (torch w)) = (inr ir, t) ∧
    stat (fs w1) (Path p) = Some (KFile (serialize ir false)) ∧
    convert ov_convert_model serialize m2 p ex2 sh2 w1 = (inr tt, w1) ∧
    stat (fs (snd (convert ov_convert_model serialize m2 p ex2 sh2 w1))) (Path p)
      = Some (KFile (serialize ir false)).
Proof.
  intros Hmiss H. revert H. convert_cases m1 p ex1 sh1 w; intros H; simplify_eq.
  exists ir, t. split; [done|].
  assert (stat d2 (Path p) = Some (KFile (serialize ir false))) as Hfile.
  { by rewrite (write_file_stat _ _ _ _ _ Hwr), decide_True. }
  split; [done|].
  rewrite convert_hit; [done|]. unfold exists_. simpl. by rewrite Hfile.
Qed.


Lemma convert_registry_size (m : nn_Module) (p : string) (ex : tensor)
    (sh : pyval) (w w' : world nn_Module tensor ov_Model) :
  convert ov_convert_model serialize m p ex sh w = (inr tt, w') →
  registry_size (torch w') ≤ registry_size (torch w).
Proof.
  convert_cases m p ex sh w; intros H; simplify_eq; [done|].
  unfold registry_size. simpl. lia.
Qed.

(** C7.  The class registry is reset after every conversion.  A call of
    [convert] on a missing path that returns leaves the three stores of the
    class registry empty; a call on a path that exists leaves the state of
    torch as it is; so over any run of the cells that completes the registry
    does not grow. *)
Theorem convert_resets_class_registry (m : nn_Module) (p : string)
    (ex : tensor) (sh : pyval) (w : world nn_Module tensor ov_Model) :
  (∀ w', exists_ (fs w) (Path p) = false →
     convert ov_convert_model serialize m p ex sh w = (inr tt, w') →
     class_registry (torch w') = [] ∧
     concrete_type_store (torch w') = [] ∧
     class_state (torch w') = [] ∧
     registry_size (torch w') = 0) ∧
  (exists_ (fs w) (Path p) = true →
     torch (snd (convert ov_convert_model serialize m p ex sh w)) = torch w) ∧
  (∀ (rs : list (request nn_Module tensor)) w',
     run_cells ov_convert_model serialize rs w = (inr tt, w') →
     registry_size (torch w') ≤ registry_size (torch w)).
Proof.
  split_and!.
  - intros w' Hmiss. rewrite (convert_miss m p ex sh w Hmiss).
    destruct (pathlib_mkdir _ _ _ _) as [e|d1]; [done|]. cbv zeta.
    destruct (ov_convert_model _ _ _ _) as [[e|ir] t]; [done|].
    destruct (write_file _ _ _) as [e|d2]; [done|]. by intros [= <-].
  - intros Hhit. by rewrite (convert_hit m p ex sh w Hhit).
  - intros rs. clear m p ex sh. revert w.
    induction rs as [|r rs IH]; intros w w' H.
    + by injection H as ->.
    + simpl in H. unfold mbind, PyM_bind in H.
      destruct (run_request ov_convert_model serialize r w) as [[e|[]] w1] eqn:Hr;
        [done|].
      etrans; [by apply IH|]. by eapply convert_registry_size.
Qed.

(** C10.  The shape is tested by its truth value.  A call with a falsy shape
    -- [None], an empty list or tuple, [0] -- is the call with [None]; and on
    a cache miss on which [mkdir] returns, the converter is called without the
    [input] keyword when the shape is falsy, and with the shape as [input]
    when it is truthy. *)
Theorem convert_shape_truthiness (m : nn_Module) (p : string) (ex : tensor)
    (sh : pyval) (w : world nn_Module tensor ov_Model) :
  (truthy PyNone = false ∧ truthy (PyList []) = false ∧
   truthy (PyTuple []) = false ∧ truthy (PyInt 0) = false) ∧
  (truthy sh = false →
     convert ov_convert_model serialize m p ex sh w =
     convert ov_convert_model serialize m p ex PyNone w) ∧
  (∀ d1, exists_ (fs w) (Path p) = false →
     pathlib_mkdir (fs w) (parent (Path p)) true true = inr d1 →
     ∃ rest,
       calls (snd (convert ov_convert_model serialize m p ex sh w)) =
       calls w ++
         ConvertModel m ex (if truthy sh then Some sh else None) false :: rest).
Proof.
  split_and!; try done.
  - intros Hf. unfold convert. by rewrite Hf.
  - intros d1 Hmiss Hmk. rewrite (convert_miss m p ex sh w Hmiss), Hmk. cbv zeta.
    assert (input_argument sh = if truthy sh then Some sh else None) as ->.
    { unfold input_argument. by destruct (truthy sh). }
    destruct (ov_convert_model _ _ _ _) as [[e|ir] t]; [by exists []|].
    destruct (write_file _ _ _) as [e|d2]; simpl; rewrite <- app_assoc; by eexists.
Qed.

End ConversionProperties.

Lemma str_length_app (a b : string) :
  String.length (a +:+ b) = String.length a + String.length b.
Proof.
  induction a as [|x a IH]; [done|].
  change (S (String.length (a +:+ b)) = S (String.length a + String.length b)).
  by rewrite IH.
Qed.

(** ** The conversion step on the file system of the operating system *)

(** [..] steps back; a path through a directory that is missing is not
    found, whatever it goes on to. *)
Example os_stat_dotdot :
  OS.os_stat (fs StubOS.unet_converted) ["x.xml"] = inr (KFile "fp32 ir unet") ∧
  OS.os_stat (fs StubOS.unet_converted) ["a"; ".."; "x.xml"] = inl FileNotFoundError ∧
  OS.os_stat (<["a" := Dir ∅]> (fs StubOS.unet_converted)) ["a"; ".."; "x.xml"]
    = inr (KFile "fp32 ir unet") ∧
  OS.os_stat (fs StubOS.unet_converted) ["x.xml"; ".."] = inl NotADirectoryError ∧
  OS.os_stat (fs StubOS.unet_converted) [".."] = inr KDir.
Proof. vm_compute. done. Qed.

(** A name that is too long makes [Path.exists] raise once the directory it
    is looked up in is reached, and not before; a null character makes
    [Path.exists] answer [False] and [mkdir] raise [ValueError]. *)
Example path_exists_refused :
  OS.path_exists ∅ [StubOS.long_name; "x.xml"] = inl OS.ENAMETOOLONG ∧
  OS.path_exists ∅ ["d"; StubOS.long_name] = inr false ∧
  OS.path_exists {[ "d" := Dir ∅ ]} ["d"; StubOS.long_name] = inl OS.ENAMETOOLONG ∧
  OS.path_exists ∅ [StubOS.null_name; "x.xml"] = inr false ∧
  OS.pathlib_mkdir [StubOS.null_name] true true ∅ = (inl OS.embedded_null_byte, ∅).
Proof. vm_compute. done. Qed.

(** [mkdir(parents=True)] keeps the directories it has made when it raises:
    on [b/../models], with [models] a regular file, it makes [b] first. *)
Example mkdir_parents_partial :
  OS.pathlib_mkdir ["b"; ".."; "models"] true true (fs Stub.blocked_world)
    = (inl FileExistsError, <["b" := Dir ∅]> (fs Stub.blocked_world)).
Proof. vm_compute. done. Qed.

(** A file name that is too long for the save: the call is a miss, [mkdir]
    and the converter return, the save raises and [convert] with it. *)
Example convert_name_too_long :
  fst (StubOS.convert_stub "unet" ("d/" +:+ StubOS.long_name +:+ ".xml") "ones"
         PyNone Stub.empty_world) = inl OS.ENAMETOOLONG ∧
  length (calls (snd (StubOS.convert_stub "unet"
                        ("d/" +:+ StubOS.long_name +:+ ".xml") "ones"
                        PyNone Stub.empty_world))) = 2.
Proof. vm_compute. done. Qed.

(** *** States that delete nothing *)

Lemma extends_refl (d : dir) : OS.extends d d.
Proof. intros c k H. exists k. split; [done | by destruct k]. Qed.

Lemma same_kind_trans (k1 k2 k3 : kind) :
  OS.same_kind k1 k2 → OS.same_kind k2 k3 → OS.same_kind k1 k3.
Proof. by destruct k1, k2, k3. Qed.

Lemma extends_trans (d1 d2 d3 : dir) :
  OS.extends d1 d2 → OS.extends d2 d3 → OS.extends d1 d3.
Proof.
  intros H12 H23 c k H. destruct (H12 c k H) as (k2 & H2 & Hk2).
  destruct (H23 c k2 H2) as (k3 & H3 & Hk3). exists k3.
  split; [done | by eapply same_kind_trans].
Qed.

Lemma extends_dir (d d' : dir) (c : path) :
  OS.extends d d' → stat d c = Some KDir → stat d' c = Some KDir.
Proof. intros H Hc. destruct (H c _ Hc) as ([data|] & Hc' & Hk); done. Qed.

Lemma adds_dirs_refl (d : dir) : OS.adds_dirs d d.
Proof. intros c. by left. Qed.

Lemma adds_dirs_trans (d1 d2 d3 : dir) :
  OS.adds_dirs d1 d2 → OS.adds_dirs d2 d3 → OS.adds_dirs d1 d3.
Proof.
  intros H12 H23 c. destruct (H12 c) as [E12|[E1 E2]], (H23 c) as [E23|[E2' E3]].
  - left. congruence.
  - right. split; congruence.
  - right. split; congruence.
  - congruence.
Qed.

Lemma adds_dirs_extends (d d' : dir) : OS.adds_dirs d d' → OS.extends d d'.
Proof.
  intros H c k Hc. destruct (H c) as [E|[E _]]; [|congruence].
  exists k. split; [congruence | by destruct k].
Qed.

Lemma os_mkdir_adds (d d' : dir) (c : path) :
  os_mkdir d c = inr d' → OS.adds_dirs d d'.
Proof.
  intros H q. rewrite (os_mkdir_stat _ _ _ q H). case_decide as E; [|by left].
  subst q. destruct (stat d c) as [k|] eqn:Hc; [|by right].
  rewrite os_mkdir_exists in H; [done | by rewrite Hc].
Qed.

Lemma write_file_not_dir (d d' : dir) (c : path) (data : string) :
  write_file d c data = inr d' → stat d c ≠ Some KDir.
Proof.
  revert d d'. induction c as [|x c IH]; intros d d' H; [done|].
  simpl in *. destruct c as [|y c].
  - destruct (d !! x) as [[?|?]|]; done.
  - destruct (d !! x) as [[?|d1]|]; try done.
    destruct (write_file d1 (y :: c) data) as [e|d2] eqn:Hw; [done|].
    by eapply IH.
Qed.

Lemma write_file_extends (d d' : dir) (c : path) (data : string) :
  write_file d c data = inr d' → OS.extends d d'.
Proof.
  intros H q k Hq. rewrite (write_file_stat _ _ _ q _ H).
  case_decide as E; [|exists k; split; [done | by destruct k]].
  subst q. exists (KFile data). split; [done|].
  destruct k; [done|]. by apply write_file_not_dir in H.
Qed.

(** *** Resolution *)

Lemma removelast_prefix (acc : path) : removelast acc `prefix_of` acc.
Proof.
  destruct (decide (acc = [])) as [->|Hne]; [done|].
  destruct (exists_last Hne) as (pp & c & ->).
  rewrite removelast_last. by apply prefix_app_r.
Qed.

(** What resolves in a state resolves to the same address in a state that
    extends it. *)
Lemma walk_extends (d d' : dir) (acc p c : path) :
  OS.extends d d' → OS.walk d acc p = inr c → OS.walk d' acc p = inr c.
Proof.
  intros Hext. revert acc. induction p as [|x p IH]; intros acc H; [done|].
  cbn [OS.walk] in *. destruct (String.eqb x ".."); [by apply IH|].
  destruct (Nat.ltb _ _); [done|]. destruct p as [|y p]; [done|].
  destruct (stat d (acc ++ [x])) as [[data|]|] eqn:Hx; try done.
  rewrite (extends_dir _ _ _ Hext Hx). by apply IH.
Qed.

Lemma resolve_extends (d d' : dir) (p c : path) :
  OS.extends d d' → OS.resolve d p = inr c → OS.resolve d' p = inr c.
Proof.
  unfold OS.resolve. intros Hext H. destruct (OS.has_null p); [done|].
  destruct (Nat.ltb _ _); [done|]. by eapply walk_extends.
Qed.

Lemma os_stat_extends (d d' : dir) (p : path) (k : kind) :
  OS.extends d d' → OS.os_stat d p = inr k →
  ∃ k', OS.os_stat d' p = inr k' ∧ OS.same_kind k k'.
Proof.
  unfold OS.os_stat. intros Hext H.
  destruct (OS.resolve d p) as [e|c] eqn:Hr; [done|].
  rewrite (resolve_extends _ _ _ _ Hext Hr).
  destruct (stat d c) as [k0|] eqn:Hc; [|done]. simplify_eq.
  destruct (Hext c k Hc) as (k' & -> & Hk). by exists k'.
Qed.

(** Walking on from where a first part of the path led. *)
Lemma walk_app (d : dir) (acc q r cq : path) :
  OS.walk d acc q = inr cq → stat d cq = Some KDir →
  OS.walk d acc (q ++ r) = OS.walk d cq r.
Proof.
  revert acc. induction q as [|x q IH]; intros acc H Hdir.
  - simpl in H. by simplify_eq.
  - cbn [OS.walk app] in *. destruct (String.eqb x ".."); [by apply IH|].
    destruct (Nat.ltb _ _); [done|]. destruct q as [|y q].
    + simplify_eq. simpl. destruct r as [|z r]; [done|]. by rewrite Hdir.
    + simpl app. destruct (stat d (acc ++ [x])) as [[data|]|]; try done.
      by apply IH.
Qed.

(** A path that resolves, and leads to a directory or goes on, has led
    through directories. *)
Lemma walk_app_inv (d : dir) (acc q r c : path) :
  stat d acc = Some KDir → OS.walk d acc (q ++ r) = inr c →
  r ≠ [] ∨ stat d c = Some KDir →
  ∃ cq, OS.walk d acc q = inr cq ∧ stat d cq = Some KDir.
Proof.
  revert acc. induction q as [|x q IH]; intros acc Hacc H Hr.
  - by exists acc.
  - cbn [OS.walk app] in *. destruct (String.eqb x "..").
    { apply IH; [|done..]. eapply stat_prefix_dir; [apply removelast_prefix|done]. }
    destruct (Nat.ltb _ _); [done|].
    destruct q as [|y q].
    + exists (acc ++ [x]). split; [done|]. simpl in H.
      destruct r as [|z r].
      * simplify_eq. by destruct Hr.
      * by destruct (stat d (acc ++ [x])) as [[data|]|].
    + simpl app in H.
      destruct (stat d (acc ++ [x])) as [[data|]|] eqn:Hx; try done.
      by apply IH.
Qed.

Lemma has_null_app (q r : path) :
  OS.has_null (q ++ r) = OS.has_null q || OS.has_null r.
Proof. apply existsb_app. Qed.

Lemma path_size_app (q r : path) :
  OS.path_size (q ++ r) = OS.path_size q + OS.path_size r.
Proof. apply sum_list_with_app. Qed.

Lemma resolve_prefix (d : dir) (q r c : path) :
  OS.resolve d (q ++ r) = inr c → r ≠ [] ∨ stat d c = Some KDir →
  ∃ cq, OS.resolve d q = inr cq ∧ stat d cq = Some KDir.
Proof.
  unfold OS.resolve. rewrite has_null_app, path_size_app. intros H Hr.
  destruct (OS.has_null q); [done|]. simpl in H.
  destruct (OS.has_null r); [done|].
  destruct (Nat.ltb_spec OS.PATH_MAX (OS.path_size q + OS.path_size r)); [done|].
  destruct (Nat.ltb_spec OS.PATH_MAX (OS.path_size q)); [lia|].
  by eapply walk_app_inv.
Qed.

Lemma resolve_app (d : dir) (q r cq : path) :
  OS.resolve d q = inr cq → stat d cq = Some KDir →
  OS.has_null r = false → OS.path_size (q ++ r) ≤ OS.PATH_MAX →
  OS.resolve d (q ++ r) = OS.walk d cq r.
Proof.
  unfold OS.resolve. rewrite has_null_app. intros H Hdir -> Hsize.
  destruct (OS.has_null q); [done|]. simpl.
  destruct (Nat.ltb_spec OS.PATH_MAX (OS.path_size q)); [done|].
  destruct (Nat.ltb_spec OS.PATH_MAX (OS.path_size (q ++ r))); [lia|].
  by apply walk_app.
Qed.

(** A path written without [..] resolves to itself. *)
Lemma walk_plain (d : dir) (acc p c : path) :
  OS.plain p = true → OS.walk d acc p = inr c → c = acc ++ p.
Proof.
  revert acc. induction p as [|x p IH]; intros acc Hp H.
  - simpl in H. simplify_eq. by rewrite app_nil_r.
  - cbn [OS.plain forallb] in Hp. apply andb_true_iff in Hp as [Hx Hp].
    cbn [OS.walk] in H. destruct (String.eqb x ".."); [done|].
    destruct (Nat.ltb _ _); [done|]. destruct p as [|y p]; [by simplify_eq|].
    destruct (stat d (acc ++ [x])) as [[data|]|]; try done.
    rewrite (IH _ Hp H). by rewrite <- app_assoc.
Qed.

Lemma resolve_plain (d : dir) (p c : path) :
  OS.plain p = true → OS.resolve d p = inr c → c = p.
Proof.
  unfold OS.resolve. intros Hp H. destruct (OS.has_null p); [done|].
  destruct (Nat.ltb _ _); [done|]. by apply (walk_plain d [] p c).
Qed.

(** A path without [..] that resolves in one state resolves in any state in
    which something is at its address. *)
Lemma walk_plain_back (d d' : dir) (acc p c : path) :
  OS.plain p = true → OS.walk d' acc p = inr c → is_Some (stat d (acc ++ p)) →
  OS.walk d acc p = inr (acc ++ p).
Proof.
  revert acc c. induction p as [|x p IH]; intros acc c Hp H Hex.
  - by rewrite app_nil_r.
  - cbn [OS.plain forallb] in Hp. apply andb_true_iff in Hp as [Hx Hp].
    cbn [OS.walk] in *. destruct (String.eqb x ".."); [done|].
    destruct (Nat.ltb _ _); [done|]. destruct p as [|y p]; [done|].
    replace (acc ++ x :: y :: p) with ((acc ++ [x]) ++ y :: p) in *
      by (by rewrite <- app_assoc).
    rewrite (stat_app_dir d (acc ++ [x]) (y :: p)) by done.
    destruct (stat d' (acc ++ [x])) as [[data|]|]; try done.
    by eapply IH.
Qed.

Lemma resolve_plain_back (d d' : dir) (p c : path) :
  OS.plain p = true → OS.resolve d' p = inr c → is_Some (stat d p) →
  OS.resolve d p = inr p.
Proof.
  unfold OS.resolve. intros Hp H Hex. destruct (OS.has_null p); [done|].
  destruct (Nat.ltb _ _); [done|]. by apply (walk_plain_back d d' [] p c).
Qed.

(** *** The tests of pathlib *)

Lemma stat_test_true (test : kind → bool) (d : dir) (p : path) :
  OS.stat_test test d p = inr true ↔ ∃ k, OS.os_stat d p = inr k ∧ test k = true.
Proof.
  unfold OS.stat_test. split.
  - intros H. destruct (OS.os_stat d p) as [e|k]; [|exists k; split; congruence].
    by destruct (OS.is_OSError e), (OS.ignore_error e), (OS.is_ValueError e).
  - by intros (k & -> & ->).
Qed.

Lemma path_is_dir_true (d : dir) (p : path) :
  OS.path_is_dir d p = inr true ↔ OS.os_stat d p = inr KDir.
Proof.
  unfold OS.path_is_dir. rewrite stat_test_true. split.
  - by intros ([data|] & H & ?).
  - intros H. by exists KDir.
Qed.

Lemma path_is_file_true (d : dir) (p : path) :
  OS.path_is_file d p = inr true ↔ ∃ data, OS.os_stat d p = inr (KFile data).
Proof.
  unfold OS.path_is_file. rewrite stat_test_true. split.
  - intros ([data|] & H & ?); [by exists data | done].
  - intros [data H]. by exists (KFile data).
Qed.

Lemma path_exists_true (d : dir) (p : path) :
  OS.path_exists d p = inr true ↔ ∃ k, OS.os_stat d p = inr k.
Proof.
  unfold OS.path_exists. rewrite stat_test_true. split.
  - intros (k & H & _). by exists k.
  - intros [k H]. by exists k.
Qed.

Lemma path_is_dir_extends (d d' : dir) (p : path) :
  OS.extends d d' → OS.path_is_dir d p = inr true → OS.path_is_dir d' p = inr true.
Proof.
  rewrite !path_is_dir_true. intros Hext H.
  by destruct (os_stat_extends _ _ _ _ Hext H) as ([data|] & ? & ?).
Qed.

Lemma path_is_file_extends (d d' : dir) (p : path) :
  OS.extends d d' → OS.path_is_file d p = inr true → OS.path_is_file d' p = inr true.
Proof.
  rewrite !path_is_file_true. intros Hext [data H].
  destruct (os_stat_extends _ _ _ _ Hext H) as ([data'|] & ? & ?); [|done].
  by exists data'.
Qed.

(** The directory a path leads to is reached through directories. *)
Lemma path_is_dir_prefix (d : dir) (q p : path) :
  q `prefix_of` p → OS.path_is_dir d p = inr true → OS.path_is_dir d q = inr true.
Proof.
  rewrite !path_is_dir_true. unfold OS.os_stat. intros [r ->] H.
  destruct (OS.resolve d (q ++ r)) as [e|c] eqn:Hr; [done|].
  destruct (stat d c) as [k|] eqn:Hc; [|done]. simplify_eq.
  destruct (resolve_prefix d q r c Hr) as (cq & -> & ->); [by right | done].
Qed.

(** *** Ordinary paths *)

(** On an ordinary path the tests of pathlib on the file system of the
    operating system are the tests on the tree: the two embeddings of
    [convert] agree on what is a hit. *)
Lemma walk_ordinary (d : dir) (acc p : path) :
  OS.plain p = true → Forall (λ c, String.length c ≤ OS.NAME_MAX) p →
  match OS.walk d acc p with
  | inr c => c = acc ++ p
  | inl e => OS.is_OSError e = true ∧ OS.ignore_error e = true ∧
             stat d (acc ++ p) = None
  end.
Proof.
  revert acc. induction p as [|x p IH]; intros acc Hp Hn.
  - simpl. by rewrite app_nil_r.
  - cbn [OS.plain forallb] in Hp. apply andb_true_iff in Hp as [Hx Hp].
    apply Forall_cons in Hn as [Hlen Hn]. cbn [OS.walk].
    destruct (String.eqb x ".."); [done|].
    destruct (Nat.ltb_spec OS.NAME_MAX (String.length x)); [lia|].
    destruct p as [|y p]; [done|].
    replace (acc ++ x :: y :: p) with ((acc ++ [x]) ++ y :: p)
      by (by rewrite <- app_assoc).
    destruct (stat d (acc ++ [x])) as [[data|]|] eqn:Hd.
    + split_and!; [done | done |].
      destruct (stat d ((acc ++ [x]) ++ y :: p)) eqn:E; [|done].
      rewrite (stat_app_dir d (acc ++ [x]) (y :: p)) in Hd; [done | done |].
      by rewrite E.
    + apply (IH (acc ++ [x]) Hp Hn).
    + split_and!; [done | done |].
      destruct (stat d ((acc ++ [x]) ++ y :: p)) eqn:E; [|done].
      rewrite (stat_app_dir d (acc ++ [x]) (y :: p)) in Hd; [done | done |].
      by rewrite E.
Qed.

Lemma os_stat_ordinary (d : dir) (p : path) :
  OS.ordinary p →
  match OS.os_stat d p with
  | inr k => stat d p = Some k
  | inl e => OS.is_OSError e = true ∧ OS.ignore_error e = true ∧ stat d p = None
  end.
Proof.
  intros (Hp & Hnull & Hsize & Hn). unfold OS.os_stat, OS.resolve.
  rewrite Hnull. destruct (Nat.ltb_spec OS.PATH_MAX (OS.path_size p)); [lia|].
  pose proof (walk_ordinary d [] p Hp Hn) as Hw.
  destruct (OS.walk d [] p) as [e|c]; [done|]. simpl in Hw. subst c.
  by destruct (stat d p).
Qed.

(** [Path.exists] and [Path.is_dir] on an ordinary path. *)
Lemma path_exists_ordinary (d : dir) (p : path) :
  OS.ordinary p → OS.path_exists d p = inr (exists_ d p).
Proof.
  intros Hp. pose proof (os_stat_ordinary d p Hp) as H.
  unfold OS.path_exists, OS.stat_test, exists_.
  destruct (OS.os_stat d p) as [e|k]; [|by rewrite H].
  destruct H as (-> & -> & ->). done.
Qed.

Lemma path_is_dir_ordinary (d : dir) (p : path) :
  OS.ordinary p → OS.path_is_dir d p = inr (is_dir d p).
Proof.
  intros Hp. pose proof (os_stat_ordinary d p Hp) as H.
  unfold OS.path_is_dir, OS.stat_test, is_dir.
  destruct (OS.os_stat d p) as [e|k]; [|rewrite H; by destruct k].
  destruct H as (-> & -> & ->). done.
Qed.

(** *** Making directories *)

Lemma OS_mkdir_adds (d d' : dir) (p : path) :
  OS.mkdir d p = inr d' → OS.adds_dirs d d'.
Proof.
  unfold OS.mkdir. destruct (OS.resolve d p) as [e|c]; [done|].
  apply os_mkdir_adds.
Qed.

Lemma OS_mkdir_except_state (p : path) (exist_ok : bool) (e : exc) (d : dir) :
  snd (OS.mkdir_except p exist_ok e d) = d.
Proof.
  unfold OS.mkdir_except.
  by destruct (OS.is_OSError e), exist_ok, (OS.path_is_dir d p) as [?|[]].
Qed.

Lemma OS_mkdir_plain_adds (p : path) (exist_ok : bool) (d : dir) :
  OS.adds_dirs d (snd (OS.mkdir_plain p exist_ok d)).
Proof.
  unfold OS.mkdir_plain. destruct (OS.mkdir d p) as [e|d'] eqn:Hm.
  - assert (snd (OS.mkdir_except p exist_ok e d) = d) as He
      by apply OS_mkdir_except_state.
    destruct e; cbv iota; rewrite ?He; apply adds_dirs_refl.
  - by eapply OS_mkdir_adds.
Qed.

Lemma OS_mkdir_parents_adds (rp : list string) (exist_ok : bool) (d : dir) :
  OS.adds_dirs d (snd (OS.mkdir_parents rp exist_ok d)).
Proof.
  revert exist_ok. induction rp as [|x rp IH]; intros exist_ok.
  - cbn [OS.mkdir_parents]. destruct (OS.mkdir d (rev [])) as [e|d'] eqn:Hm.
    + assert (snd (OS.mkdir_except (rev []) exist_ok e d) = d) as He
        by apply OS_mkdir_except_state.
      destruct e; cbv iota; rewrite ?He; apply adds_dirs_refl.
    + by eapply OS_mkdir_adds.
  - cbn [OS.mkdir_parents]. destruct (OS.mkdir d (rev (x :: rp))) as [e|d'] eqn:Hm.
    + assert (snd (OS.mkdir_except (rev (x :: rp)) exist_ok e d) = d) as He
        by apply OS_mkdir_except_state.
      destruct (decide (e = FileNotFoundError)) as [->|Hne].
      * specialize (IH true).
        destruct (OS.mkdir_parents rp true d) as [[e1|[]] d1]; [done|].
        eapply adds_dirs_trans; [exact IH | apply OS_mkdir_plain_adds].
      * destruct e; try done; cbv iota; rewrite ?He; apply adds_dirs_refl.
    + by eapply OS_mkdir_adds.
Qed.

Lemma OS_pathlib_mkdir_adds (p : path) (parents exist_ok : bool) (d : dir) :
  OS.adds_dirs d (snd (OS.pathlib_mkdir p parents exist_ok d)).
Proof.
  unfold OS.pathlib_mkdir. destruct parents;
    [apply OS_mkdir_parents_adds | apply OS_mkdir_plain_adds].
Qed.

(** When [os.mkdir] returns, the path is a directory. *)
Lemma OS_mkdir_post (d d' : dir) (p : path) :
  OS.mkdir d p = inr d' → OS.path_is_dir d' p = inr true.
Proof.
  intros H. pose proof (adds_dirs_extends _ _ (OS_mkdir_adds _ _ _ H)) as Hext.
  unfold OS.mkdir in H. rewrite path_is_dir_true. unfold OS.os_stat.
  destruct (OS.resolve d p) as [e|c] eqn:Hr; [done|].
  rewrite (resolve_extends _ _ _ _ Hext Hr).
  by rewrite (os_mkdir_stat _ _ _ c H), decide_True.
Qed.

Lemma OS_mkdir_except_post (p : path) (exist_ok : bool) (e : exc) (d d' : dir) :
  OS.mkdir_except p exist_ok e d = (inr tt, d') →
  d' = d ∧ OS.path_is_dir d p = inr true.
Proof.
  unfold OS.mkdir_except. intros H.
  destruct (OS.is_OSError e), exist_ok, (OS.path_is_dir d p) as [?|[]];
    simpl in H; by simplify_eq.
Qed.

Lemma OS_mkdir_plain_post (p : path) (exist_ok : bool) (d d' : dir) :
  OS.mkdir_plain p exist_ok d = (inr tt, d') → OS.path_is_dir d' p = inr true.
Proof.
  unfold OS.mkdir_plain. intros H. destruct (OS.mkdir d p) as [e|d1] eqn:Hm.
  - assert (OS.mkdir_except p exist_ok e d = (inr tt, d')) as He
      by (by destruct e).
    by apply OS_mkdir_except_post in He as [-> ?].
  - simplify_eq. by eapply OS_mkdir_post.
Qed.

(** When [mkdir(parents=True)] returns, the path is a directory. *)
Lemma OS_mkdir_parents_post (rp : list string) (exist_ok : bool) (d d' : dir) :
  OS.mkdir_parents rp exist_ok d = (inr tt, d') →
  OS.path_is_dir d' (rev rp) = inr true.
Proof.
  intros H. destruct rp as [|x rp]; cbn [OS.mkdir_parents] in H.
  - destruct (OS.mkdir d (rev [])) as [e|d1] eqn:Hm.
    + assert (OS.mkdir_except (rev []) exist_ok e d = (inr tt, d')) as He
        by (by destruct e).
      by apply OS_mkdir_except_post in He as [-> ?].
    + simplify_eq; by eapply OS_mkdir_post.
  - destruct (OS.mkdir d (rev (x :: rp))) as [e|d1] eqn:Hm.
    + destruct (decide (e = FileNotFoundError)) as [->|Hne].
      * destruct (OS.mkdir_parents rp true d) as [[e1|[]] d1]; [done|].
        by eapply OS_mkdir_plain_post.
      * assert (OS.mkdir_except (rev (x :: rp)) exist_ok e d = (inr tt, d')) as He
          by (by destruct e).
        by apply OS_mkdir_except_post in He as [-> ?].
    + simplify_eq. by eapply OS_mkdir_post.
Qed.

(** On a directory that exists, [mkdir(parents=True, exist_ok=True)] returns
    and changes nothing. *)
Lemma OS_mkdir_parents_existing (rp : list string) (d : dir) :
  OS.path_is_dir d (rev rp) = inr true →
  OS.mkdir_parents rp true d = (inr tt, d).
Proof.
  intros H. pose proof H as Hst. rewrite path_is_dir_true in Hst.
  unfold OS.os_stat in Hst.
  destruct (OS.resolve d (rev rp)) as [e|c] eqn:Hr; [done|].
  destruct (stat d c) as [k|] eqn:Hc; [|done]. simplify_eq.
  assert (OS.mkdir d (rev rp) = inl FileExistsError) as Hm.
  { unfold OS.mkdir. rewrite Hr. apply os_mkdir_exists. by rewrite Hc. }
  destruct rp as [|x rp]; cbn [OS.mkdir_parents]; rewrite Hm;
    cbv beta iota delta [OS.mkdir_except OS.is_OSError negb]; by rewrite H.
Qed.

(** A regular file on the way makes it raise. *)
Lemma OS_mkdir_parents_blocked (rp : list string) (exist_ok : bool) (d : dir)
    (q : path) :
  q `prefix_of` rev rp → OS.path_is_file d q = inr true →
  ∃ e, fst (OS.mkdir_parents rp exist_ok d) = inl e.
Proof.
  intros Hq Hfile.
  destruct (OS.mkdir_parents rp exist_ok d) as [[e|[]] d'] eqn:H; [by exists e|].
  exfalso. pose proof (OS_mkdir_parents_adds rp exist_ok d) as Hadd.
  rewrite H in Hadd. apply adds_dirs_extends in Hadd.
  apply OS_mkdir_parents_post in H.
  apply (path_is_dir_prefix _ _ _ Hq), path_is_dir_true in H.
  apply (path_is_file_extends _ _ _ Hadd), path_is_file_true in Hfile.
  destruct Hfile as [data Hf]. simpl in Hf. congruence.
Qed.

(** *** The files of a model *)

Lemma ends_with_xml_bin (s : string) : OS.ends_with_xml (s +:+ "bin") = false.
Proof.
  induction s as [|x s IH]; [done|].
  change (OS.ends_with_xml (String x (s +:+ "bin")) = false).
  cbn [OS.ends_with_xml]. rewrite IH, orb_false_r.
  apply String.eqb_neq. intros E. pose proof (f_equal String.length E) as El.
  simpl in El. rewrite str_length_app in El. simpl in El.
  assert (s = "") as -> by (destruct s; [done | simpl in El; lia]).
  discriminate E.
Qed.

Lemma xml_not_bin (q p : path) : OS.xml_suffix q = true → q ≠ OS.bin_path p.
Proof.
  unfold OS.xml_suffix, OS.bin_path. intros H ->.
  destruct (last p) as [name|] eqn:Hp; [|by rewrite Hp in H].
  rewrite last_snoc in H. by rewrite ends_with_xml_bin in H.
Qed.

Lemma plain_app (q r : path) :
  OS.plain (q ++ r) = OS.plain q && OS.plain r.
Proof. apply forallb_app. Qed.

Lemma bin_path_plain (p : path) :
  OS.plain p = true → OS.plain (OS.bin_path p) = true.
Proof.
  unfold OS.bin_path. intros H. destruct (last p) as [name|] eqn:Hp; [|done].
  apply last_Some in Hp as [pp ->]. rewrite removelast_last.
  rewrite plain_app in *. apply andb_true_iff in H as [-> _]. simpl.
  rewrite andb_true_r. apply negb_true_iff, String.eqb_neq. intros E.
  apply (f_equal String.length) in E. rewrite str_length_app in E.
  simpl in E. lia.
Qed.

Lemma open_w_extends (d d' : dir) (p : path) (data : string) :
  OS.open_w d p data = inr d' → OS.extends d d'.
Proof.
  unfold OS.open_w. destruct (OS.resolve d p) as [e|c]; [done|].
  apply write_file_extends.
Qed.

(** Writing at a path without [..] changes the file at that address and
    nothing else. *)
Lemma open_w_stat_plain (d d' : dir) (p q : path) (data : string) :
  OS.plain p = true → OS.open_w d p data = inr d' →
  stat d' q = if decide (q = p) then Some (KFile data) else stat d q.
Proof.
  unfold OS.open_w. intros Hp H. destruct (OS.resolve d p) as [e|c] eqn:Hr; [done|].
  apply (resolve_plain _ _ _ Hp) in Hr as ->. by apply write_file_stat.
Qed.

(** What has been written can be read. *)
Lemma open_w_post (d d' : dir) (p : path) (data : string) :
  OS.open_w d p data = inr d' → OS.os_stat d' p = inr (KFile data).
Proof.
  intros H. pose proof (open_w_extends _ _ _ _ H) as Hext.
  unfold OS.open_w in H. unfold OS.os_stat.
  destruct (OS.resolve d p) as [e|c] eqn:Hr; [done|].
  rewrite (resolve_extends _ _ _ _ Hext Hr).
  by rewrite (write_file_stat _ _ _ c _ H), decide_True.
Qed.

Section OSConversionProperties.
Context {nn_Module tensor ov_Model : Type}.
Variable ov_convert_model :
  nn_Module → tensor → option pyval → torch_state → (exc + ov_Model) * torch_state.
Variable serialize : ov_Model → bool → string.
Variable weights : ov_Model → bool → string.

Lemma write_model_extends (m : ov_Model) (p : path) (c : bool) (d : dir) :
  OS.extends d (snd (OS.write_model serialize weights m p c d)).
Proof.
  unfold OS.write_model. destruct (negb (OS.xml_suffix p)); [apply extends_refl|].
  destruct (OS.open_w d _ _) as [e|d1] eqn:H1; [apply extends_refl|].
  apply open_w_extends in H1.
  destruct (OS.open_w d1 _ _) as [e|d2] eqn:H2; [done|].
  apply open_w_extends in H2. by eapply extends_trans.
Qed.

(** [ov.save_model] on a path without [..] touches the two files of the
    model only. *)
Lemma write_model_frame (m : ov_Model) (p q : path) (c : bool) (d : dir) :
  OS.plain p = true → q ≠ p → q ≠ OS.bin_path p →
  stat (snd (OS.write_model serialize weights m p c d)) q = stat d q.
Proof.
  intros Hp Hq Hb. unfold OS.write_model.
  destruct (negb (OS.xml_suffix p)); [done|].
  destruct (OS.open_w d _ _) as [e|d1] eqn:H1; [done|].
  assert (stat d1 q = stat d q) as E1.
  { rewrite (open_w_stat_plain _ _ _ q _ (bin_path_plain _ Hp) H1).
    by rewrite decide_False. }
  destruct (OS.open_w d1 _ _) as [e|d2] eqn:H2; [done|]. simpl.
  rewrite (open_w_stat_plain _ _ _ q _ Hp H2). by rewrite decide_False.
Qed.

(** When [ov.save_model] returns, the XML file holds the text of the
    model. *)
Lemma write_model_post (m : ov_Model) (p : path) (c : bool) (d d' : dir) :
  OS.write_model serialize weights m p c d = (inr tt, d') →
  OS.os_stat d' p = inr (KFile (serialize m c)).
Proof.
  unfold OS.write_model. destruct (negb (OS.xml_suffix p)); [done|].
  destruct (OS.open_w d _ _) as [e|d1]; [done|].
  destruct (OS.open_w d1 _ _) as [e|d2] eqn:H2; [done|].
  intros [= <-]. by eapply open_w_post.
Qed.

(** Unless it returns, [ov.save_model] on a path without [..] leaves the
    XML file as it was. *)
Lemma write_model_raises (m : ov_Model) (p : path) (c : bool) (d d' : dir)
    (e : exc) :
  OS.plain p = true → OS.xml_suffix p = true →
  OS.write_model serialize weights m p c d = (inl e, d') →
  stat d' p = stat d p.
Proof.
  intros Hp Hx. unfold OS.write_model. rewrite Hx. simpl.
  destruct (OS.open_w d _ _) as [e1|d1] eqn:H1; [by intros [= _ <-]|].
  destruct (OS.open_w d1 _ _) as [e2|d2] eqn:H2; [|done].
  intros [= _ <-].
  rewrite (open_w_stat_plain _ _ _ p _ (bin_path_plain _ Hp) H1).
  rewrite decide_False; [done|]. by apply xml_not_bin.
Qed.

(** The call, step by step. *)
Lemma OS_convert_unfold (m : nn_Module) (p : string) (ex : tensor) (sh : pyval)
    (w : world nn_Module tensor ov_Model) :
  OS.convert ov_convert_model serialize weights m p ex sh w =
    match OS.path_exists (fs w) (Path p) with
    | inl e => (inl e, w)
    | inr true => (inr tt, w)
    | inr false =>
        match OS.pathlib_mkdir (parent (Path p)) true true (fs w) with
        | (inl e, d1) => (inl e, {| fs := d1; torch := torch w; calls := calls w |})
        | (inr _, d1) =>
            let log := calls w ++ [ConvertModel m ex (input_argument sh) false] in
            match ov_convert_model m ex (input_argument sh)
                    (set_grad_enabled false (torch w)) with
            | (inl e, t) =>
                (inl e,
                 {| fs := d1;
                    torch := set_grad_enabled (grad_enabled (torch w)) t;
                    calls := log |})
            | (inr ir, t) =>
                match OS.write_model serialize weights ir (Path p) false d1 with
                | (inl e, d2) =>
                    (inl e,
                     {| fs := d2;
                        torch := set_grad_enabled (grad_enabled (torch w)) t;
                        calls := log ++ [SaveModel ir (Path p) false] |})
                | (inr _, d2) =>
                    (inr tt,
                     {| fs := d2;
                        torch := {| grad_enabled := grad_enabled (torch w);
                                    class_registry := [];
                                    concrete_type_store := [];
                                    class_state := [] |};
                        calls := log ++ [SaveModel ir (Path p) false] |})
                end
            end
        end
    end.
Proof.
  unfold OS.convert, OS.Path_exists, OS.Path_mkdir, OS.on_fs, mbind, PyM_bind.
  assert ((if negb (truthy sh)
           then convert_model ov_convert_model m ex None
           else convert_model ov_convert_model m ex (Some sh))
          = convert_model ov_convert_model m ex (input_argument sh)) as ->.
  { unfold input_argument. by destruct (truthy sh). }
  destruct (OS.path_exists (fs w) (Path p)) as [e|[]]; [done | done |].
  cbv beta iota delta [negb].
  destruct (OS.pathlib_mkdir _ _ _ _) as [[e|[]] d1]; [done|].
  unfold no_grad, convert_model, OS.save_model, OS.on_fs. simpl.
  destruct (ov_convert_model _ _ _ _) as [[e|ir] t]; [done|]. simpl.
  by destruct (OS.write_model _ _ _ _ _ _) as [[e|[]] d2].
Qed.

(** A call of [convert] deletes nothing. *)
Lemma OS_convert_extends (m : nn_Module) (p : string) (ex : tensor) (sh : pyval)
    (w : world nn_Module tensor ov_Model) :
  OS.extends (fs w)
    (fs (snd (OS.convert ov_convert_model serialize weights m p ex sh w))).
Proof.
  rewrite OS_convert_unfold.
  destruct (OS.path_exists _ _) as [e|[]]; try apply extends_refl.
  pose proof (adds_dirs_extends _ _
    (OS_pathlib_mkdir_adds (parent (Path p)) true true (fs w))) as Hmk.
  destruct (OS.pathlib_mkdir _ _ _ _) as [[e|[]] d1]; [done|]. cbv zeta.
  destruct (ov_convert_model _ _ _ _) as [[e|ir] t]; [done|].
  pose proof (write_model_extends ir (Path p) false d1) as Hwr.
  destruct (OS.write_model _ _ _ _ _ _) as [[e|[]] d2]; by eapply extends_trans.
Qed.

Lemma OS_run_each_extends (rs : list (request nn_Module tensor))
    (w : world nn_Module tensor ov_Model) :
  OS.extends (fs w) (fs (OS.run_each ov_convert_model serialize weights rs w)).
Proof.
  revert w. induction rs as [|r rs IH]; intros w; [apply extends_refl|].
  simpl. eapply extends_trans; [|apply IH]. apply OS_convert_extends.
Qed.

(** One call with a path without [..]: a file elsewhere than at the path
    and at the path of the weights is the same before and after. *)
Lemma OS_convert_frame (m : nn_Module) (p : string) (ex : tensor) (sh : pyval)
    (w : world nn_Module tensor ov_Model) (q : path) (data : string) :
  OS.plain (Path p) = true → q ≠ Path p → q ≠ OS.bin_path (Path p) →
  stat (fs (snd (OS.convert ov_convert_model serialize weights m p ex sh w))) q
    = Some (KFile data) ↔
  stat (fs w) q = Some (KFile data).
Proof.
  intros Hp Hq Hb. rewrite OS_convert_unfold.
  destruct (OS.path_exists _ _) as [e|[]]; [done | done |].
  pose proof (OS_pathlib_mkdir_adds (parent (Path p)) true true (fs w) q) as Hmk.
  destruct (OS.pathlib_mkdir _ _ _ _) as [[e|[]] d1]; simpl in Hmk.
  { simpl. destruct Hmk as [->|[E1 E2]]; [done|]. rewrite E1, E2. done. }
  assert (stat d1 q = Some (KFile data) ↔ stat (fs w) q = Some (KFile data)) as Hd1.
  { destruct Hmk as [->|[E1 E2]]; [done|]. rewrite E1, E2. done. }
  cbv zeta. destruct (ov_convert_model _ _ _ _) as [[e|ir] t]; [done|].
  pose proof (write_model_frame ir (Path p) q false d1 Hp Hq Hb) as Hwr.
  destruct (OS.write_model _ _ _ _ _ _) as [[e|[]] d2]; simpl in *;
    by rewrite Hwr.
Qed.

(** A file at a path without [..] is found by [os.stat], in a state in which
    the path resolves. *)
Lemma os_stat_plain (d : dir) (q : path) (k : kind) :
  OS.plain q = true → OS.os_stat d q = inr k → stat d q = Some k.
Proof.
  unfold OS.os_stat. intros Hq H.
  destruct (OS.resolve d q) as [e|c] eqn:Hr; [done|].
  apply (resolve_plain _ _ _ Hq) in Hr as ->.
  destruct (stat d q); by simplify_eq.
Qed.

Lemma os_stat_plain_back (d d' : dir) (q : path) (k k' : kind) :
  OS.plain q = true → OS.os_stat d' q = inr k' → stat d q = Some k →
  OS.os_stat d q = inr k.
Proof.
  unfold OS.os_stat. intros Hq H Hk.
  destruct (OS.resolve d' q) as [e|c] eqn:Hr; [done|].
  rewrite (resolve_plain_back d d' q c Hq Hr) by (by rewrite Hk).
  by rewrite Hk.
Qed.

(** A call with a path without [..] after which a file is at the path that
    was not there before has converted and saved the model, and returned. *)
Lemma OS_convert_makes_file (m : nn_Module) (p : string) (ex : tensor) (sh : pyval)
    (w : world nn_Module tensor ov_Model) (data : string) :
  let r := OS.convert ov_convert_model serialize weights m p ex sh w in
  OS.plain (Path p) = true → OS.xml_suffix (Path p) = true →
  stat (fs w) (Path p) ≠ Some (KFile data) →
  stat (fs (snd r)) (Path p) = Some (KFile data) →
  fst r = inr tt ∧
  ∃ ir t,
    ov_convert_model m ex (input_argument sh)
      (set_grad_enabled false (torch w)) = (inr ir, t) ∧
    OS.os_stat (fs (snd r)) (Path p) = inr (KFile (serialize ir false)).
Proof.
  intros r Hp Hxml Hno. unfold r. clear r. rewrite OS_convert_unfold.
  destruct (OS.path_exists _ _) as [e0|[]]; [done | done |].
  pose proof (OS_pathlib_mkdir_adds (parent (Path p)) true true (fs w) (Path p))
    as Hmk.
  destruct (OS.pathlib_mkdir _ _ _ _) as [[e1|[]] d1]; simpl in Hmk.
  { simpl. intros Hst. destruct Hmk as [E|[E1 E2]]; congruence. }
  assert (stat d1 (Path p) ≠ Some (KFile data)) as Hno1.
  { destruct Hmk as [E|[E1 E2]]; congruence. }
  cbv zeta. destruct (ov_convert_model _ _ _ _) as [[e2|ir] t]; [done|].
  destruct (OS.write_model _ _ _ _ _ _) as [[e3|[]] d2] eqn:Hwr; simpl.
  { intros Hst. by rewrite (write_model_raises _ _ _ _ _ _ Hp Hxml Hwr) in Hst. }
  intros _. split; [done|]. exists ir, t. split; [done|].
  by apply (write_model_post _ _ _ _ _ Hwr).
Qed.

(** What the first embedding shows of the cache holds in the second: a call
    that finds something at the path returns at once; a call that returns
    leaves something at the path; and what is there stays, so every later
    call on the path returns at once and changes nothing. *)
Lemma OS_convert_hit (m : nn_Module) (p : string) (ex : tensor) (sh : pyval)
    (w : world nn_Module tensor ov_Model) :
  OS.path_exists (fs w) (Path p) = inr true →
  OS.convert ov_convert_model serialize weights m p ex sh w = (inr tt, w).
Proof. intros H. by rewrite OS_convert_unfold, H. Qed.

Lemma OS_convert_returns_exists (m : nn_Module) (p : string) (ex : tensor)
    (sh : pyval) (w w' : world nn_Module tensor ov_Model) :
  OS.convert ov_convert_model serialize weights m p ex sh w = (inr tt, w') →
  OS.path_exists (fs w') (Path p) = inr true.
Proof.
  rewrite OS_convert_unfold.
  destruct (OS.path_exists (fs w) (Path p)) as [e|[]] eqn:Hex; [done | |].
  { by intros [= <-]. }
  destruct (OS.pathlib_mkdir _ _ _ _) as [[e|[]] d1]; [done|]. cbv zeta.
  destruct (ov_convert_model _ _ _ _) as [[e|ir] t]; [done|].
  destruct (OS.write_model _ _ _ _ _ _) as [[e|[]] d2] eqn:Hwr; [done|].
  intros [= <-]. simpl. apply path_exists_true.
  eexists. by apply (write_model_post _ _ _ _ _ Hwr).
Qed.

Lemma OS_convert_again (m m2 : nn_Module) (p : string) (ex ex2 : tensor)
    (sh sh2 : pyval) (w w' : world nn_Module tensor ov_Model)
    (between : list (request nn_Module tensor)) :
  OS.convert ov_convert_model serialize weights m p ex sh w = (inr tt, w') →
  let w2 := OS.run_each ov_convert_model serialize weights between w' in
  OS.convert ov_convert_model serialize weights m2 p ex2 sh2 w2 = (inr tt, w2).
Proof.
  intros H w2. apply OS_convert_hit.
  apply OS_convert_returns_exists, path_exists_true in H as [k Hk].
  destruct (os_stat_extends _ _ _ _ (OS_run_each_extends between w') Hk)
    as (k' & Hk' & _).
  apply path_exists_true. by exists k'.
Qed.

(** C3, amended.  On a call of [convert] that finds nothing at the path:
    when [mkdir(parents=True, exist_ok=True)] returns on the parent, the
    parent and every directory on the way to it exist after the call, the
    missing ones having been made, whatever the rest of the call does; when
    the parent is a directory already, [mkdir] returns, changes nothing, and
    the call goes on to the converter; when a regular file is on the way to
    the parent, the call raises before the converter is reached; and whatever
    [mkdir] raises, [convert] raises, with the directories made until
    then. *)
Theorem convert_ensures_parent (m : nn_Module) (p : string) (ex : tensor)
    (sh : pyval) (w : world nn_Module tensor ov_Model) :
  OS.path_exists (fs w) (Path p) = inr false →
  let r := OS.convert ov_convert_model serialize weights m p ex sh w in
  (∀ d1, OS.pathlib_mkdir (parent (Path p)) true true (fs w) = (inr tt, d1) →
     ∀ q, q `prefix_of` parent (Path p) →
       OS.path_is_dir (fs (snd r)) q = inr true) ∧
  (OS.path_is_dir (fs w) (parent (Path p)) = inr true →
     OS.pathlib_mkdir (parent (Path p)) true true (fs w) = (inr tt, fs w) ∧
     ∃ rest, calls (snd r) =
       calls w ++ ConvertModel m ex (input_argument sh) false :: rest) ∧
  (∀ q, q `prefix_of` parent (Path p) → OS.path_is_file (fs w) q = inr true →
     ∃ e, fst r = inl e ∧ calls (snd r) = calls w) ∧
  (∀ e d1, OS.pathlib_mkdir (parent (Path p)) true true (fs w) = (inl e, d1) →
     r = (inl e, {| fs := d1; torch := torch w; calls := calls w |})).
Proof.
  intros Hmiss r. unfold r. rewrite OS_convert_unfold, Hmiss. split_and!.
  - intros d1 Hmk q Hq. rewrite Hmk. cbv zeta.
    assert (OS.path_is_dir d1 q = inr true) as Hd1.
    { apply (path_is_dir_prefix _ _ _ Hq).
      apply OS_mkdir_parents_post in Hmk. by rewrite rev_involutive in Hmk. }
    destruct (ov_convert_model _ _ _ _) as [[e|ir] t]; [done|].
    pose proof (write_model_extends ir (Path p) false d1) as Hwr.
    destruct (OS.write_model _ _ _ _ _ _) as [[e|[]] d2];
      by apply (path_is_dir_extends _ _ _ Hwr).
  - intros Hdir.
    assert (OS.pathlib_mkdir (parent (Path p)) true true (fs w) = (inr tt, fs w))
      as Hmk.
    { apply OS_mkdir_parents_existing. by rewrite rev_involutive. }
    split; [done|]. rewrite Hmk. cbv zeta.
    destruct (ov_convert_model _ _ _ _) as [[e|ir] t]; [by exists []|].
    destruct (OS.write_model _ _ _ _ _ _) as [[e|[]] d2]; simpl;
      rewrite <- app_assoc; by eexists.
  - intros q Hq Hfile.
    destruct (OS_mkdir_parents_blocked (rev (parent (Path p))) true (fs w) q)
      as [e He]; [by rewrite rev_involutive | done |].
    change (fst (OS.pathlib_mkdir (parent (Path p)) true true (fs w)) = inl e) in He.
    destruct (OS.pathlib_mkdir _ _ _ _) as [[e'|[]] d1]; [|done].
    by exists e'.
  - intros e d1 Hmk. by rewrite Hmk.
Qed.

(** C5, amended.  The state machine of an artifact runs one way.  An
    artifact that is present stays present over any calls of [convert].  For
    an artifact path -- written without [..], ending in [.xml] -- and calls
    whose paths are written without [..]: the file keeps its content over any
    number of calls; and a call after which the artifact is present, having
    been missing before, is a call on that path that returned, the file
    holding what was serialized, uncompressed, from the model the converter
    returned. *)
Theorem artifact_one_way_plain (w : world nn_Module tensor ov_Model) (q : path) :
  (∀ (rs : list (request nn_Module tensor)),
     OS.artifact w q = Present →
     OS.artifact (OS.run_each ov_convert_model serialize weights rs w) q = Present) ∧
  (OS.plain q = true → OS.xml_suffix q = true →
   ∀ (rs : list (request nn_Module tensor)) (data : string),
     Forall (λ r, OS.plain (Path (req_path r)) = true) rs →
     OS.os_stat (fs w) q = inr (KFile data) →
     OS.os_stat (fs (OS.run_each ov_convert_model serialize weights rs w)) q
       = inr (KFile data)) ∧
  (OS.plain q = true → OS.xml_suffix q = true →
   ∀ (m : nn_Module) (p : string) (ex : tensor) (sh : pyval),
     let r := OS.convert ov_convert_model serialize weights m p ex sh w in
     OS.plain (Path p) = true →
     OS.artifact w q = Missing → OS.artifact (snd r) q = Present →
     q = Path p ∧ fst r = inr tt ∧
     ∃ ir t,
       ov_convert_model m ex (input_argument sh)
         (set_grad_enabled false (torch w)) = (inr ir, t) ∧
       OS.os_stat (fs (snd r)) q = inr (KFile (serialize ir false))).
Proof.
  split_and!.
  - intros rs. unfold OS.artifact.
    destruct (OS.os_stat (fs w) q) as [e|[data|]] eqn:Hq; try done. intros _.
    destruct (os_stat_extends _ _ _ _ (OS_run_each_extends rs w) Hq)
      as ([data'|] & -> & Hk); done.
  - intros Hplain Hxml rs data Hrs. revert w.
    induction Hrs as [|r rs Hr Hrs IH]; intros w Hq; [done|].
    simpl. apply IH. unfold OS.run_request.
    destruct (os_stat_extends _ _ _ _
      (OS_convert_extends (req_model r) (req_path r) (req_example r) (req_shape r) w)
      Hq) as (k' & Hq' & _).
    apply (os_stat_plain_back _ _ _ _ _ Hplain Hq').
    destruct (decide (q = Path (req_path r))) as [->|Hne].
    + (* the call is on the artifact itself: it finds the file *)
      rewrite OS_convert_unfold.
      assert (OS.path_exists (fs w) (Path (req_path r)) = inr true) as ->.
      { apply path_exists_true. by eexists. }
      by apply os_stat_plain.
    + apply OS_convert_frame; [done | done | by apply xml_not_bin |].
      by apply os_stat_plain.
  - intros Hplain Hxml m p ex sh r Hp Hmissing Hpresent.
    assert (∃ data', OS.os_stat (fs (snd r)) q = inr (KFile data'))
      as [data' Hq'].
    { unfold OS.artifact in Hpresent.
      destruct (OS.os_stat (fs (snd r)) q) as [e|[data'|]]; try done.
      by exists data'. }
    assert (stat (fs w) q ≠ Some (KFile data')) as Hno.
    { intros Hst. unfold OS.artifact in Hmissing.
      by rewrite (os_stat_plain_back _ _ _ _ _ Hplain Hq' Hst) in Hmissing. }
    pose proof (os_stat_plain _ _ _ Hplain Hq') as Hst'.
    destruct (decide (q = Path p)) as [->|Hne].
    + split; [done|]. by apply (OS_convert_makes_file m p ex sh w data').
    + exfalso. apply Hno.
      by apply (OS_convert_frame m p ex sh w q data' Hp Hne (xml_not_bin _ _ Hxml)).
Qed.

(** C6, amended.  On a call of [convert] that finds nothing at the path and
    on which [mkdir] returns, the converter is called once, with gradients
    switched off, and the gradient mode is afterwards what it was.  When the
    converter raises, [convert] raises the same and nothing is saved.  When
    it returns a model, [ov.save_model] is called once, on that model, with
    the path and [compress_to_fp16=False]; [convert] returns exactly when
    the save does, and then the file at the path holds the uncompressed text
    of the model; what the save raises, [convert] raises. *)
Theorem convert_miss_converts_saves (m : nn_Module) (p : string) (ex : tensor)
    (sh : pyval) (w : world nn_Module tensor ov_Model) (d1 : dir) :
  OS.path_exists (fs w) (Path p) = inr false →
  OS.pathlib_mkdir (parent (Path p)) true true (fs w) = (inr tt, d1) →
  let r := OS.convert ov_convert_model serialize weights m p ex sh w in
  let log := calls w ++ [ConvertModel m ex (input_argument sh) false] in
  grad_enabled (torch (snd r)) = grad_enabled (torch w) ∧
  match ov_convert_model m ex (input_argument sh)
          (set_grad_enabled false (torch w)) with
  | (inl e, _) => fst r = inl e ∧ calls (snd r) = log ∧ fs (snd r) = d1
  | (inr ir, _) =>
      calls (snd r) = log ++ [SaveModel ir (Path p) false] ∧
      fst r = fst (OS.write_model serialize weights ir (Path p) false d1) ∧
      fs (snd r) = snd (OS.write_model serialize weights ir (Path p) false d1) ∧
      (fst r = inr tt →
       OS.os_stat (fs (snd r)) (Path p) = inr (KFile (serialize ir false)))
  end.
Proof.
  intros Hmiss Hmk r log. unfold r, log.
  rewrite OS_convert_unfold, Hmiss, Hmk. cbv zeta.
  destruct (ov_convert_model _ _ _ _) as [[e|ir] t]; simpl; [done|].
  destruct (OS.write_model _ _ _ _ _ _) as [[e|[]] d2] eqn:Hwr; simpl;
    split_and!; try done.
  intros _. by apply (write_model_post _ _ _ _ _ Hwr).
Qed.

End OSConversionProperties.

(** ** The demo launch *)

Section DemoProperties.
Context {server : Type}.
Variable gr_launch : launch_args → server → (exc + unit) * server.

(** C8, amended.  When the first launch raises an exception that is an
    instance of [Exception], the exception is not raised again: the demo is
    launched a second time, once, with [share=True], and the outcome of the
    cell is the outcome of that launch.  This holds for every such exception,
    whatever its class. *)
Theorem launch_demo_falls_back (d : demo server) (e : exc) (s : server) :
  gr_launch {| debug := Some true; share := None |} (gradio d) = (inl e, s) →
  is_Exception e = true →
  let r := launch_demo gr_launch d in
  let fallback := gr_launch {| debug := Some true; share := Some true |} s in
  fst r = fst fallback ∧
  gradio (snd r) = snd fallback ∧
  launches (snd r) =
    launches d ++ [ {| debug := Some true; share := None |};
                    {| debug := Some true; share := Some true |} ].
Proof.
  intros H1 He r fallback. unfold r, fallback, launch_demo, try_except.
  unfold mbind, PyM_bind, queue, launch. simpl. rewrite H1. simpl.
  rewrite He. simpl.
  destruct (gr_launch _ s) as [r2 s2]. simpl. by rewrite <- app_assoc.
Qed.

(** An exception that is no instance of [Exception] passes through the
    [except] clause: one launch, no fallback. *)
Lemma launch_demo_passes_base_exception (d : demo server) (e : exc) (s : server) :
  gr_launch {| debug := Some true; share := None |} (gradio d) = (inl e, s) →
  is_Exception e = false →
  launch_demo gr_launch d =
    (inl e, {| queue_enabled := true;
               launches := launches d ++ [ {| debug := Some true; share := None |} ];
               gradio := s |}).
Proof.
  intros H1 He. unfold launch_demo, try_except.
  unfold mbind, PyM_bind, queue, launch. simpl. rewrite H1. simpl.
  by rewrite He.
Qed.

End DemoProperties.

(** ** The workflow trigger *)

Lemma list_ascii_of_string_app (a b : string) :
  String.list_ascii_of_string (a +:+ b) =
  String.list_ascii_of_string a ++ String.list_ascii_of_string b.
Proof. induction a as [|c a IH]; [done|]. simpl. by rewrite IH. Qed.

(** A pattern without stars matches its own text only. *)
Lemma glob_match_literal (l s : list ascii) :
  glob_match (GChar <$> l) s = true ↔ s = l.
Proof.
  revert s. induction l as [|c l IH]; intros [|x s]; simpl; try done.
  rewrite andb_true_iff, IH, Ascii.eqb_eq.
  split; [by intros [-> ->] | by intros [= -> ->]].
Qed.

(** The text of a pattern before its first star must be the beginning of
    the name. *)
Lemma glob_match_prefix (l : list ascii) (p : list glob_token) (s : list ascii) :
  glob_match ((GChar <$> l) ++ p) (l ++ s) = glob_match p s.
Proof.
  induction l as [|c l IH]; [done|].
  cbn [fmap list_fmap app glob_match]. fold (fmap (M:=list) GChar l).
  by rewrite Ascii.eqb_refl, IH.
Qed.

(** [**] lets any text through before what follows it. *)
Lemma glob_match_starstar (p : list glob_token) (s t : list ascii) :
  glob_match p t = true → glob_match (GStarStar :: p) (s ++ t) = true.
Proof.
  intros Ht. induction s as [|x s IH].
  - simpl. destruct t; by rewrite Ht.
  - simpl in *. by rewrite IH, orb_true_r.
Qed.

Lemma branch_main_or_latest (branch : string) :
  existsb (λ pat, pattern_matches pat branch) ["main"; "latest"] = true ↔
  branch = "main" ∨ branch = "latest".
Proof.
  assert (∀ lit : string,
    pattern_matches lit branch =
      glob_match (glob_tokens lit) (String.list_ascii_of_string branch)) as E by done.
  simpl. rewrite orb_false_r, orb_true_iff.
  change (pattern_matches "main" branch) with
    (glob_match (GChar <$> String.list_ascii_of_string "main")
       (String.list_ascii_of_string branch)).
  change (pattern_matches "latest" branch) with
    (glob_match (GChar <$> String.list_ascii_of_string "latest")
       (String.list_ascii_of_string branch)).
  rewrite !glob_match_literal. clear E.
  split; (intros [H|H]; [left|right]).
  - by rewrite <- (String.string_of_list_ascii_of_string branch), H.
  - by rewrite <- (String.string_of_list_ascii_of_string branch), H.
  - by rewrite H.
  - by rewrite H.
Qed.

Example watched_examples :
  path_watched watched_paths "notebooks/a/b/c.ipynb" = true ∧
  path_watched watched_paths "notebooks/utils/notebook_utils.py" = true ∧
  path_watched watched_paths "requirements.txt" = true ∧
  path_watched watched_paths ".ci/spellcheck/run.py" = false ∧
  path_watched watched_paths ".ci/ignore_treon_linux.txt" = true ∧
  path_watched watched_paths ".github/workflows/treon.yml" = true ∧
  path_watched watched_paths ".github/workflows/.env" = true ∧
  path_watched watched_paths "README.md" = false ∧
  path_watched watched_paths "notebooks/README.md" = false.
Proof. vm_compute. done. Qed.

(** Every notebook below [notebooks/] is watched. *)
Lemma notebook_watched (name : string) :
  path_watched watched_paths ("notebooks/" +:+ name +:+ ".ipynb") = true.
Proof.
  unfold path_watched, watched_paths. cbn [existsb].
  apply orb_true_iff. left. unfold pattern_matches.
  rewrite list_ascii_of_string_app, list_ascii_of_string_app.
  change (glob_tokens "notebooks/**.ipynb") with
    ((GChar <$> String.list_ascii_of_string "notebooks/") ++
     GStarStar :: (GChar <$> String.list_ascii_of_string ".ipynb")).
  rewrite glob_match_prefix. apply glob_match_starstar.
  by apply glob_match_literal.
Qed.

(** C9.  The trigger of the treon workflow.  A pull request against a branch
    and a push to it pass the same filters.  Such an event starts the
    workflow exactly when the branch is [main] or [latest] and one of the
    changed files matches one of the declared paths; so a change limited to
    files outside the declared paths does not start it, and a change to main
    or latest that touches a notebook below [notebooks/] does. *)
Theorem treon_trigger_scoping (branch : string) (changed : list string) :
  triggers treon_on (PullRequest branch changed) =
    triggers treon_on (Push branch changed) ∧
  (triggers treon_on (Push branch changed) = true ↔
     (branch = "main" ∨ branch = "latest") ∧
     ∃ file, file ∈ changed ∧ path_watched watched_paths file = true) ∧
  ((∀ file, file ∈ changed → path_watched watched_paths file = false) →
     triggers treon_on (Push branch changed) = false) ∧
  (∀ name : string,
     branch = "main" ∨ branch = "latest" →
     ("notebooks/" +:+ name +:+ ".ipynb") ∈ changed →
     triggers treon_on (Push branch changed) = true).
Proof.
  assert (triggers treon_on (Push branch changed) = true ↔
     (branch = "main" ∨ branch = "latest") ∧
     ∃ file, file ∈ changed ∧ path_watched watched_paths file = true) as Hiff.
  { cbn [triggers treon_on push]. unfold filters_pass. cbn [branches paths].
    rewrite andb_true_iff, branch_main_or_latest, existsb_exists.
    by setoid_rewrite list_elem_of_In. }
  split_and!; [done | done | |].
  - intros Hout. apply not_true_is_false. intros Ht.
    apply Hiff in Ht as (_ & file & Hin & Hw). by rewrite (Hout file Hin) in Hw.
  - intros name Hb Hin. apply Hiff. split; [done|].
    exists ("notebooks/" +:+ name +:+ ".ipynb"). split; [done|].
    apply notebook_watched.
Qed.

(** * The properties at work on the stubs *)


Lemma convert_reuses_artifact_witness :
  ∃ ir t,
    Stub.convert_model "unet" "ones" (input_argument PyNone)
      (set_grad_enabled false (torch Stub.empty_world)) = (inr ir, t) ∧
    stat (fs Stub.converted_world) (Path "models/x.xml")
      = Some (KFile (Stub.serialize ir false)) ∧
    Stub.convert_stub "clip" "models/x.xml" "zeros" PyNone Stub.converted_world
      = (inr tt, Stub.converted_world) ∧
    stat (fs (snd (Stub.convert_stub "clip" "models/x.xml" "zeros" PyNone
                     Stub.converted_world))) (Path "models/x.xml")
      = Some (KFile (Stub.serialize ir false)).
Proof.
  apply (convert_reuses_artifact Stub.convert_model Stub.serialize
           "unet" "clip" "models/x.xml" "ones" "zeros" PyNone PyNone
           Stub.empty_world Stub.converted_world).
  - vm_compute. reflexivity.
  - vm_compute. reflexivity.
Defined.

(** C3, as stated, fails where a regular file is on the way to the parent:
    [models] is a file, nothing exists at [models/ir/x.xml] nor at its parent
    [models/ir]; [mkdir] raises NotADirectoryError, [convert] raises it in
    turn, and the parent directory does not exist after the call. *)
Lemma convert_parent_blocked :
  OS.path_exists (fs Stub.blocked_world) (Path "models/ir/x.xml") = inr false ∧
  OS.path_exists (fs Stub.blocked_world) (parent (Path "models/ir/x.xml"))
    = inr false ∧
  StubOS.convert_stub "unet" "models/ir/x.xml" "ones" PyNone Stub.blocked_world
    = (inl NotADirectoryError, Stub.blocked_world) ∧
  OS.path_is_dir
    (fs (snd (StubOS.convert_stub "unet" "models/ir/x.xml" "ones" PyNone
                Stub.blocked_world)))
    (parent (Path "models/ir/x.xml")) = inr false.
Proof. vm_compute. done. Qed.

Lemma convert_ensures_parent_witness :
  OS.path_is_dir
    (fs (snd (StubOS.convert_stub "broken" "models/ir/x.xml" "ones" PyNone
                Stub.empty_world))) ["models"; "ir"] = inr true ∧
  OS.path_is_dir
    (fs (snd (StubOS.convert_stub "broken" "models/ir/x.xml" "ones" PyNone
                Stub.empty_world))) ["models"] = inr true ∧
  (∃ rest,
     calls (snd (StubOS.convert_stub "clip" "y.xml" "ones" PyNone
                   StubOS.unet_converted)) =
     calls StubOS.unet_converted ++
       ConvertModel "clip" "ones" (input_argument PyNone) false :: rest) ∧
  ∃ e, fst (StubOS.convert_stub "unet" "models/ir/x.xml" "ones" PyNone
              Stub.blocked_world) = inl e ∧
       calls (snd (StubOS.convert_stub "unet" "models/ir/x.xml" "ones" PyNone
                     Stub.blocked_world)) = calls Stub.blocked_world.
Proof.
  pose proof (convert_ensures_parent Stub.convert_model Stub.serialize
                StubOS.weights "broken" "models/ir/x.xml" "ones" PyNone
                Stub.empty_world eq_refl) as (H & _).
  pose proof (convert_ensures_parent Stub.convert_model Stub.serialize
                StubOS.weights "clip" "y.xml" "ones" PyNone
                StubOS.unet_converted eq_refl) as (_ & H' & _).
  pose proof (convert_ensures_parent Stub.convert_model Stub.serialize
                StubOS.weights "unet" "models/ir/x.xml" "ones" PyNone
                Stub.blocked_world eq_refl) as (_ & _ & H'' & _).
  split; [|split; [|split]].
  - apply (H {[ "models" := Dir {[ "ir" := Dir ∅ ]} ]}).
    + vm_compute. reflexivity.
    + by exists [].
  - apply (H {[ "models" := Dir {[ "ir" := Dir ∅ ]} ]}).
    + vm_compute. reflexivity.
    + by exists ["ir"].
  - apply H'. vm_compute. reflexivity.
  - apply (H'' ["models"]); [by exists ["ir"] | vm_compute; reflexivity].
Defined.

(** C5, as stated, fails for a path that goes through [..] below a directory
    that does not exist: [x.xml] holds the model of [unet]; nothing is found
    at [a/../x.xml], since [a] is missing; the call on that path makes [a],
    converts [clip] and saves it over [x.xml]. *)
Lemma convert_overwrites_through_dotdot :
  OS.artifact StubOS.unet_converted ["x.xml"] = Present ∧
  OS.os_stat (fs StubOS.unet_converted) ["x.xml"] = inr (KFile "fp32 ir unet") ∧
  OS.path_exists (fs StubOS.unet_converted) (Path "a/../x.xml") = inr false ∧
  fst (StubOS.convert_stub "clip" "a/../x.xml" "ones" PyNone StubOS.unet_converted)
    = inr tt ∧
  OS.os_stat
    (fs (snd (StubOS.convert_stub "clip" "a/../x.xml" "ones" PyNone
                StubOS.unet_converted))) ["x.xml"]
    = inr (KFile "fp32 ir clip").
Proof. vm_compute. done. Qed.

Lemma artifact_one_way_plain_witness :
  OS.artifact
    (OS.run_each Stub.convert_model Stub.serialize StubOS.weights Stub.retries
       StubOS.unet_converted) ["x.xml"] = Present ∧
  OS.os_stat
    (fs (OS.run_each Stub.convert_model Stub.serialize StubOS.weights
           Stub.notebook_cells StubOS.unet_converted)) ["x.xml"]
    = inr (KFile "fp32 ir unet") ∧
  (["x.xml"] = Path "x.xml" ∧
   fst (StubOS.convert_stub "unet" "x.xml" "ones" PyNone Stub.empty_world)
     = inr tt ∧
   ∃ ir t,
     Stub.convert_model "unet" "ones" (input_argument PyNone)
       (set_grad_enabled false (torch Stub.empty_world)) = (inr ir, t) ∧
     OS.os_stat
       (fs (snd (StubOS.convert_stub "unet" "x.xml" "ones" PyNone
                   Stub.empty_world))) ["x.xml"]
       = inr (KFile (Stub.serialize ir false))).
Proof.
  destruct (artifact_one_way_plain Stub.convert_model Stub.serialize
              StubOS.weights StubOS.unet_converted ["x.xml"]) as (H1 & H2 & _).
  destruct (artifact_one_way_plain Stub.convert_model Stub.serialize
              StubOS.weights Stub.empty_world ["x.xml"]) as (_ & _ & H3).
  split; [|split].
  - apply H1. vm_compute. reflexivity.
  - apply H2; [reflexivity | reflexivity | | vm_compute; reflexivity].
    repeat constructor.
  - apply (H3 eq_refl eq_refl "unet" "x.xml" "ones" PyNone);
      vm_compute; reflexivity.
Defined.

(** C6, as stated, fails where [mkdir] raises: [models] is a regular file, so
    nothing is found at [models/x.xml], [mkdir] raises FileExistsError, and
    the converter is never called. *)
Lemma convert_miss_without_conversion :
  OS.path_exists (fs Stub.blocked_world) (Path "models/x.xml") = inr false ∧
  StubOS.convert_stub "unet" "models/x.xml" "ones" PyNone Stub.blocked_world
    = (inl FileExistsError, Stub.blocked_world) ∧
  calls (snd (StubOS.convert_stub "unet" "models/x.xml" "ones" PyNone
                Stub.blocked_world)) = [].
Proof. vm_compute. done. Qed.

Lemma convert_miss_converts_saves_witness :
  grad_enabled (torch (snd (StubOS.convert_stub "unet" "models/x.xml" "ones"
                              PyNone Stub.empty_world))) = true ∧
  calls (snd (StubOS.convert_stub "unet" "models/x.xml" "ones" PyNone
                Stub.empty_world))
    = [ConvertModel "unet" "ones" None false;
       SaveModel "ir unet" ["models"; "x.xml"] false] ∧
  OS.os_stat (fs (snd (StubOS.convert_stub "unet" "models/x.xml" "ones" PyNone
                         Stub.empty_world))) (Path "models/x.xml")
    = inr (KFile "fp32 ir unet") ∧
  (* a name the save refuses: the converter has run, the save raises *)
  fst (StubOS.convert_stub "unet" "models/x.onnx" "ones" PyNone Stub.empty_world)
    = inl (OtherException "RuntimeError: Path for xml file has no xml extension") ∧
  calls (snd (StubOS.convert_stub "unet" "models/x.onnx" "ones" PyNone
                Stub.empty_world))
    = [ConvertModel "unet" "ones" None false;
       SaveModel "ir unet" ["models"; "x.onnx"] false].
Proof.
  destruct (convert_miss_converts_saves Stub.convert_model Stub.serialize
              StubOS.weights "unet" "models/x.xml" "ones" PyNone Stub.empty_world
              {[ "models" := Dir ∅ ]} eq_refl) as (H1 & H2 & _ & _ & H3).
  { vm_compute. reflexivity. }
  destruct (convert_miss_converts_saves Stub.convert_model Stub.serialize
              StubOS.weights "unet" "models/x.onnx" "ones" PyNone Stub.empty_world
              {[ "models" := Dir ∅ ]} eq_refl) as (_ & H4 & H5 & _).
  { vm_compute. reflexivity. }
  split_and!; [exact H1 | exact H2 | apply H3; vm_compute; reflexivity
              | exact H5 | exact H4].
Defined.


Lemma convert_resets_class_registry_witness :
  (class_registry (torch Stub.converted_world) = [] ∧
   concrete_type_store (torch Stub.converted_world) = [] ∧
   class_state (torch Stub.converted_world) = [] ∧
   registry_size (torch Stub.converted_world) = 0) ∧
  torch (snd (Stub.convert_stub "clip" "models/x.xml" "zeros" PyNone
                Stub.converted_world)) = torch Stub.converted_world ∧
  registry_size
    (torch (snd (run_cells Stub.convert_model Stub.serialize Stub.notebook_cells
                   Stub.empty_world)))
  ≤ registry_size (torch Stub.empty_world).
Proof.
  destruct (convert_resets_class_registry Stub.convert_model Stub.serialize
              "unet" "models/x.xml" "ones" PyNone Stub.empty_world)
    as (H1 & _ & H3).
  destruct (convert_resets_class_registry Stub.convert_model Stub.serialize
              "clip" "models/x.xml" "zeros" PyNone Stub.converted_world)
    as (_ & H2 & _).
  split; [|split].
  - apply H1; vm_compute; reflexivity.
  - apply H2. vm_compute. reflexivity.
  - apply (H3 Stub.notebook_cells). vm_compute. reflexivity.
Defined.

Lemma convert_shape_truthiness_witness :
  Stub.convert_stub "embedder" "models/embedder_ir.xml" "rand" (PyList [])
    Stub.empty_world
  = Stub.convert_stub "embedder" "models/embedder_ir.xml" "rand" PyNone
      Stub.empty_world ∧
  ∃ rest,
    calls (snd (Stub.convert_stub "embedder" "models/embedder_ir.xml" "rand"
                  (PyList [PyInt 1; PyInt 3; PyInt (-1); PyInt (-1)])
                  Stub.empty_world))
    = calls Stub.empty_world ++
        ConvertModel "embedder" "rand"
          (Some (PyList [PyInt 1; PyInt 3; PyInt (-1); PyInt (-1)])) false
        :: rest.
Proof.
  destruct (convert_shape_truthiness Stub.convert_model Stub.serialize
              "embedder" "models/embedder_ir.xml" "rand" (PyList [])
              Stub.empty_world) as (_ & H1 & _).
  destruct (convert_shape_truthiness Stub.convert_model Stub.serialize
              "embedder" "models/embedder_ir.xml" "rand"
              (PyList [PyInt 1; PyInt 3; PyInt (-1); PyInt (-1)])
              Stub.empty_world) as (_ & _ & H2).
  split.
  - apply H1. reflexivity.
  - apply (H2 {[ "models" := Dir ∅ ]}); vm_compute; reflexivity.
Defined.

(** C8, as stated, fails for an exception that is no instance of
    [Exception]: the first launch raises KeyboardInterrupt, the [except]
    clause lets it through, and the demo has been launched once, without
    [share]. *)
Lemma launch_demo_keyboard_interrupt :
  Stub.interrupted_launch {| debug := Some true; share := None |}
    (gradio Stub.new_demo) = (inl KeyboardInterrupt, 1) ∧
  launch_demo Stub.interrupted_launch Stub.new_demo
    = (inl KeyboardInterrupt,
       {| queue_enabled := true;
          launches := [ {| debug := Some true; share := None |} ];
          gradio := 1 |}).
Proof. vm_compute. done. Qed.

Lemma launch_demo_falls_back_witness :
  fst (launch_demo Stub.local_port_busy Stub.new_demo) = inr tt ∧
  gradio (snd (launch_demo Stub.local_port_busy Stub.new_demo)) = 2 ∧
  launches (snd (launch_demo Stub.local_port_busy Stub.new_demo))
    = [ {| debug := Some true; share := None |};
        {| debug := Some true; share := Some true |} ].
Proof.
  exact (launch_demo_falls_back Stub.local_port_busy Stub.new_demo
           (OtherException "OSError: Cannot find empty port") 1
           eq_refl eq_refl).
Defined.

Lemma treon_trigger_scoping_witness :
  triggers treon_on (Push "main" ["README.md"; "notebooks/utils/notes.md"]) = false ∧
  triggers treon_on
    (Push "latest"
       ["notebooks/dynamicrafter-animating-images/dynamicrafter-animating-images.ipynb"])
    = true.
Proof.
  destruct (treon_trigger_scoping "main"
              ["README.md"; "notebooks/utils/notes.md"]) as (_ & _ & H1 & _).
  destruct (treon_trigger_scoping "latest"
              ["notebooks/dynamicrafter-animating-images/dynamicrafter-animating-images.ipynb"])
    as (_ & _ & _ & H2).
  split.
  - apply H1. intros file Hin.
    apply list_elem_of_In in Hin. simpl in Hin.
    destruct Hin as [<-|[<-|[]]]; vm_compute; reflexivity.
  - apply (H2 "dynamicrafter-animating-images/dynamicrafter-animating-images").
    + by right.
    + by left.
Defined.

(** * Further properties of the workflow *)

Lemma glob_match_starstar_unfold (p : list glob_token) (s : list ascii) :
  glob_match (GStarStar :: p) s =
  glob_match p s ||
  match s with [] => false | _ :: s' => glob_match (GStarStar :: p) s' end.
Proof. by destruct s. Qed.

Lemma glob_match_star_unfold (p : list glob_token) (s : list ascii) :
  glob_match (GStar :: p) s =
  glob_match p s ||
  match s with
  | [] => false
  | x :: s' => negb (Ascii.eqb x "/"%char) && glob_match (GStar :: p) s'
  end.
Proof. by destruct s. Qed.

Lemma glob_match_prefix_iff (l : list ascii) (p : list glob_token) (s : list ascii) :
  glob_match ((GChar <$> l) ++ p) s = true ↔
  ∃ t, s = l ++ t ∧ glob_match p t = true.
Proof.
  revert s. induction l as [|c l IH]; intros s.
  - simpl. split; [by exists s | by intros (t & -> & Ht)].
  - cbn [fmap list_fmap app glob_match]. fold (fmap (M:=list) GChar l).
    destruct s as [|x s].
    + split; [done | by intros (t & ? & _)].
    + rewrite andb_true_iff, IH, Ascii.eqb_eq. split.
      * intros (-> & t & -> & Ht). by exists t.
      * intros (t & [= -> ->] & Ht). split; [done | by exists t].
Qed.

(** [**] followed by text: the name ends with the text. *)
Lemma glob_match_starstar_iff (l s : list ascii) :
  glob_match (GStarStar :: (GChar <$> l)) s = true ↔ ∃ k, s = k ++ l.
Proof.
  split.
  - induction s as [|x s IH]; rewrite glob_match_starstar_unfold, orb_true_iff.
    + intros [H|H]; [|done]. apply glob_match_literal in H. by exists [].
    + intros [H|H].
      * apply glob_match_literal in H. by exists [].
      * destruct (IH H) as [k ->]. by exists (x :: k).
  - intros [k ->]. apply glob_match_starstar. by apply glob_match_literal.
Qed.

(** [*] followed by text: the name ends with the text, and what comes before
    it holds no slash. *)
Lemma glob_match_star_iff (l s : list ascii) :
  glob_match (GStar :: (GChar <$> l)) s = true ↔
  ∃ k, s = k ++ l ∧ "/"%char ∉ k.
Proof.
  split.
  - induction s as [|x s IH]; rewrite glob_match_star_unfold, orb_true_iff.
    + intros [H|H]; [|done]. apply glob_match_literal in H.
      exists []. split; [done | apply not_elem_of_nil].
    + intros [H|H].
      * apply glob_match_literal in H. exists []. split; [done | apply not_elem_of_nil].
      * apply andb_true_iff in H as [Hx H]. destruct (IH H) as (k & -> & Hk).
        exists (x :: k). split; [done|]. apply not_elem_of_cons. split; [|done].
        intros <-. by rewrite Ascii.eqb_refl in Hx.
  - intros (k & -> & Hk). induction k as [|x k IH].
    + rewrite glob_match_star_unfold. simpl app.
      by rewrite (proj2 (glob_match_literal l l) eq_refl).
    + rewrite glob_match_star_unfold. apply not_elem_of_cons in Hk as [Hx Hk].
      simpl app. cbv iota. rewrite (IH Hk), andb_true_r.
      apply orb_true_iff. right. apply negb_true_iff, Ascii.eqb_neq. congruence.
Qed.

Lemma string_eq_list_ascii (a b : string) :
  String.list_ascii_of_string a = String.list_ascii_of_string b → a = b.
Proof.
  intros H. rewrite <- (String.string_of_list_ascii_of_string a), H.
  apply String.string_of_list_ascii_of_string.
Qed.

Lemma starstar_pattern_iff (pre suf f : string) :
  glob_match ((GChar <$> String.list_ascii_of_string pre) ++
              GStarStar :: (GChar <$> String.list_ascii_of_string suf))
    (String.list_ascii_of_string f) = true ↔
  ∃ mid, f = pre +:+ mid +:+ suf.
Proof.
  rewrite glob_match_prefix_iff. split.
  - intros (t & Hf & Ht). apply glob_match_starstar_iff in Ht as [k ->].
    exists (String.string_of_list_ascii k). apply string_eq_list_ascii.
    by rewrite Hf, !list_ascii_of_string_app,
      String.list_ascii_of_string_of_list_ascii.
  - intros [mid ->]. rewrite !list_ascii_of_string_app.
    eexists. split; [done|]. apply glob_match_starstar_iff. by eexists.
Qed.

Lemma star_pattern_iff (pre suf f : string) :
  glob_match ((GChar <$> String.list_ascii_of_string pre) ++
              GStar :: (GChar <$> String.list_ascii_of_string suf))
    (String.list_ascii_of_string f) = true ↔
  ∃ name, f = pre +:+ name +:+ suf ∧ no_slash name.
Proof.
  unfold no_slash. rewrite glob_match_prefix_iff. split.
  - intros (t & Hf & Ht). apply glob_match_star_iff in Ht as (k & -> & Hk).
    exists (String.string_of_list_ascii k).
    rewrite String.list_ascii_of_string_of_list_ascii. split; [|done].
    apply string_eq_list_ascii.
    by rewrite Hf, !list_ascii_of_string_app,
      String.list_ascii_of_string_of_list_ascii.
  - intros (name & -> & Hn). rewrite !list_ascii_of_string_app.
    eexists. split; [done|]. apply glob_match_star_iff. by eexists.
Qed.

Lemma literal_pattern_iff (pat f : string) :
  glob_match (GChar <$> String.list_ascii_of_string pat)
    (String.list_ascii_of_string f) = true ↔ f = pat.
Proof.
  rewrite glob_match_literal. split; [apply string_eq_list_ascii | by intros ->].
Qed.

(** X1.  The path filters, decoded.  A changed file passes the [paths]
    filter of the workflow exactly when it is a notebook or a Python file
    anywhere below [notebooks/], or [requirements.txt], or a file directly in
    [.ci/], or a [.yml] file directly in [.github/workflows/], or
    [.github/workflows/.env].  A file in a subdirectory of [.ci/] or of
    [.github/workflows/] does not pass. *)
Theorem watched_paths_decoded (f : string) :
  path_watched watched_paths f = true ↔
  (∃ mid, f = "notebooks/" +:+ mid +:+ ".ipynb") ∨
  (∃ mid, f = "notebooks/" +:+ mid +:+ ".py") ∨
  f = "requirements.txt" ∨
  (∃ name, f = ".ci/" +:+ name ∧ no_slash name) ∨
  (∃ name, f = ".github/workflows/" +:+ name +:+ ".yml" ∧ no_slash name) ∨
  f = ".github/workflows/.env".
Proof.
  unfold path_watched, watched_paths. cbn [existsb]. unfold pattern_matches.
  rewrite orb_false_r, !orb_true_iff.
  change (glob_tokens "notebooks/**.ipynb") with
    ((GChar <$> String.list_ascii_of_string "notebooks/") ++
     GStarStar :: (GChar <$> String.list_ascii_of_string ".ipynb")).
  change (glob_tokens "notebooks/**.py") with
    ((GChar <$> String.list_ascii_of_string "notebooks/") ++
     GStarStar :: (GChar <$> String.list_ascii_of_string ".py")).
  change (glob_tokens "requirements.txt") with
    (GChar <$> String.list_ascii_of_string "requirements.txt").
  change (glob_tokens ".ci/*") with
    ((GChar <$> String.list_ascii_of_string ".ci/") ++
     GStar :: (GChar <$> String.list_ascii_of_string "")).
  change (glob_tokens ".github/workflows/*.yml") with
    ((GChar <$> String.list_ascii_of_string ".github/workflows/") ++
     GStar :: (GChar <$> String.list_ascii_of_string ".yml")).
  change (glob_tokens ".github/workflows/.env") with
    (GChar <$> String.list_ascii_of_string ".github/workflows/.env").
  rewrite !starstar_pattern_iff, !star_pattern_iff, !literal_pattern_iff.
  assert ((∃ name, f = ".ci/" +:+ name +:+ "" ∧ no_slash name) ↔
          (∃ name, f = ".ci/" +:+ name ∧ no_slash name)) as ->; [|done].
  assert (∀ name : string, name +:+ "" = name) as E.
  { intros name. induction name as [|c name IH]; [done|].
    change (String c (name +:+ "") = String c name). by rewrite IH. }
  split; intros (name & -> & Hn); exists name; by rewrite ?E.
Qed.

(** X2.  Which runs cancel which.  Two runs are in the same concurrency
    group exactly when they have the same key: the number of the pull request
    for a run started by a pull request, the run id otherwise.  So when a run
    starts, a run in progress is cancelled exactly when it has the key of the
    new run: the earlier runs of the same pull request are cancelled, and a
    run that no pull request started never cancels another such run. *)
Theorem concurrency_cancels_same_key (workflow : string) (new r : run)
    (in_progress : list run) :
  (concurrency_group workflow r = concurrency_group workflow new ↔
     concurrency_key r = concurrency_key new) ∧
  (r ∈ in_progress →
     (r ∈ start_run workflow new in_progress ↔
        r = new ∨ concurrency_key r ≠ concurrency_key new)) ∧
  (∀ n, n ≠ 0%N → pull_request_number r = Some n →
     pull_request_number new = Some n →
     concurrency_group workflow r = concurrency_group workflow new) ∧
  (pull_request_number r = None → pull_request_number new = None →
     run_id r ≠ run_id new → r ∈ in_progress →
     r ∈ start_run workflow new in_progress).
Proof.
  assert (concurrency_group workflow r = concurrency_group workflow new ↔
          concurrency_key r = concurrency_key new) as Hkey.
  { unfold concurrency_group. split; [|by intros ->].
    intros H. apply (inj (String.app workflow)) in H.
    apply (inj (String.app "-")) in H. by apply (inj pretty) in H. }
  assert (r ∈ in_progress →
     (r ∈ start_run workflow new in_progress ↔
        r = new ∨ concurrency_key r ≠ concurrency_key new)) as Hstart.
  { intros Hin. unfold start_run. rewrite elem_of_cons, list_elem_of_filter.
    rewrite Hkey. tauto. }
  split_and!; [done | done | |].
  - intros n Hn Hr Hnew. apply Hkey. unfold concurrency_key.
    rewrite Hr, Hnew. by destruct (N.eqb_spec n 0).
  - intros Hr Hnew Hid Hin. apply Hstart; [done|]. right.
    unfold concurrency_key. by rewrite Hr, Hnew.
Qed.

Lemma concurrency_cancels_same_key_witness :
  concurrency_group "treon" {| run_id := 9001; pull_request_number := Some 42%N |}
  = concurrency_group "treon" {| run_id := 9002; pull_request_number := Some 42%N |} ∧
  {| run_id := 9001; pull_request_number := None |}
  ∈ start_run "treon" {| run_id := 9002; pull_request_number := None |}
      [ {| run_id := 9001; pull_request_number := None |} ].
Proof.
  split.
  - apply (proj1 (proj2 (proj2 (concurrency_cancels_same_key "treon"
             {| run_id := 9002; pull_request_number := Some 42%N |}
             {| run_id := 9001; pull_request_number := Some 42%N |} [])))
           42%N); [lia | reflexivity | reflexivity].
  - apply (proj2 (proj2 (proj2 (concurrency_cancels_same_key "treon"
             {| run_id := 9002; pull_request_number := None |}
             {| run_id := 9001; pull_request_number := None |}
             [ {| run_id := 9001; pull_request_number := None |} ]))));
      [reflexivity | reflexivity | simpl; lia | by left].
Defined.

(** * Further properties of the demo callback *)

(** ** Strings *)

Lemma str_app_nil_r (s : string) : s +:+ "" = s.
Proof.
  induction s as [|c s IH]; [done|].
  change (String c (s +:+ "") = String c s). by rewrite IH.
Qed.

Lemma str_app_assoc (a b c : string) : (a +:+ b) +:+ c = a +:+ b +:+ c.
Proof.
  induction a as [|x a IH]; [done|].
  change (String x ((a +:+ b) +:+ c) = String x (a +:+ b +:+ c)). by rewrite IH.
Qed.

Lemma str_contains_app (c : ascii) (a b : string) :
  str_contains c (a +:+ b) = str_contains c a || str_contains c b.
Proof.
  induction a as [|x a IH]; [done|].
  change (Ascii.eqb x c || str_contains c (a +:+ b) =
          Ascii.eqb x c || str_contains c a || str_contains c b).
  by rewrite IH, orb_assoc.
Qed.

Lemma str_replace_app (c : ascii) (new a b : string) :
  str_replace c new (a +:+ b) = str_replace c new a +:+ str_replace c new b.
Proof.
  induction a as [|x a IH]; [done|].
  change (str_replace c new (String x (a +:+ b)) =
          str_replace c new (String x a) +:+ str_replace c new b).
  cbn [str_replace]. rewrite IH. destruct (Ascii.eqb x c); [|done].
  by rewrite str_app_assoc.
Qed.

(** Replacing a character that does not occur changes nothing. *)
Lemma str_replace_absent (c : ascii) (new s : string) :
  str_contains c s = false → str_replace c new s = s.
Proof.
  induction s as [|x s IH]; [done|]. cbn [str_contains str_replace].
  intros H. apply orb_false_iff in H as [-> H]. by rewrite IH.
Qed.

(** After the replacement the character is gone, unless the new text brings
    it back. *)
Lemma str_replace_removes (c : ascii) (new s : string) :
  str_contains c new = false → str_contains c (str_replace c new s) = false.
Proof.
  intros Hnew. induction s as [|x s IH]; [done|]. cbn [str_replace].
  destruct (Ascii.eqb x c) eqn:E.
  - by rewrite str_contains_app, Hnew, IH.
  - cbn [str_contains]. by rewrite E, IH.
Qed.

Lemma str_replace_keeps_absent (c d : ascii) (new s : string) :
  str_contains c new = false → str_contains c s = false →
  str_contains c (str_replace d new s) = false.
Proof.
  intros Hnew. induction s as [|x s IH]; [done|]. cbn [str_contains str_replace].
  intros H. apply orb_false_iff in H as [Hx H]. destruct (Ascii.eqb x d).
  - by rewrite str_contains_app, Hnew, IH.
  - cbn [str_contains]. by rewrite Hx, IH.
Qed.

Lemma str_replace_length (c : ascii) (new s : string) :
  1 ≤ String.length new → String.length s ≤ String.length (str_replace c new s).
Proof.
  intros Hnew. induction s as [|x s IH]; [done|]. cbn [str_replace].
  destruct (Ascii.eqb x c).
  - rewrite str_length_app. simpl. lia.
  - simpl. lia.
Qed.

Lemma str_take_length (n : nat) (s : string) :
  String.length (str_take n s) = n `min` String.length s.
Proof.
  revert s. induction n as [|n IH]; intros [|x s]; simpl; try done.
  by rewrite IH.
Qed.

Lemma str_take_contains (c : ascii) (n : nat) (s : string) :
  str_contains c s = false → str_contains c (str_take n s) = false.
Proof.
  revert s. induction n as [|n IH]; intros [|x s]; simpl; try done.
  intros H. apply orb_false_iff in H as [-> H]. by apply IH.
Qed.

Lemma str_take_all (n : nat) (s : string) :
  String.length s ≤ n → str_take n s = s.
Proof.
  revert s. induction n as [|n IH]; intros [|x s]; simpl; try done; [lia|].
  intros H. rewrite IH; [done | lia].
Qed.

Lemma str_take_app (n : nat) (a b : string) :
  n ≤ String.length a → str_take n (a +:+ b) = str_take n a.
Proof.
  revert a. induction n as [|n IH]; intros [|x a]; simpl; try done; [lia|].
  intros H. change (String x (str_take n (a +:+ b)) = String x (str_take n a)).
  rewrite IH; [done | lia].
Qed.

(** ** The file name *)

(** The two tests of [get_image] on the prompt change nothing: the name is
    the prompt with every slash and every space replaced, cut to 40
    characters. *)
Lemma prompt_str_unfold (prompt : string) :
  prompt_str prompt =
  let t := str_take 40 (str_replace " " "_" (str_replace "/" "_slash_" prompt)) in
  if (String.length t =? 0)%nat then "empty_prompt" else t.
Proof.
  unfold prompt_str.
  assert ((if str_contains "/" prompt
           then str_replace "/" "_slash_" prompt else prompt)
          = str_replace "/" "_slash_" prompt) as ->.
  { destruct (str_contains "/" prompt) eqn:E; [done|].
    by rewrite str_replace_absent. }
  destruct (str_contains " " prompt) eqn:E; [done|].
  rewrite (str_replace_absent " " "_"); [done|].
  by apply str_replace_keeps_absent.
Qed.

(** The name before the empty case: cut to 40 characters, without slash
    and without space. *)
Lemma prompt_str_cut (prompt : string) :
  let t := str_take 40 (str_replace " " "_" (str_replace "/" "_slash_" prompt)) in
  String.length t ≤ 40 ∧ str_contains "/" t = false ∧ str_contains " " t = false.
Proof.
  cbv zeta. split_and!.
  - rewrite str_take_length. lia.
  - apply str_take_contains, str_replace_keeps_absent; [done|].
    by apply str_replace_removes.
  - by apply str_take_contains, str_replace_removes.
Qed.

Lemma prompt_str_name (prompt : string) :
  1 ≤ String.length (prompt_str prompt) ∧
  str_contains "/" (prompt_str prompt) = false.
Proof.
  rewrite prompt_str_unfold. cbv zeta.
  destruct (prompt_str_cut prompt) as (_ & Hslash & _). cbv zeta in Hslash.
  destruct (Nat.eqb_spec (String.length
    (str_take 40 (str_replace " " "_" (str_replace "/" "_slash_" prompt)))) 0)
    as [E|E]; [by split; [simpl; lia|] | by split; [lia|]].
Qed.

Lemma components_no_slash (s cur : string) :
  str_contains "/" s = false → components s cur = [cur +:+ s].
Proof.
  revert cur. induction s as [|x s IH]; intros cur H.
  - simpl. by rewrite str_app_nil_r.
  - cbn [str_contains] in H. apply orb_false_iff in H as [Hx H].
    cbn [components]. rewrite Hx, (IH _ H), str_app_assoc. done.
Qed.

Lemma components_slash (a b cur : string) :
  str_contains "/" a = false →
  components (a +:+ String "/" b) cur = (cur +:+ a) :: components b "".
Proof.
  revert cur. induction a as [|x a IH]; intros cur H.
  - simpl. by rewrite str_app_nil_r.
  - cbn [str_contains] in H. apply orb_false_iff in H as [Hx H].
    change (components (String x (a +:+ String "/" b)) cur =
            (cur +:+ String x a) :: components b "").
    cbn [components]. rewrite Hx, (IH _ H), str_app_assoc. done.
Qed.

(** The path of the video has two components. *)
Lemma video_path_components (prompt : string) :
  os_path_join "results" (prompt_str prompt +:+ ".mp4") =
    "results/" +:+ prompt_str prompt +:+ ".mp4" ∧
  Path (os_path_join "results" (prompt_str prompt +:+ ".mp4")) =
    ["results"; prompt_str prompt +:+ ".mp4"].
Proof.
  destruct (prompt_str_name prompt) as (Hlen & Hslash).
  set (name := prompt_str prompt) in *.
  assert (os_path_join "results" (name +:+ ".mp4") = "results/" +:+ name +:+ ".mp4")
    as ->.
  { unfold os_path_join. destruct name as [|x name]; [simpl in Hlen; lia|].
    cbn [str_contains] in Hslash. apply orb_false_iff in Hslash as [Hx _].
    change (starts_with_slash (String x name +:+ ".mp4")) with (Ascii.eqb x "/").
    by rewrite Hx. }
  split; [done|]. unfold Path.
  change ("results/" +:+ name +:+ ".mp4")
    with ("results" +:+ String "/" (name +:+ ".mp4")).
  rewrite components_slash by done.
  rewrite components_no_slash by (by rewrite str_contains_app, Hslash).
  change ("" +:+ "results") with "results".
  change ("" +:+ name +:+ ".mp4") with (name +:+ ".mp4").
  assert (String.length (name +:+ ".mp4") = String.length name + 4) as Hl.
  { by rewrite str_length_app. }
  rewrite filter_cons_True by done.
  rewrite filter_cons_True; [done|].
  split; intros E; rewrite E in Hl; simpl in Hl; lia.
Qed.

Lemma str_replace_space_slash (s : string) :
  str_replace " " "_" (str_replace "/" "_slash_" (str_replace " " "_" s)) =
  str_replace " " "_" (str_replace "/" "_slash_" s).
Proof.
  induction s as [|x s IH]; [done|].
  cbn [str_replace].
  destruct (Ascii.eqb_spec x " ") as [->|Hsp].
  - change (str_replace " " "_" (String "_" (str_replace "/" "_slash_"
              (str_replace " " "_" s))) =
            str_replace " " "_" (String " " (str_replace "/" "_slash_" s))).
    cbn [str_replace]. simpl Ascii.eqb. cbv iota.
    by rewrite IH.
  - cbn [str_replace]. destruct (Ascii.eqb_spec x "/") as [->|Hsl].
    + rewrite !str_replace_app, IH. done.
    + cbn [str_replace]. rewrite (proj2 (Ascii.eqb_neq x " ") Hsp).
      by rewrite IH.
Qed.

(** X6.  Spaces and underscores are confused.  A prompt and the same prompt
    with its spaces written as underscores give the same file name, so their
    videos replace each other. *)
Theorem prompt_str_spaces_as_underscores (prompt : string) :
  prompt_str (str_replace " " "_" prompt) = prompt_str prompt.
Proof.
  rewrite !prompt_str_unfold. cbv zeta. by rewrite str_replace_space_slash.
Qed.

(** ** The file name, on Python strings *)

Lemma contains_false (c : N) (s : Unicode.str) :
  Unicode.contains c s = false ↔ c ∉ s.
Proof. unfold Unicode.contains. by rewrite bool_decide_eq_false. Qed.

Lemma replace_app (c : N) (new a b : Unicode.str) :
  Unicode.replace c new (a ++ b) =
  Unicode.replace c new a ++ Unicode.replace c new b.
Proof. apply bind_app. Qed.

Lemma replace_absent (c : N) (new s : Unicode.str) :
  c ∉ s → Unicode.replace c new s = s.
Proof.
  induction s as [|x s IH]; [done|]. intros H.
  apply not_elem_of_cons in H as [Hx Hs]. unfold Unicode.replace in *.
  cbn [mbind list_bind]. rewrite (IH Hs).
  by rewrite (proj2 (N.eqb_neq x c)) by done.
Qed.

Lemma replace_removes (c : N) (new s : Unicode.str) :
  c ∉ new → c ∉ Unicode.replace c new s.
Proof.
  intros Hnew H. apply list_elem_of_bind in H as (x & Hx & _).
  simpl in Hx. destruct (N.eqb x c) eqn:E; [done|].
  apply list_elem_of_singleton in Hx. subst. by rewrite N.eqb_refl in E.
Qed.

Lemma replace_keeps_absent (c d : N) (new s : Unicode.str) :
  c ∉ new → c ∉ s → c ∉ Unicode.replace d new s.
Proof.
  intros Hnew Hs H. apply list_elem_of_bind in H as (x & Hx & Hin).
  simpl in Hx. destruct (N.eqb x d); [done|].
  apply list_elem_of_singleton in Hx. by subst.
Qed.

Lemma replace_length (c : N) (new s : Unicode.str) :
  1 ≤ length new → length s ≤ length (Unicode.replace c new s).
Proof.
  intros Hnew. induction s as [|x s IH]; [done|].
  change (Unicode.replace c new (x :: s))
    with ((if N.eqb x c then new else [x]) ++ Unicode.replace c new s).
  rewrite length_app. destruct (N.eqb x c); simpl; lia.
Qed.

Lemma not_elem_of_take (c : N) (n : nat) (s : Unicode.str) :
  c ∉ s → c ∉ take n s.
Proof.
  intros Hs H. apply Hs. rewrite <- (take_drop n s). apply elem_of_app. by left.
Qed.

Lemma lit_no_slash_space :
  (Unicode.slash ∉ Unicode.lit "_slash_") ∧ (Unicode.slash ∉ Unicode.lit "_") ∧
  (Unicode.space ∉ Unicode.lit "_slash_") ∧ (Unicode.space ∉ Unicode.lit "_") ∧
  (Unicode.slash ∉ Unicode.lit "empty_prompt") ∧
  (Unicode.space ∉ Unicode.lit "empty_prompt").
Proof. split_and!; by apply (bool_decide_unpack _). Qed.

(** The two tests on the prompt change nothing: the name is the prompt with
    every slash and every space replaced, cut to 40 code points. *)
Lemma prompt_str_code_points (prompt : Unicode.str) :
  Unicode.prompt_str prompt =
  let t := take 40 (Unicode.replace Unicode.space (Unicode.lit "_")
                      (Unicode.replace Unicode.slash (Unicode.lit "_slash_") prompt)) in
  if Nat.eqb (length t) 0 then Unicode.lit "empty_prompt" else t.
Proof.
  unfold Unicode.prompt_str.
  assert ((if Unicode.contains Unicode.slash prompt
           then Unicode.replace Unicode.slash (Unicode.lit "_slash_") prompt
           else prompt)
          = Unicode.replace Unicode.slash (Unicode.lit "_slash_") prompt) as ->.
  { destruct (Unicode.contains Unicode.slash prompt) eqn:E; [done|].
    apply contains_false in E. by rewrite replace_absent. }
  destruct (Unicode.contains Unicode.space prompt) eqn:E; [done|].
  apply contains_false in E.
  rewrite (replace_absent Unicode.space); [done|].
  apply replace_keeps_absent; [|done]. apply lit_no_slash_space.
Qed.


(** The name before the empty case: at most 40 code points, without slash
    and without space. *)
Lemma prompt_str_cut_code_points (prompt : Unicode.str) :
  let t := take 40 (Unicode.replace Unicode.space (Unicode.lit "_")
                      (Unicode.replace Unicode.slash (Unicode.lit "_slash_") prompt)) in
  length t ≤ 40 ∧ Unicode.contains Unicode.slash t = false ∧
  Unicode.contains Unicode.space t = false.
Proof.
  cbv zeta. split_and!.
  - rewrite length_take. lia.
  - apply contains_false, not_elem_of_take, replace_keeps_absent;
      [apply lit_no_slash_space|].
    apply replace_removes, lit_no_slash_space.
  - apply contains_false, not_elem_of_take, replace_removes, lit_no_slash_space.
Qed.

Lemma prompt_str_name_code_points (prompt : Unicode.str) :
  1 ≤ length (Unicode.prompt_str prompt) ≤ 40 ∧
  Unicode.contains Unicode.slash (Unicode.prompt_str prompt) = false ∧
  Unicode.contains Unicode.space (Unicode.prompt_str prompt) = false.
Proof.
  rewrite prompt_str_code_points. cbv zeta.
  destruct (prompt_str_cut_code_points prompt) as (Hlen & Hslash & Hspace).
  cbv zeta in Hlen, Hslash, Hspace. set (t := take 40 _) in *.
  destruct (Nat.eqb_spec (length t) 0) as [E|E].
  - split_and!; [simpl; lia | simpl; lia | done | done].
  - split_and!; [lia | done | done | done].
Qed.

(** X3.  The file name is safe.  Whatever the prompt, the name [get_image]
    gives the video has between 1 and 40 code points and holds neither a
    slash nor a space. *)
Theorem prompt_str_safe (prompt : Unicode.str) :
  1 ≤ length (Unicode.prompt_str prompt) ≤ 40 ∧
  Unicode.contains Unicode.slash (Unicode.prompt_str prompt) = false ∧
  Unicode.contains Unicode.space (Unicode.prompt_str prompt) = false.
Proof. apply prompt_str_name_code_points. Qed.

Lemma split_no_slash (s cur : Unicode.str) :
  Unicode.slash ∉ s → Unicode.split s cur = [cur ++ s].
Proof.
  revert cur. induction s as [|x s IH]; intros cur H.
  - simpl. by rewrite app_nil_r.
  - apply not_elem_of_cons in H as [Hx Hs]. cbn [Unicode.split].
    rewrite (proj2 (N.eqb_neq x Unicode.slash)) by done.
    rewrite (IH _ Hs). by rewrite <- app_assoc.
Qed.

Lemma split_slash (a b cur : Unicode.str) :
  Unicode.slash ∉ a →
  Unicode.split (a ++ Unicode.slash :: b) cur = (cur ++ a) :: Unicode.split b [].
Proof.
  revert cur. induction a as [|x a IH]; intros cur H.
  - simpl. by rewrite app_nil_r.
  - apply not_elem_of_cons in H as [Hx Ha]. cbn [Unicode.split app].
    rewrite (proj2 (N.eqb_neq x Unicode.slash)) by done.
    rewrite (IH _ Ha). by rewrite <- app_assoc.
Qed.

(** X4.  On Linux and macOS, where [os.path] is [posixpath], the video lands
    directly in [results].  Whatever the prompt, [os.path.join] puts one
    slash between [results] and the name, and the path has the two
    components [results] and [<name>.mp4]. *)
Theorem video_path_in_results (prompt : Unicode.str) :
  Unicode.posixpath_join (Unicode.lit "results")
    (Unicode.prompt_str prompt ++ Unicode.lit ".mp4") =
    Unicode.lit "results/" ++ Unicode.prompt_str prompt ++ Unicode.lit ".mp4" ∧
  Unicode.parts
    (Unicode.posixpath_join (Unicode.lit "results")
       (Unicode.prompt_str prompt ++ Unicode.lit ".mp4")) =
    [Unicode.lit "results"; Unicode.prompt_str prompt ++ Unicode.lit ".mp4"].
Proof.
  destruct (prompt_str_name_code_points prompt) as ([Hlen _] & Hslash & _).
  apply contains_false in Hslash.
  set (name := Unicode.prompt_str prompt) in *.
  assert (Unicode.posixpath_join (Unicode.lit "results") (name ++ Unicode.lit ".mp4")
          = Unicode.lit "results" ++ Unicode.slash :: (name ++ Unicode.lit ".mp4"))
    as ->.
  { unfold Unicode.posixpath_join. destruct name as [|x name]; [simpl in Hlen; lia|].
    apply not_elem_of_cons in Hslash as [Hx _].
    rewrite bool_decide_eq_false_2; [done|]. simpl. congruence. }
  split; [done|]. unfold Unicode.parts.
  rewrite split_slash by (by apply (bool_decide_unpack _)).
  rewrite split_no_slash.
  2:{ rewrite not_elem_of_app. split; [done | by apply (bool_decide_unpack _)]. }
  rewrite !app_nil_l.
  rewrite filter_cons_True by done.
  rewrite filter_cons_True; [done|].
  split; intros E; apply (f_equal length) in E; rewrite length_app in E;
    simpl in E; lia.
Qed.

(** X5.  Only the first 40 code points of a prompt count.  A prompt of at
    least 40 code points and the same prompt with anything after it give the
    same file name: the video of the second run replaces the video of the
    first. *)
Theorem prompt_str_truncates (prompt rest : Unicode.str) :
  40 ≤ length prompt →
  Unicode.prompt_str (prompt ++ rest) = Unicode.prompt_str prompt.
Proof.
  intros Hlen. rewrite !prompt_str_code_points. cbv zeta.
  rewrite !replace_app, take_app_le; [done|].
  etrans; [exact Hlen|].
  etrans; [apply (replace_length Unicode.slash (Unicode.lit "_slash_")); simpl; lia|].
  apply replace_length. simpl. lia.
Qed.

Lemma prompt_str_truncates_witness :
  Unicode.prompt_str
    (Unicode.lit "a campfire on the beach and the ocean waves in the background"
     ++ Unicode.lit ", at night")
  = Unicode.prompt_str
      (Unicode.lit "a campfire on the beach and the ocean waves in the background").
Proof.
  apply (prompt_str_truncates
           (Unicode.lit "a campfire on the beach and the ocean waves in the background")
           (Unicode.lit ", at night")).
  vm_compute. lia.
Defined.

(** On a prompt written in ASCII, and on any prompt of code points below
    256 read one [ascii] each, [prompt_str] is [Unicode.prompt_str]. *)
Lemma lit_app (a b : string) : Unicode.lit (a +:+ b) = Unicode.lit a ++ Unicode.lit b.
Proof.
  induction a as [|x a IH]; [done|].
  change (Unicode.lit (String x (a +:+ b)) = N_of_ascii x :: Unicode.lit a ++ Unicode.lit b).
  change (N_of_ascii x :: Unicode.lit (a +:+ b) =
          N_of_ascii x :: Unicode.lit a ++ Unicode.lit b).
  by rewrite IH.
Qed.

Lemma N_of_ascii_inj (x y : ascii) : N_of_ascii x = N_of_ascii y → x = y.
Proof.
  intros H. apply (f_equal ascii_of_N) in H. by rewrite !ascii_N_embedding in H.
Qed.

Lemma N_of_ascii_eqb (x y : ascii) :
  N.eqb (N_of_ascii x) (N_of_ascii y) = Ascii.eqb x y.
Proof.
  destruct (Ascii.eqb_spec x y) as [->|Hne]; [apply N.eqb_refl|].
  apply N.eqb_neq. intros H. by apply Hne, N_of_ascii_inj.
Qed.

Lemma lit_contains (c : ascii) (s : string) :
  Unicode.contains (N_of_ascii c) (Unicode.lit s) = str_contains c s.
Proof.
  induction s as [|x s IH]; [done|].
  change (Unicode.lit (String x s)) with (N_of_ascii x :: Unicode.lit s).
  cbn [str_contains]. rewrite <- IH, <- N_of_ascii_eqb.
  unfold Unicode.contains.
  destruct (N.eqb_spec (N_of_ascii x) (N_of_ascii c)) as [E|E]; simpl.
  - apply bool_decide_eq_true. rewrite E. apply elem_of_cons. by left.
  - apply bool_decide_ext. rewrite elem_of_cons.
    split; [intros [H|H]; [congruence | done] | by right].
Qed.

Lemma lit_replace (c : ascii) (new s : string) :
  Unicode.lit (str_replace c new s) =
  Unicode.replace (N_of_ascii c) (Unicode.lit new) (Unicode.lit s).
Proof.
  induction s as [|x s IH]; [done|].
  change (Unicode.lit (String x s)) with (N_of_ascii x :: Unicode.lit s).
  change (Unicode.replace (N_of_ascii c) (Unicode.lit new) (N_of_ascii x :: Unicode.lit s))
    with ((if N.eqb (N_of_ascii x) (N_of_ascii c) then Unicode.lit new
           else [N_of_ascii x]) ++
          Unicode.replace (N_of_ascii c) (Unicode.lit new) (Unicode.lit s)).
  rewrite N_of_ascii_eqb, <- IH. cbn [str_replace].
  destruct (Ascii.eqb x c); [by rewrite lit_app | done].
Qed.

Lemma lit_take (n : nat) (s : string) :
  Unicode.lit (str_take n s) = take n (Unicode.lit s).
Proof.
  revert s. induction n as [|n IH]; intros [|x s]; try done.
  change (N_of_ascii x :: Unicode.lit (str_take n s) =
          N_of_ascii x :: take n (Unicode.lit s)).
  by rewrite IH.
Qed.

Lemma lit_length (s : string) : length (Unicode.lit s) = String.length s.
Proof.
  induction s as [|x s IH]; [done|].
  change (S (length (Unicode.lit s)) = S (String.length s)). by rewrite IH.
Qed.

Lemma prompt_str_lit (prompt : string) :
  Unicode.lit (prompt_str prompt) = Unicode.prompt_str (Unicode.lit prompt).
Proof.
  unfold prompt_str, Unicode.prompt_str.
  change Unicode.slash with (N_of_ascii "/").
  change Unicode.space with (N_of_ascii " ").
  rewrite !lit_contains.
  assert (∀ t : string,
            Unicode.lit (if (String.length (str_take 40 t) =? 0)%nat
                         then "empty_prompt" else str_take 40 t) =
            (if Nat.eqb (length (take 40 (Unicode.lit t))) 0
             then Unicode.lit "empty_prompt" else take 40 (Unicode.lit t))) as Hcut.
  { intros t. rewrite <- lit_take, lit_length. by destruct (_ =? 0)%nat. }
  destruct (str_contains "/" prompt), (str_contains " " prompt);
    rewrite Hcut, ?lit_replace; done.
Qed.

(** ** The callback *)

(** The file system after the first lines of [get_image]: [results] is
    created unless something is there. *)
Definition ensure_results (d : dir) : dir :=
  if os_path_exists d "results" then d else <["results" := Dir ∅]> d.

Lemma ensure_results_stat (d : dir) (q : path) :
  stat (ensure_results d) q =
  if decide (q = ["results"]) then
    match stat d ["results"] with Some k => Some k | None => Some KDir end
  else stat d q.
Proof.
  unfold ensure_results, os_path_exists, exists_.
  change (String.eqb "results" "") with false.
  change (ends_with_slash "results") with false.
  change (Path "results") with ["results"]. cbv iota.
  destruct (stat d ["results"]) as [k|] eqn:Hr.
  - case_decide; by subst.
  - assert (os_mkdir d ["results"] = inr (<["results" := Dir ∅]> d)) as Hmk.
    { simpl in *. by destruct (d !! "results") as [[?|?]|]. }
    rewrite (os_mkdir_stat _ _ _ q Hmk). case_decide; [done|]. done.
Qed.

Section GetImageProperties.
Context {pipeline image conditioning samples float : Type}.
Variable out_channels : pipeline → Z.
Variable temporal_length : pipeline → Z.
Variable make_cond : pipeline → image → string → Z → Z → exc + conditioning.
Variable ddim_sampling :
  pipeline → conditioning → list Z → Z → Z → float → float → exc + samples.
Variable encode_video : samples → Z → string.

(** A call of [get_image], step by step. *)
Lemma get_image_unfold (im : image) (prompt : string) (steps : Z)
    (cfg_scale eta : float) (fs seed : Z) (model : pipeline) (w : gi_world float) :
  get_image out_channels temporal_length make_cond ddim_sampling encode_video
    im prompt steps cfg_scale eta fs seed model w =
  let d1 := ensure_results (gi_fs w) in
  let shape := [1; out_channels model; temporal_length model; 32; 32]%Z in
  let log1 := gi_calls w ++ [SeedEverything seed] in
  let log2 :=
    log1 ++ [BatchDdimSampling shape 1 (steps `min` 60)%Z eta cfg_scale false true] in
  let log3 := log2 ++ [SaveVideos "results" [prompt_str prompt] 8] in
  let state d log :=
    {| gi_fs := d; gi_grad := gi_grad w; gi_autocast := gi_autocast w;
       gi_calls := log |} in
  match make_cond model im prompt fs (temporal_length model) with
  | inl e => (inl e, state d1 log1)
  | inr cond =>
      match ddim_sampling model cond shape 1 (steps `min` 60)%Z eta cfg_scale with
      | inl e => (inl e, state d1 log2)
      | inr batch =>
          let out := os_path_join "results" (prompt_str prompt +:+ ".mp4") in
          match write_file d1 (Path out) (encode_video batch 8) with
          | inl e => (inl e, state d1 log3)
          | inr d2 => (inr out, state d2 log3)
          end
      end
  end.
Proof.
  assert ((if (steps >? 60)%Z then 60%Z else steps) = (steps `min` 60)%Z) as Hsteps.
  { destruct (Z.gtb_spec steps 60); lia. }
  unfold get_image. rewrite Hsteps. cbv zeta.
  change (256 / 8)%Z with 32%Z.
  unfold mbind, PyM_bind, gi_path_exists, gi_mkdir, seed_everything, gi_log,
    no_grad_autocast, gi_external, batch_ddim_sampling, save_videos, mret, PyM_ret.
  cbn [gi_fs gi_grad gi_autocast gi_calls fst snd].
  unfold ensure_results.
  destruct (os_path_exists (gi_fs w) "results") eqn:Hex; cbn [negb].
  - destruct (make_cond _ _ _ _ _) as [e|cond]; [done|].
    cbn [gi_fs gi_grad gi_autocast gi_calls fst snd].
    destruct (ddim_sampling _ _ _ _ _ _ _) as [e|batch]; [done|].
    cbn [gi_fs gi_grad gi_autocast gi_calls fst snd].
    by destruct (write_file _ _ _).
  - assert (os_mkdir_str (gi_fs w) "results" = inr (<["results" := Dir ∅]> (gi_fs w)))
      as ->.
    { unfold os_mkdir_str, os_path_exists, exists_ in *.
      change (String.eqb "results" "") with false in *.
      change (ends_with_slash "results") with false in Hex.
      change (Path "results") with ["results"] in *. cbv iota in *.
      simpl in *. by destruct (gi_fs w !! "results") as [[?|?]|]. }
    cbn [gi_fs gi_grad gi_autocast gi_calls fst snd].
    destruct (make_cond _ _ _ _ _) as [e|cond]; [done|].
    cbn [gi_fs gi_grad gi_autocast gi_calls fst snd].
    destruct (ddim_sampling _ _ _ _ _ _ _) as [e|batch]; [done|].
    cbn [gi_fs gi_grad gi_autocast gi_calls fst snd].
    by destruct (write_file _ _ _).
Qed.

(** X7.  [get_image] touches [results] and the video, nothing else.
    Whatever the outcome of a call, afterwards something exists at [results],
    everything that existed is unchanged except the video file of the prompt,
    and no path other than [results] and the video file has changed. *)
Theorem get_image_touches_only_results (im : image) (prompt : string)
    (steps : Z) (cfg_scale eta : float) (fs seed : Z) (model : pipeline)
    (w : gi_world float) (q : path) :
  let r := get_image out_channels temporal_length make_cond ddim_sampling
             encode_video im prompt steps cfg_scale eta fs seed model w in
  let video := Path (os_path_join "results" (prompt_str prompt +:+ ".mp4")) in
  exists_ (gi_fs (snd r)) ["results"] = true ∧
  (∀ k, stat (gi_fs w) q = Some k → q ≠ video →
     stat (gi_fs (snd r)) q = Some k) ∧
  (q ≠ ["results"] → q ≠ video → stat (gi_fs (snd r)) q = stat (gi_fs w) q).
Proof.
  intros r video. unfold r. rewrite get_image_unfold. cbv zeta.
  fold video.
  assert (exists_ (ensure_results (gi_fs w)) ["results"] = true) as Hex.
  { unfold exists_. rewrite ensure_results_stat, decide_True by done.
    by destruct (stat (gi_fs w) ["results"]). }
  assert (∀ k, stat (gi_fs w) q = Some k →
               stat (ensure_results (gi_fs w)) q = Some k) as Hkeep.
  { intros k Hq. rewrite ensure_results_stat. case_decide; [subst|done].
    by rewrite Hq. }
  assert (q ≠ ["results"] → stat (ensure_results (gi_fs w)) q = stat (gi_fs w) q)
    as Hframe.
  { intros Hq. by rewrite ensure_results_stat, decide_False. }
  assert (video ≠ ["results"]) as Hvideo.
  { unfold video. by rewrite (proj2 (video_path_components prompt)). }
  destruct (make_cond _ _ _ _ _) as [e|cond]; [by auto|].
  destruct (ddim_sampling _ _ _ _ _ _ _) as [e|batch]; [by auto|].
  destruct (write_file _ _ _) as [e|d2] eqn:Hwr; [by auto|].
  cbn [snd gi_fs]. split_and!.
  - unfold exists_ in *. rewrite (write_file_stat _ _ _ ["results"] _ Hwr).
    by rewrite decide_False.
  - intros k Hq Hne. rewrite (write_file_stat _ _ _ q _ Hwr), decide_False by done.
    by apply Hkeep.
  - intros Hq Hne. rewrite (write_file_stat _ _ _ q _ Hwr), decide_False by done.
    by apply Hframe.
Qed.

(** X8.  A failure of the sampler.  When the sampler raises, [get_image]
    raises the same exception; [save_videos] is not called and no video is
    written; the sampler has been called once, with gradients off and autocast
    on, and both modes are afterwards what they were before the call; the
    directory [results], created at the start, stays. *)
Theorem get_image_propagates_sampler_error (im : image) (prompt : string)
    (steps : Z) (cfg_scale eta : float) (fs seed : Z) (model : pipeline)
    (w : gi_world float) (cond : conditioning) (e : exc) :
  let shape := [1; out_channels model; temporal_length model; 32; 32]%Z in
  let video := Path (os_path_join "results" (prompt_str prompt +:+ ".mp4")) in
  make_cond model im prompt fs (temporal_length model) = inr cond →
  ddim_sampling model cond shape 1 (steps `min` 60)%Z eta cfg_scale = inl e →
  let r := get_image out_channels temporal_length make_cond ddim_sampling
             encode_video im prompt steps cfg_scale eta fs seed model w in
  fst r = inl e ∧
  gi_calls (snd r) =
    gi_calls w ++
      [SeedEverything seed;
       BatchDdimSampling shape 1 (steps `min` 60)%Z eta cfg_scale false true] ∧
  gi_grad (snd r) = gi_grad w ∧
  gi_autocast (snd r) = gi_autocast w ∧
  stat (gi_fs (snd r)) video = stat (gi_fs w) video ∧
  exists_ (gi_fs (snd r)) ["results"] = true.
Proof.
  intros shape video Hcond Hsample r. unfold r. rewrite get_image_unfold.
  cbv zeta. fold shape. rewrite Hcond, Hsample. cbn [fst snd gi_fs gi_calls gi_grad gi_autocast].
  split_and!; try done.
  - by rewrite <- app_assoc.
  - rewrite ensure_results_stat, decide_False; [done|].
    unfold video. by rewrite (proj2 (video_path_components prompt)).
  - unfold exists_. rewrite ensure_results_stat, decide_True by done.
    by destruct (stat (gi_fs w) ["results"]).
Qed.


(** X10.  [results] as a regular file.  The test at the start of
    [get_image] takes a regular file named [results] for the directory: no
    directory is made, the sampler runs all the same, and the call fails only
    when the video is saved, with NotADirectoryError and the file system as it
    was. *)
Theorem get_image_results_is_file (im : image) (prompt : string)
    (steps : Z) (cfg_scale eta : float) (fs seed : Z) (model : pipeline)
    (w : gi_world float) (cond : conditioning) (batch : samples) :
  let shape := [1; out_channels model; temporal_length model; 32; 32]%Z in
  make_cond model im prompt fs (temporal_length model) = inr cond →
  ddim_sampling model cond shape 1 (steps `min` 60)%Z eta cfg_scale = inr batch →
  is_file (gi_fs w) ["results"] = true →
  let r := get_image out_channels temporal_length make_cond ddim_sampling
             encode_video im prompt steps cfg_scale eta fs seed model w in
  fst r = inl NotADirectoryError ∧
  gi_fs (snd r) = gi_fs w ∧
  gi_calls (snd r) =
    gi_calls w ++
      [SeedEverything seed;
       BatchDdimSampling shape 1 (steps `min` 60)%Z eta cfg_scale false true;
       SaveVideos "results" [prompt_str prompt] 8].
Proof.
  intros shape Hcond Hsample Hres r. unfold r.
  rewrite get_image_unfold. cbv zeta. fold shape. rewrite Hcond, Hsample.
  destruct (video_path_components prompt) as (_ & ->).
  assert (ensure_results (gi_fs w) = gi_fs w) as ->.
  { unfold ensure_results, os_path_exists, exists_, is_file in *.
    change (String.eqb "results" "") with false.
    change (ends_with_slash "results") with false.
    change (Path "results") with ["results"]. cbv iota.
    by destruct (stat (gi_fs w) ["results"]). }
  assert (write_file (gi_fs w) ["results"; prompt_str prompt +:+ ".mp4"]
            (encode_video batch 8) = inl NotADirectoryError) as ->.
  { unfold is_file in Hres. simpl in *.
    by destruct (gi_fs w !! "results") as [[?|?]|]. }
  cbn [fst snd gi_fs gi_calls]. split_and!; [done | done |].
  by rewrite <- !app_assoc.
Qed.

End GetImageProperties.

Lemma get_image_propagates_sampler_error_witness :
  fst (Sample.get_image_sample "photo" "a boat / at sunset" 0 "7.5" "1.0" 3 123
         "pipeline" Sample.fresh)
    = inl (OtherException "ValueError") ∧
  gi_calls (snd (Sample.get_image_sample "photo" "a boat / at sunset" 0 "7.5" "1.0"
                   3 123 "pipeline" Sample.fresh))
    = [SeedEverything 123;
       BatchDdimSampling [1; 4; 16; 32; 32]%Z 1 0 "1.0" "7.5" false true] ∧
  exists_ (gi_fs (snd (Sample.get_image_sample "photo" "a boat / at sunset" 0 "7.5"
                         "1.0" 3 123 "pipeline" Sample.fresh))) ["results"] = true.
Proof.
  destruct (get_image_propagates_sampler_error Sample.out_channels
              Sample.temporal_length Sample.make_cond Sample.ddim_sampling
              Sample.encode_video "photo" "a boat / at sunset" 0 "7.5" "1.0" 3 123
              "pipeline" Sample.fresh "cond a boat / at sunset"
              (OtherException "ValueError") eq_refl eq_refl)
    as (H1 & H2 & _ & _ & _ & H3).
  split; [exact H1|]. split; [exact H2 | exact H3].
Defined.


Lemma get_image_results_is_file_witness :
  fst (Sample.get_image_sample "photo" "boy walking" 50 "7.5" "1.0" 3 125
         "pipeline" Sample.results_is_file)
    = inl NotADirectoryError ∧
  gi_fs (snd (Sample.get_image_sample "photo" "boy walking" 50 "7.5" "1.0" 3 125
                "pipeline" Sample.results_is_file))
    = gi_fs Sample.results_is_file.
Proof.
  destruct (get_image_results_is_file Sample.out_channels
              Sample.temporal_length Sample.make_cond Sample.ddim_sampling
              Sample.encode_video "photo" "boy walking" 50 "7.5" "1.0" 3 125
              "pipeline" Sample.results_is_file "cond boy walking"
              "samples of cond boy walking" eq_refl eq_refl eq_refl)
    as (H1 & H2 & _).
  split; [exact H1 | exact H2].
Defined.

Lemma get_image_touches_only_results_witness :
  exists_ (gi_fs (snd (Sample.get_image_sample "" "boy walking" 50 "7.5" "1.0" 3 125
                         "pipeline" Sample.fresh))) ["results"] = true ∧
  stat (gi_fs (snd (Sample.get_image_sample "photo" "boy walking" 50 "7.5" "1.0" 3
                      125 "pipeline" Sample.results_is_file))) ["results"]
    = Some (KFile "notes").
Proof.
  split.
  - exact (proj1 (get_image_touches_only_results Sample.out_channels
             Sample.temporal_length Sample.make_cond Sample.ddim_sampling
             Sample.encode_video "" "boy walking" 50 "7.5" "1.0" 3 125
             "pipeline" Sample.fresh [])).
  - apply (proj1 (proj2 (get_image_touches_only_results Sample.out_channels
             Sample.temporal_length Sample.make_cond Sample.ddim_sampling
             Sample.encode_video "photo" "boy walking" 50 "7.5" "1.0" 3 125
             "pipeline" Sample.results_is_file ["results"])));
      [reflexivity | discriminate].
Defined.

(** * Properties of the download of the checkpoint *)

(** [os.makedirs] on a path of two components. *)
Lemma makedirs_two (a b : string) (d : dir) :
  makedirs [b; a] false d =
  match d !! a with
  | None => (inr tt, <[a := Dir {[ b := Dir ∅ ]}]> d)
  | Some (File _) => (inl NotADirectoryError, d)
  | Some (Dir d') =>
      match d' !! b with
      | None => (inr tt, <[a := Dir (<[b := Dir ∅]> d')]> d)
      | Some _ => (inl FileExistsError, d)
      end
  end.
Proof.
  cbn [makedirs rev app]. unfold mbind, PyM_bind, try_except, mkdir_or_exists, exists_.
  cbn [stat os_mkdir negb orb].
  destruct (d !! a) as [[data|d']|] eqn:Ha; cbn [negb]; rewrite ?Ha.
  - done.
  - by destruct (d' !! b) as [[data|d'']|] eqn:Hb.
  - rewrite lookup_insert_eq, lookup_empty. by rewrite insert_insert_eq.
Qed.

Section DownloadModelProperties.
Context {pipeline : Type}.
Variable hub_fetch : string → string → exc + string.
Variable instantiate_from_config : string → exc + pipeline.
Variable load_state : pipeline → string → exc + pipeline.
Variable eval_mode : pipeline → pipeline.

(** What [download_model] does once the checkpoint is in place: it reads the
    configuration and the checkpoint and builds the pipeline. *)
Definition load_pipeline (d : dir) : exc + pipeline :=
  match read_file d (Path "dynamicrafter/configs/inference_256_v1.0.yaml") with
  | inl e => inl e
  | inr config =>
      match instantiate_from_config config with
      | inl e => inl e
      | inr model =>
          match read_file d (Path "checkpoints/dynamicrafter_256_v1/model.ckpt") with
          | inl e => inl e
          | inr ckpt =>
              match load_state model ckpt with
              | inl e => inl e
              | inr model' => inr (eval_mode model')
              end
          end
      end
  end.

(** A call of [download_model], step by step. *)
Lemma download_model_unfold (w : dl_world) :
  download_model hub_fetch instantiate_from_config load_state eval_mode w =
  let ckdir := ["checkpoints"; "dynamicrafter_256_v1"] in
  let ckfile := ["checkpoints"; "dynamicrafter_256_v1"; "model.ckpt"] in
  let log := dl_calls w ++
    [HfHubDownload "Doubiiu/DynamiCrafter" "model.ckpt"
       "./checkpoints/dynamicrafter_256_v1/" false] in
  match (if is_dir (dl_fs w) ckdir then (inr tt, dl_fs w)
         else makedirs (rev ckdir) false (dl_fs w)) with
  | (inl e, d1) => (inl e, {| dl_fs := d1; dl_calls := dl_calls w |})
  | (inr _, d1) =>
      if exists_ d1 ckfile then
        (load_pipeline d1, {| dl_fs := d1; dl_calls := dl_calls w |})
      else
        match hub_fetch "Doubiiu/DynamiCrafter" "model.ckpt" with
        | inl e => (inl e, {| dl_fs := d1; dl_calls := log |})
        | inr data =>
            match write_file d1 ckfile data with
            | inl e => (inl e, {| dl_fs := d1; dl_calls := log |})
            | inr d2 => (load_pipeline d2, {| dl_fs := d2; dl_calls := log |})
            end
        end
  end.
Proof.
  destruct w as [d0 log0].
  cbv zeta. unfold download_model, load_pipeline.
  unfold mbind, PyM_bind, dl_path_exists, dl_on_fs, os_makedirs, hf_hub_download,
    dl_read, dl_external, mret, PyM_ret.
  cbn [dl_fs dl_calls].
  change (String.eqb "./checkpoints/dynamicrafter_256_v1/" "") with false.
  cbv iota.
  change (os_path_exists d0 "./checkpoints/dynamicrafter_256_v1/")
    with (is_dir d0 ["checkpoints"; "dynamicrafter_256_v1"]).
  change (Path "./checkpoints/dynamicrafter_256_v1/")
    with ["checkpoints"; "dynamicrafter_256_v1"].
  change (Path (os_path_join "./checkpoints/dynamicrafter_256_v1/" "model.ckpt"))
    with ["checkpoints"; "dynamicrafter_256_v1"; "model.ckpt"].
  change (Path "checkpoints/dynamicrafter_256_v1/model.ckpt")
    with ["checkpoints"; "dynamicrafter_256_v1"; "model.ckpt"].
  assert (∀ d, os_path_exists d "./checkpoints/dynamicrafter_256_v1/model.ckpt"
               = exists_ d ["checkpoints"; "dynamicrafter_256_v1"; "model.ckpt"])
    as Hex by done.
  cbn [dl_fs dl_calls].
  destruct (is_dir d0 _) eqn:Hdir; cbn [negb].
  - cbn [dl_fs dl_calls]. rewrite Hex.
    destruct (exists_ d0 _) eqn:Hfile; cbn [negb dl_fs dl_calls].
    + destruct (read_file _ _) as [e|config]; [done|].
      destruct (instantiate_from_config config) as [e|model]; [done|].
      cbn [dl_fs]. destruct (read_file _ _) as [e|ckpt]; [done|].
      by destruct (load_state model ckpt).
    + destruct (hub_fetch _ _) as [e|data]; [done|].
      destruct (write_file _ _ _) as [e|d2]; [done|]. cbn [dl_fs dl_calls].
      destruct (read_file _ _) as [e|config]; [done|].
      destruct (instantiate_from_config config) as [e|model]; [done|].
      cbn [dl_fs]. destruct (read_file _ _) as [e|ckpt]; [done|].
      by destruct (load_state model ckpt).
  - destruct (makedirs _ _ _) as [[e|[]] d1]; [done|]. cbn [dl_fs dl_calls].
    rewrite Hex.
    destruct (exists_ d1 _) eqn:Hfile; cbn [negb dl_fs dl_calls].
    + destruct (read_file _ _) as [e|config]; [done|].
      destruct (instantiate_from_config config) as [e|model]; [done|].
      cbn [dl_fs]. destruct (read_file _ _) as [e|ckpt]; [done|].
      by destruct (load_state model ckpt).
    + destruct (hub_fetch _ _) as [e|data]; [done|].
      destruct (write_file _ _ _) as [e|d2]; [done|]. cbn [dl_fs dl_calls].
      destruct (read_file _ _) as [e|config]; [done|].
      destruct (instantiate_from_config config) as [e|model]; [done|].
      cbn [dl_fs]. destruct (read_file _ _) as [e|ckpt]; [done|].
      by destruct (load_state model ckpt).
Qed.

(** The directory step of [download_model], on a path of two components:
    where no prefix is a regular file it returns, and leaves what
    [Path.mkdir(parents=True, exist_ok=True)] leaves; where one is, it raises
    and changes nothing. *)
Lemma checkpoint_dir_step (a b : string) (d : dir) :
  let step := if is_dir d [a; b] then (inr tt, d) else makedirs [b; a] false d in
  (obstructed d [a; b] = false →
     ∃ d1, step = (inr tt, d1) ∧ mkdir_parents d [b; a] true = inr d1) ∧
  (obstructed d [a; b] = true →
     ∃ e, step = (inl e, d) ∧
          (is_file d [a] = true → e = NotADirectoryError) ∧
          (is_file d [a; b] = true → e = FileExistsError)).
Proof.
  cbv zeta. rewrite makedirs_two. unfold is_dir, is_file.
  cbn [obstructed stat mkdir_parents rev app os_mkdir mkdir_plain].
  destruct (d !! a) as [[data|d']|] eqn:Ha; rewrite ?Ha.
  - split; [done|]. intros _. by exists NotADirectoryError.
  - destruct (d' !! b) as [[data|d'']|] eqn:Hb.
    + split; [done|]. intros _. by exists FileExistsError.
    + split; [|done]. intros _. exists d. split; [done|].
      unfold is_dir. cbn [stat]. rewrite Ha, Hb. done.
    + split; [|done]. intros _. by eexists.
  - split; [|done]. intros _. eexists. split; [done|].
    unfold mkdir_plain. cbn [os_mkdir]. rewrite lookup_insert_eq.
    by rewrite lookup_empty, insert_insert_eq.
Qed.

(** With the checkpoint in place, a call only reads. *)
Lemma download_model_present (w : dl_world) :
  os_path_exists (dl_fs w) "./checkpoints/dynamicrafter_256_v1/model.ckpt" = true →
  download_model hub_fetch instantiate_from_config load_state eval_mode w
    = (load_pipeline (dl_fs w), w).
Proof.
  intros Hex. rewrite download_model_unfold. cbv zeta. destruct w as [d log].
  cbn [dl_fs dl_calls] in *.
  change (exists_ d ["checkpoints"; "dynamicrafter_256_v1"; "model.ckpt"] = true)
    in Hex.
  assert (is_dir d ["checkpoints"; "dynamicrafter_256_v1"] = true) as ->.
  { unfold is_dir, exists_ in *.
    rewrite (stat_app_dir d ["checkpoints"; "dynamicrafter_256_v1"] ["model.ckpt"]);
      [done | done |].
    by destruct (stat d _). }
  by rewrite Hex.
Qed.

(** X11.  A checkpoint that is there is taken as it is.  When something
    exists at [checkpoints/dynamicrafter_256_v1/model.ckpt], [download_model]
    does not call the hub and writes nothing: the state after the call is the
    state before it, and the pipeline is built from the configuration and the
    bytes of the checkpoint found on disk, whatever they are. *)
Theorem download_model_reuses_checkpoint (w : dl_world) :
  os_path_exists (dl_fs w) "./checkpoints/dynamicrafter_256_v1/model.ckpt" = true →
  let r := download_model hub_fetch instantiate_from_config load_state eval_mode w in
  snd r = w ∧
  dl_calls (snd r) = dl_calls w ∧
  ∀ config model ckpt model',
    read_file (dl_fs w) (Path "dynamicrafter/configs/inference_256_v1.0.yaml")
      = inr config →
    instantiate_from_config config = inr model →
    read_file (dl_fs w) (Path "checkpoints/dynamicrafter_256_v1/model.ckpt")
      = inr ckpt →
    load_state model ckpt = inr model' →
    fst r = inr (eval_mode model').
Proof.
  intros Hex r. unfold r. rewrite (download_model_present w Hex).
  split_and!; [done | done |].
  intros config model ckpt model' Hc Hm Hk Hl. cbn [fst].
  unfold load_pipeline. by rewrite Hc, Hm, Hk, Hl.
Qed.

(** X12.  A missing checkpoint is fetched, once.  When nothing exists at the
    checkpoint path, no prefix of its directory is a regular file and the hub
    serves the file, [download_model] calls the hub once and the file holds
    what the hub served; everything that existed is unchanged; and a second
    call of [download_model] leaves the state, log of calls included, as the
    first call left it. *)
Theorem download_model_fetches_once (w : dl_world) (data : string) :
  let ckfile := Path "checkpoints/dynamicrafter_256_v1/model.ckpt" in
  stat (dl_fs w) ckfile = None →
  obstructed (dl_fs w) (Path "./checkpoints/dynamicrafter_256_v1/") = false →
  hub_fetch "Doubiiu/DynamiCrafter" "model.ckpt" = inr data →
  let r := download_model hub_fetch instantiate_from_config load_state eval_mode w in
  dl_calls (snd r) =
    dl_calls w ++
      [HfHubDownload "Doubiiu/DynamiCrafter" "model.ckpt"
         "./checkpoints/dynamicrafter_256_v1/" false] ∧
  stat (dl_fs (snd r)) ckfile = Some (KFile data) ∧
  (∀ q k, stat (dl_fs w) q = Some k → stat (dl_fs (snd r)) q = Some k) ∧
  snd (download_model hub_fetch instantiate_from_config load_state eval_mode (snd r))
    = snd r.
Proof.
  intros ckfile Hfile Hob Hfetch r.
  change (Path "./checkpoints/dynamicrafter_256_v1/")
    with ["checkpoints"; "dynamicrafter_256_v1"] in Hob.
  change ckfile with ["checkpoints"; "dynamicrafter_256_v1"; "model.ckpt"] in *.
  destruct (checkpoint_dir_step "checkpoints" "dynamicrafter_256_v1" (dl_fs w))
    as [Hstep _].
  destruct (Hstep Hob) as (d1 & Hd1 & Hmk). clear Hstep.
  destruct (mkdir_parents_post _ _ _ _ Hmk) as [Hdir Hframe].
  change (rev ["dynamicrafter_256_v1"; "checkpoints"])
    with ["checkpoints"; "dynamicrafter_256_v1"] in *.
  assert (stat d1 ["checkpoints"; "dynamicrafter_256_v1"; "model.ckpt"] = None) as Hf1.
  { rewrite Hframe; [done|].
    apply (snoc_not_prefix ["checkpoints"; "dynamicrafter_256_v1"] "model.ckpt"). }
  destruct (write_file_returns d1 ["checkpoints"; "dynamicrafter_256_v1"]
              "model.ckpt" data Hdir) as [d2 Hwr].
  { unfold is_dir. cbn [app]. by rewrite Hf1. }
  change (["checkpoints"; "dynamicrafter_256_v1"] ++ ["model.ckpt"])
    with ["checkpoints"; "dynamicrafter_256_v1"; "model.ckpt"] in Hwr.
  assert (snd r = {| dl_fs := d2;
                     dl_calls := dl_calls w ++
                       [HfHubDownload "Doubiiu/DynamiCrafter" "model.ckpt"
                          "./checkpoints/dynamicrafter_256_v1/" false] |}) as Hr.
  { unfold r. rewrite download_model_unfold. cbv zeta.
    change (rev ["checkpoints"; "dynamicrafter_256_v1"])
      with ["dynamicrafter_256_v1"; "checkpoints"].
    rewrite Hd1. unfold exists_. rewrite Hf1, Hfetch, Hwr. done. }
  assert (stat d2 ["checkpoints"; "dynamicrafter_256_v1"; "model.ckpt"]
          = Some (KFile data)) as Hf2.
  { by rewrite (write_file_stat _ _ _ _ _ Hwr), decide_True. }
  rewrite Hr. cbn [dl_fs dl_calls]. split_and!; [done | done | |].
  - intros q k Hq. rewrite (write_file_stat _ _ _ q _ Hwr).
    pose proof (mkdir_parents_keeps _ _ _ _ _ _ Hmk Hq) as Hq1.
    case_decide; [subst; congruence | done].
  - rewrite download_model_present; [done|]. cbn [dl_fs].
    change (exists_ d2 ["checkpoints"; "dynamicrafter_256_v1"; "model.ckpt"] = true).
    unfold exists_. by rewrite Hf2.
Qed.

(** X13.  A regular file in the way of the checkpoint directory.  When
    [checkpoints] or [checkpoints/dynamicrafter_256_v1] is a regular file,
    [download_model] raises before it calls the hub, and the state is
    unchanged: NotADirectoryError for the first, FileExistsError for the
    second (a path that ends with a slash does not exist as a file, so
    [os.makedirs] is called and finds the file). *)
Theorem download_model_blocked (w : dl_world) :
  obstructed (dl_fs w) (Path "./checkpoints/dynamicrafter_256_v1/") = true →
  ∃ e,
    download_model hub_fetch instantiate_from_config load_state eval_mode w
      = (inl e, w) ∧
    (is_file (dl_fs w) ["checkpoints"] = true → e = NotADirectoryError) ∧
    (is_file (dl_fs w) ["checkpoints"; "dynamicrafter_256_v1"] = true →
       e = FileExistsError).
Proof.
  intros Hob.
  change (Path "./checkpoints/dynamicrafter_256_v1/")
    with ["checkpoints"; "dynamicrafter_256_v1"] in Hob.
  destruct (checkpoint_dir_step "checkpoints" "dynamicrafter_256_v1" (dl_fs w))
    as [_ Hstep].
  destruct (Hstep Hob) as (e & He & H1 & H2). exists e.
  split; [|done]. rewrite download_model_unfold. cbv zeta.
  change (rev ["checkpoints"; "dynamicrafter_256_v1"])
    with ["dynamicrafter_256_v1"; "checkpoints"].
  rewrite He. by destruct w.
Qed.

(** X14.  A failure of the download.  When the hub raises, [download_model]
    raises the same exception after one call to the hub; no checkpoint is
    written and no pipeline is built, but the checkpoint directory, made
    before the download, stays. *)
Theorem download_model_propagates_fetch_error (w : dl_world) (e : exc) :
  let ckfile := Path "checkpoints/dynamicrafter_256_v1/model.ckpt" in
  stat (dl_fs w) ckfile = None →
  obstructed (dl_fs w) (Path "./checkpoints/dynamicrafter_256_v1/") = false →
  hub_fetch "Doubiiu/DynamiCrafter" "model.ckpt" = inl e →
  let r := download_model hub_fetch instantiate_from_config load_state eval_mode w in
  fst r = inl e ∧
  dl_calls (snd r) =
    dl_calls w ++
      [HfHubDownload "Doubiiu/DynamiCrafter" "model.ckpt"
         "./checkpoints/dynamicrafter_256_v1/" false] ∧
  stat (dl_fs (snd r)) ckfile = None ∧
  is_dir (dl_fs (snd r)) (Path "./checkpoints/dynamicrafter_256_v1/") = true.
Proof.
  intros ckfile Hfile Hob Hfetch r.
  change (Path "./checkpoints/dynamicrafter_256_v1/")
    with ["checkpoints"; "dynamicrafter_256_v1"] in *.
  change ckfile with ["checkpoints"; "dynamicrafter_256_v1"; "model.ckpt"] in *.
  destruct (checkpoint_dir_step "checkpoints" "dynamicrafter_256_v1" (dl_fs w))
    as [Hstep _].
  destruct (Hstep Hob) as (d1 & Hd1 & Hmk). clear Hstep.
  destruct (mkdir_parents_post _ _ _ _ Hmk) as [Hdir Hframe].
  change (rev ["dynamicrafter_256_v1"; "checkpoints"])
    with ["checkpoints"; "dynamicrafter_256_v1"] in *.
  assert (stat d1 ["checkpoints"; "dynamicrafter_256_v1"; "model.ckpt"] = None) as Hf1.
  { rewrite Hframe; [done|].
    apply (snoc_not_prefix ["checkpoints"; "dynamicrafter_256_v1"] "model.ckpt"). }
  unfold r. rewrite download_model_unfold. cbv zeta.
  change (rev ["checkpoints"; "dynamicrafter_256_v1"])
    with ["dynamicrafter_256_v1"; "checkpoints"].
  rewrite Hd1. unfold exists_, is_dir. rewrite Hf1, Hfetch.
  cbn [fst snd dl_fs dl_calls]. by rewrite Hf1, Hdir.
Qed.

End DownloadModelProperties.

Lemma download_model_reuses_checkpoint_witness :
  snd (Sample.download_model_sample Sample.cloned_stale) = Sample.cloned_stale ∧
  fst (Sample.download_model_sample Sample.cloned_stale)
    = inr "pipeline from model: ... with old weights in eval mode".
Proof.
  destruct (download_model_reuses_checkpoint Sample.hub_fetch
              Sample.instantiate_from_config Sample.load_state Sample.eval_mode
              Sample.cloned_stale eq_refl) as (H1 & _ & H3).
  split; [exact H1|].
  exact (H3 "model: ..." "pipeline from model: ..." "old weights"
            "pipeline from model: ... with old weights" eq_refl eq_refl eq_refl
            eq_refl).
Defined.

Lemma download_model_fetches_once_witness :
  dl_calls (snd (Sample.download_model_sample Sample.cloned))
    = [HfHubDownload "Doubiiu/DynamiCrafter" "model.ckpt"
         "./checkpoints/dynamicrafter_256_v1/" false] ∧
  stat (dl_fs (snd (Sample.download_model_sample Sample.cloned)))
    (Path "checkpoints/dynamicrafter_256_v1/model.ckpt")
    = Some (KFile "weights of Doubiiu/DynamiCrafter") ∧
  snd (Sample.download_model_sample
         (snd (Sample.download_model_sample Sample.cloned)))
    = snd (Sample.download_model_sample Sample.cloned).
Proof.
  destruct (download_model_fetches_once Sample.hub_fetch
              Sample.instantiate_from_config Sample.load_state Sample.eval_mode
              Sample.cloned "weights of Doubiiu/DynamiCrafter"
              eq_refl eq_refl eq_refl) as (H1 & H2 & _ & H4).
  split; [exact H1|]. split; [exact H2 | exact H4].
Defined.

Lemma download_model_blocked_witness :
  ∃ e, Sample.download_model_sample Sample.cloned_blocked
       = (inl e, Sample.cloned_blocked) ∧ e = NotADirectoryError.
Proof.
  destruct (download_model_blocked Sample.hub_fetch
              Sample.instantiate_from_config Sample.load_state Sample.eval_mode
              Sample.cloned_blocked eq_refl) as (e & H1 & H2 & _).
  exists e. split; [exact H1 | exact (H2 eq_refl)].
Defined.

Lemma download_model_propagates_fetch_error_witness :
  fst (download_model Sample.hub_offline Sample.instantiate_from_config
         Sample.load_state Sample.eval_mode Sample.cloned)
    = inl (OtherException "ConnectionError") ∧
  is_dir (dl_fs (snd (download_model Sample.hub_offline
                        Sample.instantiate_from_config Sample.load_state
                        Sample.eval_mode Sample.cloned)))
    (Path "./checkpoints/dynamicrafter_256_v1/") = true.
Proof.
  destruct (download_model_propagates_fetch_error Sample.hub_offline
              Sample.instantiate_from_config Sample.load_state Sample.eval_mode
              Sample.cloned (OtherException "ConnectionError")
              eq_refl eq_refl eq_refl) as (H1 & _ & _ & H4).
  split; [exact H1 | exact H4].
Defined.

(** * Properties of the patched [register_buffer] *)

(** X15.  Buffers go to the CPU, and onto the class.  After the patch, when
    a sampler registers a buffer, the method runs with the class
    [DDIMSampler] as [self]: the buffer -- a tensor moved to the CPU with its
    data, any other value as it is -- is stored in the dictionary of the
    class, the dictionary of the sampler is unchanged, and every sampler that
    has no attribute of that name of its own reads the same buffer. *)
Theorem register_buffer_stores_on_class (h : heap) (cls s1 s2 : nat)
    (dc d1 d2 : gmap string value) (name : string) (attr : value) :
  h !! cls = Some {| obj_class := None; obj_dict := dc |} →
  h !! s1 = Some {| obj_class := Some cls; obj_dict := d1 |} →
  h !! s2 = Some {| obj_class := Some cls; obj_dict := d2 |} →
  d1 !! "register_buffer" = None →
  d2 !! name = None →
  let stored :=
    match attr with VTensor _ data => VTensor Cpu data | _ => attr end in
  ∃ h',
    (patch_register_buffer cls;; call_register_buffer s1 name attr) h = (inr tt, h') ∧
    getattr s2 name h' = (inr stored, h') ∧
    h' !! s1 = Some {| obj_class := Some cls; obj_dict := d1 |} ∧
    (obj_dict <$> h' !! cls) =
      Some (<[name := stored]> (<["register_buffer" := VMethod cls]> dc)).
Proof.
  intros Hcls Hs1 Hs2 Hd1 Hd2 stored.
  assert (cls ≠ s1) as Hne1 by (intros ->; congruence).
  assert (cls ≠ s2) as Hne2 by (intros ->; congruence).
  assert ((match attr with
           | VTensor dev data =>
               if bool_decide (dev ≠ Cpu) then VTensor Cpu data else attr
           | _ => attr
           end) = stored) as Hstored.
  { unfold stored. destruct attr as [dev data| |]; [|done|done].
    case_bool_decide as Hd; [done|]. destruct dev; [done|]. by destruct Hd. }
  eexists. split_and!.
  - unfold patch_register_buffer, call_register_buffer, register_buffer,
      setattr, getattr, class_attribute, mbind, PyM_bind.
    rewrite Hcls. rewrite lookup_insert_ne by done. rewrite Hs1.
    cbn [obj_dict obj_class]. rewrite Hd1. rewrite lookup_insert_eq.
    cbn [obj_dict obj_class]. rewrite lookup_insert_eq.
    rewrite lookup_insert_eq. cbn [obj_class obj_dict]. rewrite Hstored.
    rewrite insert_insert_eq. reflexivity.
  - unfold getattr, class_attribute. rewrite lookup_insert_ne by done.
    rewrite Hs2. cbn [obj_dict obj_class]. rewrite Hd2.
    rewrite lookup_insert_eq. cbn [obj_dict].
    by rewrite lookup_insert_eq.
  - by rewrite lookup_insert_ne.
  - by rewrite lookup_insert_eq.
Qed.

Lemma register_buffer_stores_on_class_witness :
  ∃ h',
    (patch_register_buffer 0;;
     call_register_buffer 1 "betas" (VTensor (Cuda 0) "0.1 0.2"))
      {[ 0 := {| obj_class := None; obj_dict := ∅ |};
         1 := {| obj_class := Some 0; obj_dict := {[ "model" := VOther PyNone ]} |};
         2 := {| obj_class := Some 0; obj_dict := ∅ |} ]}
    = (inr tt, h') ∧
    getattr 2 "betas" h' = (inr (VTensor Cpu "0.1 0.2"), h') ∧
    h' !! 1 = Some {| obj_class := Some 0;
                      obj_dict := {[ "model" := VOther PyNone ]} |}.
Proof.
  destruct (register_buffer_stores_on_class
              {[ 0 := {| obj_class := None; obj_dict := ∅ |};
                 1 := {| obj_class := Some 0;
                         obj_dict := {[ "model" := VOther PyNone ]} |};
                 2 := {| obj_class := Some 0; obj_dict := ∅ |} ]}
              0 1 2 ∅ {[ "model" := VOther PyNone ]} ∅ "betas"
              (VTensor (Cuda 0) "0.1 0.2"))
    as (h' & H1 & H2 & H3 & _);
    [vm_compute; reflexivity | vm_compute; reflexivity | vm_compute; reflexivity
    | vm_compute; reflexivity | vm_compute; reflexivity |].
  exists h'. split; [exact H1|]. split; [exact H2 | exact H3].
Defined.

(** * Running the conversion cells again *)

Section NotebookRun.
Context {nn_Module tensor ov_Model : Type}.
Variable ov_convert_model :
  nn_Module → tensor → option pyval → torch_state → (exc + ov_Model) * torch_state.
Variable serialize : ov_Model → bool → string.

Lemma run_cells_cons (r : request nn_Module tensor)
    (rs : list (request nn_Module tensor)) (w : world nn_Module tensor ov_Model) :
  run_cells ov_convert_model serialize (r :: rs) w =
  match run_request ov_convert_model serialize r w with
  | (inl e, w1) => (inl e, w1)
  | (inr _, w1) => run_cells ov_convert_model serialize rs w1
  end.
Proof. reflexivity. Qed.

(** A run of cells leaves what exists as it is. *)
Lemma run_cells_keeps (rs : list (request nn_Module tensor))
    (w : world nn_Module tensor ov_Model) (q : path) (k : kind) :
  stat (fs w) q = Some k →
  stat (fs (snd (run_cells ov_convert_model serialize rs w))) q = Some k.
Proof.
  revert w. induction rs as [|r rs IH]; intros w Hq; [done|].
  rewrite run_cells_cons.
  pose proof (convert_keeps ov_convert_model serialize (req_model r) (req_path r)
                (req_example r) (req_shape r) w q k Hq) as Hq1.
  fold (run_request ov_convert_model serialize r w) in Hq1.
  destruct (run_request ov_convert_model serialize r w) as [[e|[]] w1]; [done|].
  by apply IH.
Qed.

(** After a run that completes, the path of every cell exists. *)
Lemma run_cells_all_exist (rs : list (request nn_Module tensor))
    (w w' : world nn_Module tensor ov_Model) :
  run_cells ov_convert_model serialize rs w = (inr tt, w') →
  ∀ r, r ∈ rs → exists_ (fs w') (Path (req_path r)) = true.
Proof.
  revert w. induction rs as [|r0 rs IH]; intros w Hrun r Hin.
  { by apply elem_of_nil in Hin. }
  rewrite run_cells_cons in Hrun.
  destruct (run_request ov_convert_model serialize r0 w) as [[e|[]] w1] eqn:Hr0;
    [done|].
  apply elem_of_cons in Hin as [->|Hin]; [|by eapply IH].
  apply convert_returns_exists in Hr0. unfold exists_ in *.
  destruct (stat (fs w1) (Path (req_path r0))) as [k|] eqn:Hk; [|done].
  pose proof (run_cells_keeps rs w1 _ k Hk) as Hk'. rewrite Hrun in Hk'.
  cbn [snd] in Hk'. by rewrite Hk'.
Qed.

(** Cells whose paths all exist convert nothing. *)
Lemma run_cells_all_hits (rs : list (request nn_Module tensor))
    (w : world nn_Module tensor ov_Model) :
  (∀ r, r ∈ rs → exists_ (fs w) (Path (req_path r)) = true) →
  run_cells ov_convert_model serialize rs w = (inr tt, w).
Proof.
  induction rs as [|r rs IH]; intros Hall; [done|].
  rewrite run_cells_cons. unfold run_request.
  rewrite convert_hit by (apply Hall; by left).
  apply IH. intros r' Hin. apply Hall. by right.
Qed.

(** X16.  Running the notebook again converts nothing, and a run can be
    resumed.  After a run of conversion cells that completes, running the
    same cells again returns with the state unchanged: no call to the
    converter, no file written.  More generally, running these cells followed
    by further cells does what running the further cells alone does: the
    cells that are done are skipped. *)
Theorem run_cells_resumes (done_cells further : list (request nn_Module tensor))
    (w w' : world nn_Module tensor ov_Model) :
  run_cells ov_convert_model serialize done_cells w = (inr tt, w') →
  run_cells ov_convert_model serialize done_cells w' = (inr tt, w') ∧
  run_cells ov_convert_model serialize (done_cells ++ further) w' =
    run_cells ov_convert_model serialize further w'.
Proof.
  intros Hrun. pose proof (run_cells_all_exist _ _ _ Hrun) as Hall.
  split; [by apply run_cells_all_hits|].
  clear Hrun. induction done_cells as [|r rs IH]; [done|].
  change ((r :: rs) ++ further) with (r :: (rs ++ further)).
  rewrite run_cells_cons. unfold run_request.
  rewrite convert_hit by (apply Hall; by left).
  apply IH. intros r' Hin. apply Hall. by right.
Qed.

End NotebookRun.

Lemma run_cells_resumes_witness :
  run_cells Stub.convert_model Stub.serialize Stub.notebook_cells
    (snd (run_cells Stub.convert_model Stub.serialize Stub.notebook_cells
            Stub.empty_world))
  = (inr tt,
     snd (run_cells Stub.convert_model Stub.serialize Stub.notebook_cells
            Stub.empty_world)).
Proof.
  apply (run_cells_resumes Stub.convert_model Stub.serialize
           Stub.notebook_cells [] Stub.empty_world).
  vm_compute. reflexivity.
Defined.
